(** * Account resolution and identifier normalization of the WhatsApp plugin

    A shallow embedding of [elizaos_plugin_whatsapp/normalize.py] and
    [elizaos_plugin_whatsapp/accounts.py], with the properties of their
    specification stated and proved over it.

    Conventions of the embedding.
    - A Python [str] is a Rocq [string]: a sequence of characters whose code
      points are below 256.  On that range [str.isspace], [\s], [\d],
      [str.lower] and case-insensitive matching are the functions of module
      [Py] below.
    - A Python [int] is a [Z]; [None] is the [None] of an [option].
    - A [while] loop is a [Fixpoint] on a fuel argument; [None] (or the
      unchanged state) at fuel [0] means that the loop is still running.
    - The configuration models are validated by the pydantic library, which
      is no part of the repository.  What its default mode converts into a
      [bool], an [int] or a [str | int] is a parameter of the embedding
      (class [Pydantic]); the statements about the configuration hold for
      every validation that returns a value of the declared type as it
      is. *)

From Stdlib Require Import String Ascii List ZArith NArith Lia Bool Arith.
From Stdlib Require Import Sorted.
From Stdlib Require Import DecimalString.
Import ListNotations.

Local Open Scope string_scope.
Local Open Scope bool_scope.

(* ------------------------------------------------------------------------- *)
(** * Python string primitives *)
(* ------------------------------------------------------------------------- *)

Module Py.

Definition code (c : ascii) : N := N_of_ascii c.

Definition between (lo hi : N) (c : ascii) : bool :=
  (lo <=? code c)%N && (code c <=? hi)%N.

(** [str.isspace] on one character, also the class [\s] of [re]:
    TAB..CR, FS..US, SPACE, NEL and NBSP. *)
Definition isspace (c : ascii) : bool :=
  between 9 13 c || between 28 32 c || (code c =? 133)%N || (code c =? 160)%N.

(** The class [\d]; below 256 the decimal digits are [0-9]. *)
Definition isdigit (c : ascii) : bool := between 48 57 c.

(** [str.lower] on one character: A-Z, and the Latin-1 capitals but the
    multiplication sign. *)
Definition lower_char (c : ascii) : ascii :=
  if between 65 90 c || (between 192 222 c && negb (code c =? 215)%N)
  then ascii_of_N (code c + 32) else c.

Fixpoint lower (s : string) : string :=
  match s with
  | EmptyString => EmptyString
  | String c s' => String (lower_char c) (lower s')
  end.

Definition len (s : string) : Z := Z.of_nat (String.length s).

(** [not s] for a string. *)
Definition falsy (s : string) : bool :=
  match s with EmptyString => true | _ => false end.

Fixpoint lstrip (s : string) : string :=
  match s with
  | EmptyString => EmptyString
  | String c s' => if isspace c then lstrip s' else s
  end.

Fixpoint rstrip (s : string) : string :=
  match s with
  | EmptyString => EmptyString
  | String c s' =>
      match rstrip s' with
      | EmptyString => if isspace c then EmptyString else String c EmptyString
      | r => String c r
      end
  end.

Definition strip (s : string) : string := rstrip (lstrip s).

Fixpoint take (n : nat) (s : string) : string :=
  match n, s with
  | S n', String c s' => String c (take n' s')
  | _, _ => EmptyString
  end.

Fixpoint drop (n : nat) (s : string) : string :=
  match n, s with
  | S n', String _ s' => drop n' s'
  | _, _ => s
  end.

(** A slice bound as Python reads it: a negative bound counts from the
    end, and every bound is clipped to the string. *)
Definition bound (s : string) (i : Z) : nat :=
  Z.to_nat (if (i <? 0)%Z then Z.max 0 (len s + i) else i).

(** [s[:i]] and [s[i:]]. *)
Definition slice_to (s : string) (i : Z) : string := take (bound s i) s.
Definition slice_from (s : string) (i : Z) : string := drop (bound s i) s.

Definition startswith (s p : string) : bool := String.prefix p s.

Definition endswith (s p : string) : bool :=
  (String.length p <=? String.length s)%nat
  && (drop (String.length s - String.length p) s =? p).

(** [c in s] for a one-character needle. *)
Fixpoint has_char (c : ascii) (s : string) : bool :=
  match s with
  | EmptyString => false
  | String x s' => Ascii.eqb x c || has_char c s'
  end.

(** [re.sub] of a character class repeated one or more times by the empty
    string: the characters of the class are dropped. *)
Fixpoint remove_chars (cls : ascii -> bool) (s : string) : string :=
  match s with
  | EmptyString => EmptyString
  | String c s' =>
      if cls c then remove_chars cls s' else String c (remove_chars cls s')
  end.

(** [s.rfind(sub)], the highest index at which [sub] occurs, [-1] when
    there is none; [i] is the index of the head of [s]. *)
Fixpoint rfind_at (i : Z) (s sub : string) : Z :=
  match s with
  | EmptyString => if falsy sub then i else (-1)%Z
  | String _ s' =>
      let r := rfind_at (i + 1) s' sub in
      if (0 <=? r)%Z then r
      else if String.prefix sub s then i else (-1)%Z
  end.

Definition rfind (s sub : string) : Z := rfind_at 0 s sub.

(** [s * n]. *)
Fixpoint repeat (s : string) (n : nat) : string :=
  match n with
  | O => EmptyString
  | S n' => s ++ repeat s n'
  end.

(** [str(z)] for an integer. *)
Definition str_of_int (z : Z) : string := NilZero.string_of_int (Z.to_int z).

End Py.

(* ------------------------------------------------------------------------- *)
(** * normalize.py *)
(* ------------------------------------------------------------------------- *)

Definition WHATSAPP_TEXT_CHUNK_LIMIT : Z := 4096.

(** The class [[\s\-(). ]] of the first substitution of [normalize_e164]. *)
Definition e164_separator (c : ascii) : bool :=
  Py.isspace c
  || Ascii.eqb c "-" || Ascii.eqb c "(" || Ascii.eqb c ")"
  || Ascii.eqb c "." || Ascii.eqb c " ".

(** The class [[^\d+]] of the second substitution. *)
Definition e164_junk (c : ascii) : bool :=
  negb (Py.isdigit c || Ascii.eqb c "+").

Definition normalize_e164 (input_ : string) : string :=
  let stripped := Py.remove_chars e164_separator input_ in
  let digits_only := Py.remove_chars e164_junk stripped in
  if Py.falsy digits_only then ""
  else if Py.startswith digits_only "+" then digits_only
  else if Py.startswith digits_only "00" then "+" ++ Py.slice_from digits_only 2
  else if (10 <=? Py.len digits_only)%Z then "+" ++ digits_only
  else digits_only.

(** ** Regular expressions

    The patterns of the module are small; they are kept as syntax and run
    by derivatives. *)

Inductive regex : Type :=
| Rnone
| Reps
| Rclass (p : ascii -> bool)
| Rcat (r1 r2 : regex)
| Ralt (r1 r2 : regex)
| Rstar (r : regex).

Fixpoint nullable (r : regex) : bool :=
  match r with
  | Rnone => false
  | Reps => true
  | Rclass _ => false
  | Rcat r1 r2 => nullable r1 && nullable r2
  | Ralt r1 r2 => nullable r1 || nullable r2
  | Rstar _ => true
  end.

Fixpoint deriv (c : ascii) (r : regex) : regex :=
  match r with
  | Rnone => Rnone
  | Reps => Rnone
  | Rclass p => if p c then Reps else Rnone
  | Rcat r1 r2 =>
      if nullable r1 then Ralt (Rcat (deriv c r1) r2) (deriv c r2)
      else Rcat (deriv c r1) r2
  | Ralt r1 r2 => Ralt (deriv c r1) (deriv c r2)
  | Rstar r' => Rcat (deriv c r') (Rstar r')
  end.

Fixpoint accepts (r : regex) (s : string) : bool :=
  match s with
  | EmptyString => nullable r
  | String c s' => accepts (deriv c r) s'
  end.

Definition Rplus (r : regex) : regex := Rcat r (Rstar r).
Definition Ropt (r : regex) : regex := Ralt r Reps.

(** A literal character, and a literal under [re.IGNORECASE]. *)
Definition Rchr (c : ascii) : regex := Rclass (Ascii.eqb c).
Definition Rchr_i (c : ascii) : regex :=
  Rclass (fun x => Ascii.eqb (Py.lower_char x) (Py.lower_char c)).

Fixpoint Rlit_i (s : string) : regex :=
  match s with
  | EmptyString => Reps
  | String c s' => Rcat (Rchr_i c) (Rlit_i s')
  end.

(** [pattern.match(s)] for a pattern written [^...$]: the whole of [s] is
    matched, or the whole of [s] but one final newline, before which [$]
    matches too. *)
Definition re_match (r : regex) (s : string) : bool :=
  accepts r s
  || (Py.endswith s (String "010" "")
      && accepts r (Py.take (String.length s - 1) s)).

(** [^(\d+)(?::\d+)?@s\.whatsapp\.net$], case-insensitive. *)
Definition _WHATSAPP_USER_JID_RE : regex :=
  Rcat (Rplus (Rclass Py.isdigit))
    (Rcat (Ropt (Rcat (Rchr ":") (Rplus (Rclass Py.isdigit))))
       (Rlit_i "@s.whatsapp.net")).

(** [^(\d+)@lid$], case-insensitive. *)
Definition _WHATSAPP_LID_RE : regex :=
  Rcat (Rplus (Rclass Py.isdigit)) (Rlit_i "@lid").

(** [^[0-9]+(-[0-9]+)*$]. *)
Definition _GROUP_LOCAL_RE : regex :=
  Rcat (Rplus (Rclass (Py.between 48 57)))
    (Rstar (Rcat (Rchr "-") (Rplus (Rclass (Py.between 48 57))))).

(** Group 1 of the two JID patterns is their leading run of digits, which
    the character after it ([:] or [@]) makes the longest one. *)
Fixpoint leading_digits (s : string) : string :=
  match s with
  | EmptyString => EmptyString
  | String c s' =>
      if Py.isdigit c then String c (leading_digits s') else EmptyString
  end.

(** [_WHATSAPP_PREFIX_RE.sub("", candidate)] for [^whatsapp:],
    case-insensitive: anchored at the start, it removes one prefix at most. *)
Definition sub_whatsapp_prefix (candidate : string) : string :=
  if Py.startswith (Py.lower (Py.take 9 candidate)) "whatsapp:"
  then Py.drop 9 candidate else candidate.

(** The body of the [while True] loop of [_strip_whatsapp_target_prefixes]. *)
Fixpoint strip_prefix_loop (fuel : nat) (candidate : string) : string :=
  match fuel with
  | O => candidate
  | S fuel' =>
      let before := candidate in
      let candidate := Py.strip (sub_whatsapp_prefix candidate) in
      if candidate =? before then candidate
      else strip_prefix_loop fuel' candidate
  end.

Definition _strip_whatsapp_target_prefixes (value : string) : string :=
  let candidate := Py.strip value in
  strip_prefix_loop (S (String.length candidate)) candidate.

Definition is_whatsapp_group_jid (value : string) : bool :=
  let candidate := _strip_whatsapp_target_prefixes value in
  let lower := Py.lower candidate in
  if negb (Py.endswith lower "@g.us") then false
  else
    let local_part := Py.slice_to candidate (Py.len candidate - Py.len "@g.us") in
    if Py.falsy local_part || Py.has_char "@" local_part then false
    else re_match _GROUP_LOCAL_RE local_part.

Definition is_whatsapp_user_target (value : string) : bool :=
  let candidate := _strip_whatsapp_target_prefixes value in
  re_match _WHATSAPP_USER_JID_RE candidate || re_match _WHATSAPP_LID_RE candidate.

Definition _extract_user_jid_phone (jid : string) : option string :=
  if re_match _WHATSAPP_USER_JID_RE jid then Some (leading_digits jid)
  else if re_match _WHATSAPP_LID_RE jid then Some (leading_digits jid)
  else None.

Definition normalize_whatsapp_target (value : string) : option string :=
  let candidate := _strip_whatsapp_target_prefixes value in
  if Py.falsy candidate then None
  else if is_whatsapp_group_jid candidate then
    let local_part := Py.slice_to candidate (Py.len candidate - Py.len "@g.us") in
    Some (local_part ++ "@g.us")
  else if is_whatsapp_user_target candidate then
    match _extract_user_jid_phone candidate with
    | None => None
    | Some phone =>
        let normalized := normalize_e164 phone in
        if (1 <? Py.len normalized)%Z then Some normalized else None
    end
  else if Py.has_char "@" candidate then None
  else
    let normalized := normalize_e164 candidate in
    if (1 <? Py.len normalized)%Z then Some normalized else None.

(** ** Text chunking *)

Definition NL : string := String "010" EmptyString.

Definition _split_at_break_point (text : string) (limit : Z)
  : string * string :=
  if (Py.len text <=? limit)%Z then (text, "")
  else
    let search_area := Py.slice_to text limit in
    (* int(limit * 0.5): int truncates towards zero; the product is exact
       for a limit below the length of a text *)
    let half := Z.quot limit 2 in
    (* Prefer double newlines (paragraph breaks) *)
    let idx := Py.rfind search_area (NL ++ NL) in
    if (half <? idx)%Z then
      (Py.rstrip (Py.slice_to text idx), Py.lstrip (Py.slice_from text (idx + 2)))
    else
    (* Single newlines *)
    let idx := Py.rfind search_area NL in
    if (half <? idx)%Z then
      (Py.rstrip (Py.slice_to text idx), Py.lstrip (Py.slice_from text (idx + 1)))
    else
    (* Sentence boundaries *)
    let sentence_end :=
      Z.max (Z.max (Py.rfind search_area ". ") (Py.rfind search_area "! "))
            (Py.rfind search_area "? ") in
    if (half <? sentence_end)%Z then
      (Py.rstrip (Py.slice_to text (sentence_end + 1)),
       Py.lstrip (Py.slice_from text (sentence_end + 2)))
    else
    (* Word boundaries *)
    let idx := Py.rfind search_area " " in
    if (half <? idx)%Z then
      (Py.rstrip (Py.slice_to text idx), Py.lstrip (Py.slice_from text (idx + 1)))
    else
    (* Hard break *)
    (Py.slice_to text limit, Py.slice_from text limit).

(** The loop [while remaining: ...] of [chunk_whatsapp_text]; one unit of
    fuel pays for one iteration, [None] says the loop has not exited yet. *)
Fixpoint chunk_loop (fuel : nat) (effective_limit : Z) (remaining : string)
    (chunks : list string) : option (list string) :=
  if Py.falsy remaining then Some chunks
  else
    match fuel with
    | O => None
    | S fuel' =>
        let '(chunk, remaining) :=
          _split_at_break_point remaining effective_limit in
        chunk_loop fuel' effective_limit remaining
          (if Py.falsy chunk then chunks else chunks ++ [chunk])
    end.

Definition chunk_whatsapp_text (fuel : nat) (text : string) (limit : option Z)
  : option (list string) :=
  let effective_limit :=
    match limit with Some l => l | None => WHATSAPP_TEXT_CHUNK_LIMIT end in
  if Py.falsy text || Py.falsy (Py.strip text) then Some []
  else
    let normalized_text := Py.strip text in
    if (Py.len normalized_text <=? effective_limit)%Z then Some [normalized_text]
    else
      option_map (filter (fun c => negb (Py.falsy c)))
        (chunk_loop fuel effective_limit normalized_text []).

(* ------------------------------------------------------------------------- *)
(** * accounts.py *)
(* ------------------------------------------------------------------------- *)

(** ** Exceptions *)

Inductive exn : Type := ValidationError.

Inductive result (A : Type) : Type :=
| Ok (a : A)
| Raise (e : exn).

Arguments Ok {A} a.
Arguments Raise {A} e.

Definition bind {A B : Type} (c : result A) (k : A -> result B) : result B :=
  match c with
  | Ok a => k a
  | Raise e => Raise e
  end.

Notation "x <- c ;; k" := (bind c (fun x => k))
  (at level 61, c at next level, right associativity).

Fixpoint mapM {A B : Type} (f : A -> result B) (l : list A) : result (list B) :=
  match l with
  | [] => Ok []
  | a :: l' => b <- f a ;; bs <- mapM f l' ;; Ok (b :: bs)
  end.

(** ** Python values and dicts

    What a runtime hands over is untyped: a value is [None], a [bool], an
    [int], a [str], a [list], a [dict] with string keys, or a plain object
    with attributes.  A dict keeps its insertion order. *)

#[local] Set Warnings "-register-all".

Inductive pyval : Type :=
| PNone
| PBool (b : bool)
| PInt (z : Z)
| PStr (s : string)
| PList (l : list pyval)
| PDict (d : list (string * pyval))
| PObj (attrs : list (string * pyval)).

Definition dict (V : Type) : Type := list (string * V).

Fixpoint dict_get {V : Type} (k : string) (d : dict V) : option V :=
  match d with
  | [] => None
  | (k', v) :: d' => if k' =? k then Some v else dict_get k d'
  end.

(** [d[k] = v]. *)
Fixpoint dict_set {V : Type} (d : dict V) (k : string) (v : V) : dict V :=
  match d with
  | [] => [(k, v)]
  | (k', v') :: d' =>
      if k' =? k then (k', v) :: d' else (k', v') :: dict_set d' k v
  end.

(** The dict display that unpacks [d1], then [d2]. *)
Definition dict_update {V : Type} (d1 d2 : dict V) : dict V :=
  fold_left (fun d kv => dict_set d (fst kv) (snd kv)) d2 d1.

(** [d.get(k)] on an untyped dict. *)
Definition py_get (k : string) (d : dict pyval) : pyval :=
  match dict_get k d with Some v => v | None => PNone end.

(** [bool(v)]. *)
Definition truthy (v : pyval) : bool :=
  match v with
  | PNone => false
  | PBool b => b
  | PInt z => negb (z =? 0)%Z
  | PStr s => negb (Py.falsy s)
  | PList l => match l with [] => false | _ => true end
  | PDict d => match d with [] => false | _ => true end
  | PObj _ => true
  end.

Definition is_dict (v : pyval) : bool :=
  match v with PDict _ => true | _ => false end.

(** [getattr(v, name, None)]; only an object has attributes of its own, and
    its [__dict__] is the dict of them. *)
Definition getattr (v : pyval) (name : string) : pyval :=
  match v with
  | PObj attrs =>
      if name =? "__dict__" then PDict attrs else py_get name attrs
  | _ => PNone
  end.

(** ** Configuration models *)

(** An entry of an allowlist, [str | int]. *)
Inductive str_or_int : Type :=
| IsStr (s : string)
| IsInt (z : Z).

(** [str(a)]. *)
Definition py_str (a : str_or_int) : string :=
  match a with
  | IsStr s => s
  | IsInt z => Py.str_of_int z
  end.

Record WhatsAppGroupRuntimeConfig : Type := {
  grp_enabled : option bool;
  grp_allow_from : option (list str_or_int);
  grp_require_mention : option bool;
  grp_system_prompt : option string;
  grp_skills : option (list string)
}.

Record WhatsAppAccountRuntimeConfig : Type := {
  name : option string;
  enabled : option bool;
  access_token : option string;
  phone_number_id : option string;
  business_account_id : option string;
  webhook_verify_token : option string;
  api_version : option string;
  allow_from : option (list str_or_int);
  group_allow_from : option (list str_or_int);
  dm_policy : option string;
  group_policy : option string;
  media_max_mb : option Z;
  text_chunk_limit : option Z;
  groups : option (dict WhatsAppGroupRuntimeConfig)
}.

Record WhatsAppMultiAccountConfig : Type := {
  multi_enabled : option bool;
  multi_access_token : option string;
  multi_phone_number_id : option string;
  multi_business_account_id : option string;
  multi_webhook_verify_token : option string;
  multi_api_version : option string;
  multi_dm_policy : option string;
  multi_group_policy : option string;
  multi_media_max_mb : option Z;
  multi_text_chunk_limit : option Z;
  multi_accounts : option (dict WhatsAppAccountRuntimeConfig);
  multi_groups : option (dict WhatsAppGroupRuntimeConfig)
}.

Inductive WhatsAppTokenSource : Type := CONFIG | ENV | CHARACTER | NONE.

Record WhatsAppTokenResolution : Type := {
  token : string;
  source : WhatsAppTokenSource
}.

Record ResolvedWhatsAppAccount : Type := {
  res_account_id : string;
  res_enabled : bool;
  res_name : option string;
  res_access_token : string;
  res_phone_number_id : string;
  res_business_account_id : option string;
  res_token_source : WhatsAppTokenSource;
  res_configured : bool;
  res_config : WhatsAppAccountRuntimeConfig
}.

(** The runtime: its [character] attribute ([PNone] when there is none) and
    its [get_setting] method. *)
Record AgentRuntime : Type := {
  character : pyval;
  get_setting : string -> option string
}.

(** ** Model validation

    Constructing a model validates its fields against their annotations
    and raises on a value that does not fit.  The models are pydantic
    models in the library's default (lax) mode.  On the values of this
    embedding a [str], a [Literal], a [list] and a [dict] field accept a
    value of their own kind only.  A [bool], an [int] and an entry of type
    [str | int] also accept values of other kinds that the library converts
    (the string ["16"] for an [int], [1] for a [bool], [True] for a
    [str | int]).  The library is no part of the repository, and its
    conversions are kept abstract: they are the three functions of the
    class [Pydantic], of which only what follows is assumed.  A value that
    already has the declared type is returned as it is, and a list is no
    [int].  Whatever is proved below holds for every such validation. *)

Class Pydantic : Type := {
  lax_bool : pyval -> result bool;
  lax_int : pyval -> result Z;
  lax_str_or_int : pyval -> result str_or_int;
  lax_bool_bool : forall b, lax_bool (PBool b) = Ok b;
  lax_int_int : forall z, lax_int (PInt z) = Ok z;
  lax_int_list : forall l, lax_int (PList l) = Raise ValidationError;
  lax_str_or_int_str : forall s, lax_str_or_int (PStr s) = Ok (IsStr s);
  lax_str_or_int_int : forall z, lax_str_or_int (PInt z) = Ok (IsInt z)
}.

(** The validation that converts nothing (the library's strict mode).  The
    closed examples below are evaluated with it; the values of their
    configurations have the declared types, or fail a [Literal], a [dict]
    or the list test above, so that every validation gives the same
    result on them. *)
Definition strict_mode : Pydantic :=
  {| lax_bool := fun v =>
       match v with PBool b => Ok b | _ => Raise ValidationError end;
     lax_int := fun v =>
       match v with PInt z => Ok z | _ => Raise ValidationError end;
     lax_str_or_int := fun v =>
       match v with
       | PStr s => Ok (IsStr s)
       | PInt z => Ok (IsInt z)
       | _ => Raise ValidationError
       end;
     lax_bool_bool := fun b => eq_refl;
     lax_int_int := fun z => eq_refl;
     lax_int_list := fun l => eq_refl;
     lax_str_or_int_str := fun s => eq_refl;
     lax_str_or_int_int := fun z => eq_refl |}.

Section Configuration.

Context {pydantic : Pydantic}.

(** [bool | None]. *)
Definition validate_opt_bool (v : pyval) : result (option bool) :=
  match v with
  | PNone => Ok None
  | _ => b <- lax_bool v ;; Ok (Some b)
  end.

Definition validate_opt_str (v : pyval) : result (option string) :=
  match v with
  | PNone => Ok None
  | PStr s => Ok (Some s)
  | _ => Raise ValidationError
  end.

(** [int | None]. *)
Definition validate_opt_int (v : pyval) : result (option Z) :=
  match v with
  | PNone => Ok None
  | _ => z <- lax_int v ;; Ok (Some z)
  end.

(** [Literal[...] | None]. *)
Definition validate_opt_literal (allowed : list string) (v : pyval)
  : result (option string) :=
  match v with
  | PNone => Ok None
  | PStr s =>
      if existsb (String.eqb s) allowed then Ok (Some s)
      else Raise ValidationError
  | _ => Raise ValidationError
  end.

Definition DM_POLICIES : list string := ["open"; "allowlist"; "pairing"; "disabled"].
Definition GROUP_POLICIES : list string := ["open"; "allowlist"; "disabled"].

(** [str | int]. *)
Definition validate_str_or_int (v : pyval) : result str_or_int :=
  lax_str_or_int v.

Definition validate_str (v : pyval) : result string :=
  match v with
  | PStr s => Ok s
  | _ => Raise ValidationError
  end.

Definition validate_opt_list {A : Type} (f : pyval -> result A) (v : pyval)
  : result (option (list A)) :=
  match v with
  | PNone => Ok None
  | PList l => r <- mapM f l ;; Ok (Some r)
  | _ => Raise ValidationError
  end.

Definition validate_opt_dict {A : Type} (f : pyval -> result A) (v : pyval)
  : result (option (dict A)) :=
  match v with
  | PNone => Ok None
  | PDict d => r <- mapM (fun kv => a <- f (snd kv) ;; Ok (fst kv, a)) d ;; Ok (Some r)
  | _ => Raise ValidationError
  end.

(** The value given for a field: under its alias, else ([populate_by_name])
    under its name, else the default [None]. *)
Definition field (d : dict pyval) (alias fname : string) : pyval :=
  match dict_get alias d with
  | Some v => v
  | None => py_get fname d
  end.

(** The constructor [WhatsAppGroupRuntimeConfig] on the keyword arguments [d]. *)
Definition validate_group_fields (d : dict pyval)
  : result WhatsAppGroupRuntimeConfig :=
  e <- validate_opt_bool (field d "enabled" "enabled") ;;
  af <- validate_opt_list validate_str_or_int (field d "allowFrom" "allow_from") ;;
  rm <- validate_opt_bool (field d "requireMention" "require_mention") ;;
  sp <- validate_opt_str (field d "systemPrompt" "system_prompt") ;;
  sk <- validate_opt_list validate_str (field d "skills" "skills") ;;
  Ok {| grp_enabled := e; grp_allow_from := af; grp_require_mention := rm;
        grp_system_prompt := sp; grp_skills := sk |}.

(** A value for a field of a model type is a dict of that model's fields. *)
Definition validate_group (v : pyval) : result WhatsAppGroupRuntimeConfig :=
  match v with
  | PDict d => validate_group_fields d
  | _ => Raise ValidationError
  end.

(** The constructor [WhatsAppAccountRuntimeConfig] on the keyword arguments [d]. *)
Definition validate_account_fields (d : dict pyval)
  : result WhatsAppAccountRuntimeConfig :=
  n <- validate_opt_str (field d "name" "name") ;;
  e <- validate_opt_bool (field d "enabled" "enabled") ;;
  at_ <- validate_opt_str (field d "accessToken" "access_token") ;;
  pn <- validate_opt_str (field d "phoneNumberId" "phone_number_id") ;;
  ba <- validate_opt_str (field d "businessAccountId" "business_account_id") ;;
  wv <- validate_opt_str (field d "webhookVerifyToken" "webhook_verify_token") ;;
  av <- validate_opt_str (field d "apiVersion" "api_version") ;;
  af <- validate_opt_list validate_str_or_int (field d "allowFrom" "allow_from") ;;
  gaf <- validate_opt_list validate_str_or_int (field d "groupAllowFrom" "group_allow_from") ;;
  dp <- validate_opt_literal DM_POLICIES (field d "dmPolicy" "dm_policy") ;;
  gp <- validate_opt_literal GROUP_POLICIES (field d "groupPolicy" "group_policy") ;;
  mm <- validate_opt_int (field d "mediaMaxMb" "media_max_mb") ;;
  tc <- validate_opt_int (field d "textChunkLimit" "text_chunk_limit") ;;
  gs <- validate_opt_dict validate_group (field d "groups" "groups") ;;
  Ok {| name := n; enabled := e; access_token := at_; phone_number_id := pn;
        business_account_id := ba; webhook_verify_token := wv;
        api_version := av; allow_from := af; group_allow_from := gaf;
        dm_policy := dp; group_policy := gp; media_max_mb := mm;
        text_chunk_limit := tc; groups := gs |}.

Definition validate_account (v : pyval) : result WhatsAppAccountRuntimeConfig :=
  match v with
  | PDict d => validate_account_fields d
  | _ => Raise ValidationError
  end.

(** The constructor [WhatsAppMultiAccountConfig] on the keyword arguments [d]. *)
Definition validate_multi_fields (d : dict pyval)
  : result WhatsAppMultiAccountConfig :=
  e <- validate_opt_bool (field d "enabled" "enabled") ;;
  at_ <- validate_opt_str (field d "accessToken" "access_token") ;;
  pn <- validate_opt_str (field d "phoneNumberId" "phone_number_id") ;;
  ba <- validate_opt_str (field d "businessAccountId" "business_account_id") ;;
  wv <- validate_opt_str (field d "webhookVerifyToken" "webhook_verify_token") ;;
  av <- validate_opt_str (field d "apiVersion" "api_version") ;;
  dp <- validate_opt_literal DM_POLICIES (field d "dmPolicy" "dm_policy") ;;
  gp <- validate_opt_literal GROUP_POLICIES (field d "groupPolicy" "group_policy") ;;
  mm <- validate_opt_int (field d "mediaMaxMb" "media_max_mb") ;;
  tc <- validate_opt_int (field d "textChunkLimit" "text_chunk_limit") ;;
  ac <- validate_opt_dict validate_account (field d "accounts" "accounts") ;;
  gs <- validate_opt_dict validate_group (field d "groups" "groups") ;;
  Ok {| multi_enabled := e; multi_access_token := at_;
        multi_phone_number_id := pn; multi_business_account_id := ba;
        multi_webhook_verify_token := wv; multi_api_version := av;
        multi_dm_policy := dp; multi_group_policy := gp;
        multi_media_max_mb := mm; multi_text_chunk_limit := tc;
        multi_accounts := ac; multi_groups := gs |}.

(** ** [model_dump(by_alias=True)] *)

Definition dump_opt {A : Type} (f : A -> pyval) (o : option A) : pyval :=
  match o with Some a => f a | None => PNone end.

Definition dump_str_or_int (a : str_or_int) : pyval :=
  match a with IsStr s => PStr s | IsInt z => PInt z end.

Definition dump_list {A : Type} (f : A -> pyval) (l : list A) : pyval :=
  PList (map f l).

Definition dump_dict {A : Type} (f : A -> pyval) (d : dict A) : pyval :=
  PDict (map (fun kv => (fst kv, f (snd kv))) d).

Definition dump_group (g : WhatsAppGroupRuntimeConfig) : pyval :=
  PDict [ ("enabled", dump_opt PBool (grp_enabled g));
          ("allowFrom", dump_opt (dump_list dump_str_or_int) (grp_allow_from g));
          ("requireMention", dump_opt PBool (grp_require_mention g));
          ("systemPrompt", dump_opt PStr (grp_system_prompt g));
          ("skills", dump_opt (dump_list PStr) (grp_skills g)) ].

Definition dump_account (c : WhatsAppAccountRuntimeConfig) : dict pyval :=
  [ ("name", dump_opt PStr (name c));
    ("enabled", dump_opt PBool (enabled c));
    ("accessToken", dump_opt PStr (access_token c));
    ("phoneNumberId", dump_opt PStr (phone_number_id c));
    ("businessAccountId", dump_opt PStr (business_account_id c));
    ("webhookVerifyToken", dump_opt PStr (webhook_verify_token c));
    ("apiVersion", dump_opt PStr (api_version c));
    ("allowFrom", dump_opt (dump_list dump_str_or_int) (allow_from c));
    ("groupAllowFrom", dump_opt (dump_list dump_str_or_int) (group_allow_from c));
    ("dmPolicy", dump_opt PStr (dm_policy c));
    ("groupPolicy", dump_opt PStr (group_policy c));
    ("mediaMaxMb", dump_opt PInt (media_max_mb c));
    ("textChunkLimit", dump_opt PInt (text_chunk_limit c));
    ("groups", dump_opt (dump_dict dump_group) (groups c)) ].

(** [multi_config.model_dump(by_alias=True, exclude={"accounts"})]. *)
Definition dump_multi_base (c : WhatsAppMultiAccountConfig) : dict pyval :=
  [ ("enabled", dump_opt PBool (multi_enabled c));
    ("accessToken", dump_opt PStr (multi_access_token c));
    ("phoneNumberId", dump_opt PStr (multi_phone_number_id c));
    ("businessAccountId", dump_opt PStr (multi_business_account_id c));
    ("webhookVerifyToken", dump_opt PStr (multi_webhook_verify_token c));
    ("apiVersion", dump_opt PStr (multi_api_version c));
    ("dmPolicy", dump_opt PStr (multi_dm_policy c));
    ("groupPolicy", dump_opt PStr (multi_group_policy c));
    ("mediaMaxMb", dump_opt PInt (multi_media_max_mb c));
    ("textChunkLimit", dump_opt PInt (multi_text_chunk_limit c));
    ("groups", dump_opt (dump_dict dump_group) (multi_groups c)) ].

(** ** Account ID helpers *)

Definition DEFAULT_ACCOUNT_ID : string := "default".

Definition normalize_account_id (account_id : option string) : string :=
  match account_id with
  | None => DEFAULT_ACCOUNT_ID
  | Some a =>
      if Py.falsy a then DEFAULT_ACCOUNT_ID
      else
        let trimmed := Py.lower (Py.strip a) in
        if Py.falsy trimmed || (trimmed =? "default") then DEFAULT_ACCOUNT_ID
        else trimmed
  end.

(** ** Multi-account config extraction *)

Definition _get_character_whatsapp (runtime : AgentRuntime)
  : option (dict pyval) :=
  match character runtime with
  | PNone => None
  | ch =>
      let settings :=
        match ch with
        | PDict d => py_get "settings" d
        | _ =>
            let settings := getattr ch "settings" in
            if truthy settings && negb (is_dict settings)
            then getattr settings "__dict__" else settings
        end in
      match settings with
      | PDict s =>
          if negb (truthy settings) then None
          else match py_get "whatsapp" s with
               | PDict wa => Some wa
               | _ => None
               end
      | _ => None
      end
  end.

Definition empty_multi_config : WhatsAppMultiAccountConfig :=
  {| multi_enabled := None; multi_access_token := None;
     multi_phone_number_id := None; multi_business_account_id := None;
     multi_webhook_verify_token := None; multi_api_version := None;
     multi_dm_policy := None; multi_group_policy := None;
     multi_media_max_mb := None; multi_text_chunk_limit := None;
     multi_accounts := None; multi_groups := None |}.

Definition get_multi_account_config (runtime : AgentRuntime)
  : result WhatsAppMultiAccountConfig :=
  match _get_character_whatsapp runtime with
  | None => Ok empty_multi_config
  | Some [] => Ok empty_multi_config
  | Some wa =>
      validate_multi_fields
        [ ("enabled", py_get "enabled" wa);
          ("accessToken", py_get "accessToken" wa);
          ("phoneNumberId", py_get "phoneNumberId" wa);
          ("businessAccountId", py_get "businessAccountId" wa);
          ("webhookVerifyToken", py_get "webhookVerifyToken" wa);
          ("apiVersion", py_get "apiVersion" wa);
          ("dmPolicy", py_get "dmPolicy" wa);
          ("groupPolicy", py_get "groupPolicy" wa);
          ("mediaMaxMb", py_get "mediaMaxMb" wa);
          ("textChunkLimit", py_get "textChunkLimit" wa);
          ("accounts", py_get "accounts" wa);
          ("groups", py_get "groups" wa) ]
  end.

(** ** Account-specific config lookup

    The values of a validated [accounts] dict are model instances, which
    are truthy and are returned as they are. *)

Definition _get_account_config (runtime : AgentRuntime) (account_id : string)
  : result (option WhatsAppAccountRuntimeConfig) :=
  config <- get_multi_account_config runtime ;;
  match multi_accounts config with
  | None => Ok None
  | Some [] => Ok None
  | Some accounts =>
      (* Direct match *)
      match dict_get account_id accounts with
      | Some direct => Ok (Some direct)
      | None =>
          (* Normalized match *)
          let normalized := normalize_account_id (Some account_id) in
          Ok (option_map snd
                (find (fun kv => normalize_account_id (Some (fst kv)) =? normalized)
                   accounts))
      end
  end.

(** ** Token resolution *)

(** [s and s.strip()] as a condition, for [s : str | None]. *)
Definition nonblank (s : option string) : bool :=
  match s with
  | Some s => negb (Py.falsy s) && negb (Py.falsy (Py.strip s))
  | None => false
  end.

(** [s.strip()] for [s : str | None] known to be a string. *)
Definition stripped (s : option string) : string :=
  match s with Some s => Py.strip s | None => "" end.

Definition resolve_whatsapp_token (runtime : AgentRuntime) (account_id : string)
  : result WhatsAppTokenResolution :=
  multi_config <- get_multi_account_config runtime ;;
  account_config <- _get_account_config runtime account_id ;;
  (* Account-level *)
  if match account_config with
     | Some ac => nonblank (access_token ac)
     | None => false
     end
  then
    Ok {| token := stripped (match account_config with
                             | Some ac => access_token ac
                             | None => None
                             end);
          source := CONFIG |}
  else
    (* Default account fallbacks *)
    if account_id =? DEFAULT_ACCOUNT_ID then
      if nonblank (multi_access_token multi_config) then
        Ok {| token := stripped (multi_access_token multi_config);
              source := CONFIG |}
      else
        let env_token := get_setting runtime "WHATSAPP_ACCESS_TOKEN" in
        if nonblank env_token then
          Ok {| token := stripped env_token; source := ENV |}
        else Ok {| token := ""; source := NONE |}
    else Ok {| token := ""; source := NONE |}.

(** ** Config merging *)

Definition is_none (v : pyval) : bool :=
  match v with PNone => true | _ => false end.

Definition _filter_defined (d : dict pyval) : dict pyval :=
  filter (fun kv => negb (is_none (snd kv))) d.

(** [value or None] for a setting. *)
Definition or_none (s : option string) : pyval :=
  match s with
  | Some s => if Py.falsy s then PNone else PStr s
  | None => PNone
  end.

Definition _merge_whatsapp_account_config (runtime : AgentRuntime)
    (account_id : string) : result WhatsAppAccountRuntimeConfig :=
  multi_config <- get_multi_account_config runtime ;;
  account_config <- _get_account_config runtime account_id ;;
  let account_dict :=
    match account_config with Some ac => dump_account ac | None => [] end in
  (* Base config (everything except accounts) *)
  let base_dict := dump_multi_base multi_config in
  (* Environment settings *)
  let env_token := get_setting runtime "WHATSAPP_ACCESS_TOKEN" in
  let env_phone := get_setting runtime "WHATSAPP_PHONE_NUMBER_ID" in
  let env_business := get_setting runtime "WHATSAPP_BUSINESS_ACCOUNT_ID" in
  let env_webhook := get_setting runtime "WHATSAPP_WEBHOOK_VERIFY_TOKEN" in
  let env_dm_policy := get_setting runtime "WHATSAPP_DM_POLICY" in
  let env_group_policy := get_setting runtime "WHATSAPP_GROUP_POLICY" in
  let env_dict :=
    [ ("accessToken", or_none env_token);
      ("phoneNumberId", or_none env_phone);
      ("businessAccountId", or_none env_business);
      ("webhookVerifyToken", or_none env_webhook);
      ("dmPolicy", or_none env_dm_policy);
      ("groupPolicy", or_none env_group_policy) ] in
  (* Merge order: env < base < account *)
  let merged :=
    dict_update (dict_update (dict_update [] (_filter_defined env_dict))
                   (_filter_defined base_dict))
      (_filter_defined account_dict) in
  validate_account_fields merged.

(** ** Full account resolution *)

(** [x is not False] for [x : bool | None]. *)
Definition is_not_false (b : option bool) : bool :=
  match b with Some false => false | _ => true end.

(** [(s.strip() if s else None) or None]. *)
Definition strip_or_none (s : option string) : option string :=
  match s with
  | Some s =>
      if Py.falsy s then None
      else if Py.falsy (Py.strip s) then None else Some (Py.strip s)
  | None => None
  end.

Definition resolve_whatsapp_account (runtime : AgentRuntime)
    (account_id : option string) : result ResolvedWhatsAppAccount :=
  let normalized_id := normalize_account_id account_id in
  multi_config <- get_multi_account_config runtime ;;
  let base_enabled := is_not_false (multi_enabled multi_config) in
  merged <- _merge_whatsapp_account_config runtime normalized_id ;;
  let account_enabled := is_not_false (enabled merged) in
  let enabled_ := base_enabled && account_enabled in
  resolution <- resolve_whatsapp_token runtime normalized_id ;;
  let phone_number_id_ :=
    Py.strip (match phone_number_id merged with
              | Some s => if Py.falsy s then "" else s
              | None => ""
              end) in
  let configured :=
    negb (Py.falsy (token resolution)) && negb (Py.falsy phone_number_id_) in
  Ok {| res_account_id := normalized_id;
        res_enabled := enabled_;
        res_name := strip_or_none (name merged);
        res_access_token := token resolution;
        res_phone_number_id := phone_number_id_;
        res_business_account_id := strip_or_none (business_account_id merged);
        res_token_source := source resolution;
        res_configured := configured;
        res_config := merged |}.

(** ** Group config resolution *)

Definition nonempty_dict {V : Type} (d : option (dict V)) : option (dict V) :=
  match d with
  | Some (kv :: d') => Some (kv :: d')
  | _ => None
  end.

Definition resolve_whatsapp_group_config (runtime : AgentRuntime)
    (account_id group_id : string) : result (option WhatsAppGroupRuntimeConfig) :=
  multi_config <- get_multi_account_config runtime ;;
  account_config <- _get_account_config runtime account_id ;;
  (* Account-level groups *)
  let account_group :=
    match account_config with
    | Some ac =>
        match nonempty_dict (groups ac) with
        | Some gs => dict_get group_id gs
        | None => None
        end
    | None => None
    end in
  match account_group with
  | Some group => Ok (Some group)
  | None =>
      (* Base-level groups *)
      match nonempty_dict (multi_groups multi_config) with
      | Some gs => Ok (dict_get group_id gs)
      | None => Ok None
      end
  end.

(** ** Allowlist management *)

(** [p or default] for a policy. *)
Definition policy_or (p : option string) (default : string) : string :=
  match p with
  | Some s => if Py.falsy s then default else s
  | None => default
  end.

(** [any(str(a) == identifier for a in l)]. *)
Definition any_str_eq (identifier : string) (l : list str_or_int) : bool :=
  existsb (fun a => py_str a =? identifier) l.

(** A list that is present and not empty, as a condition reads it. *)
Definition nonempty_list {A : Type} (l : option (list A)) : option (list A) :=
  match l with
  | Some (a :: l') => Some (a :: l')
  | _ => None
  end.

Definition is_whatsapp_user_allowed (identifier : string)
    (account_config : WhatsAppAccountRuntimeConfig) (is_group : bool)
    (group_id : option string)
    (group_config : option WhatsAppGroupRuntimeConfig) : bool :=
  if is_group then
    let policy := policy_or (group_policy account_config) "allowlist" in
    if policy =? "disabled" then false
    else if policy =? "open" then true
    else
      (* Group-specific allowlist *)
      match match group_config with
            | Some gc => nonempty_list (grp_allow_from gc)
            | None => None
            end with
      | Some l => any_str_eq identifier l
      | None =>
          (* Account-level group allowlist *)
          match nonempty_list (group_allow_from account_config) with
          | Some l => any_str_eq identifier l
          | None => negb (policy =? "allowlist")
          end
      end
  else
    (* DM handling *)
    let policy := policy_or (dm_policy account_config) "pairing" in
    if policy =? "disabled" then false
    else if policy =? "open" then true
    else if policy =? "pairing" then true
    else
      (* Allowlist policy *)
      match nonempty_list (allow_from account_config) with
      | Some l => any_str_eq identifier l
      | None => false
      end.

Definition is_whatsapp_group_allowed (group_id : string)
    (account_config : WhatsAppAccountRuntimeConfig)
    (group_config : option WhatsAppGroupRuntimeConfig) : bool :=
  let policy := policy_or (group_policy account_config) "allowlist" in
  if policy =? "disabled" then false
  else if policy =? "open" then true
  else
    (* Group-specific config takes precedence *)
    match group_config with
    | Some gc => is_not_false (grp_enabled gc)
    | None =>
        (* Check account-level group allowlist *)
        match nonempty_list (group_allow_from account_config) with
        | Some l => any_str_eq group_id l
        | None => negb (policy =? "allowlist")
        end
    end.

End Configuration.

(* ------------------------------------------------------------------------- *)
(** * normalize.py: formatting, truncation and validation *)
(* ------------------------------------------------------------------------- *)

(** [s.lstrip(c)] for a one-character set. *)
Fixpoint lstrip_char (c : ascii) (s : string) : string :=
  match s with
  | EmptyString => EmptyString
  | String x s' => if Ascii.eqb x c then lstrip_char c s' else s
  end.

(** [s[i:j]]. *)
Definition slice_between (s : string) (i j : Z) : string :=
  Py.take (Py.bound s j - Py.bound s i) (Py.drop (Py.bound s i) s).

(** [r{n}] and [r{0,n}]. *)
Fixpoint Rpow (n : nat) (r : regex) : regex :=
  match n with
  | O => Reps
  | S n' => Rcat r (Rpow n' r)
  end.

Fixpoint Rupto (n : nat) (r : regex) : regex :=
  match n with
  | O => Reps
  | S n' => Ropt (Rcat r (Rupto n' r))
  end.

(** The pattern [\d{10,15}] of [is_valid_whatsapp_number]; [re.fullmatch]
    is [accepts]. *)
Definition _E164_DIGITS_RE : regex :=
  Rcat (Rpow 10 (Rclass Py.isdigit)) (Rupto 5 (Rclass Py.isdigit)).

Definition format_whatsapp_id (id_ : string) : string :=
  if is_whatsapp_group_jid id_ then "group:" ++ id_
  else
    match normalize_whatsapp_target id_ with
    | Some normalized => if Py.falsy normalized then id_ else normalized
    | None => id_
    end.

Definition is_whatsapp_group (id_ : string) : bool := is_whatsapp_group_jid id_.

Definition get_whatsapp_chat_type (id_ : string) : string :=
  if is_whatsapp_group_jid id_ then "group" else "user".

Definition build_whatsapp_user_jid (phone_number : string) : string :=
  let normalized := normalize_e164 phone_number in
  let digits := lstrip_char "+" normalized in
  digits ++ "@s.whatsapp.net".

Definition truncate_text (text : string) (max_length : Z) : string :=
  if (Py.len text <=? max_length)%Z then text
  else if (max_length <=? 3)%Z then Py.slice_to "..." max_length
  else Py.slice_to text (max_length - 3) ++ "...".

Definition resolve_whatsapp_system_location (chat_type chat_id : string)
    (chat_name : option string) : string :=
  let name :=
    match chat_name with
    | Some n => if Py.falsy n then Py.slice_to chat_id 8 else n
    | None => Py.slice_to chat_id 8
    end in
  "WhatsApp " ++ chat_type ++ ":" ++ name.

Definition is_valid_whatsapp_number (value : string) : bool :=
  match normalize_whatsapp_target value with
  | None => false
  | Some normalized =>
      if Py.falsy normalized then false
      else if negb (Py.startswith normalized "+") then false
      else
        let digits := lstrip_char "+" normalized in
        accepts _E164_DIGITS_RE digits
  end.

Definition format_whatsapp_phone_number (phone_number : string) : string :=
  let normalized := normalize_e164 phone_number in
  if Py.falsy normalized then phone_number
  else
    let digits := lstrip_char "+" normalized in
    if (Py.len digits <=? 10)%Z then normalized
    else
      let country_code := Py.slice_to digits (Py.len digits - 10) in
      let rest := Py.slice_from digits (-10) in
      "+" ++ country_code ++ " " ++ Py.slice_to rest 3 ++ " "
      ++ slice_between rest 3 6 ++ " " ++ Py.slice_from rest 6.

(* ------------------------------------------------------------------------- *)
(** * accounts.py: account listing *)
(* ------------------------------------------------------------------------- *)

(** A [set] of strings is kept as a list without duplicates; [ids.add(x)]. *)
Definition set_add (x : string) (ids : list string) : list string :=
  if existsb (String.eqb x) ids then ids else (ids ++ [x])%list.

(** [sorted(ids)]: strings are ordered character by character, by code
    point; a set has one sorted list. *)
Fixpoint insert_sorted (x : string) (l : list string) : list string :=
  match l with
  | [] => [x]
  | y :: l' => if (x <=? y)%string then x :: l else y :: insert_sorted x l'
  end.

Definition sorted (ids : list string) : list string :=
  fold_right insert_sorted [] ids.

Section Accounts.

Context {pydantic : Pydantic}.

Definition list_whatsapp_account_ids (runtime : AgentRuntime)
  : result (list string) :=
  config <- get_multi_account_config runtime ;;
  let accounts := multi_accounts config in
  let ids : list string := [] in
  let env_token := get_setting runtime "WHATSAPP_ACCESS_TOKEN" in
  let env_phone := get_setting runtime "WHATSAPP_PHONE_NUMBER_ID" in
  let base_configured :=
    nonblank (multi_access_token config)
    && nonblank (multi_phone_number_id config) in
  let env_configured := nonblank env_token && nonblank env_phone in
  let ids :=
    if base_configured || env_configured
    then set_add DEFAULT_ACCOUNT_ID ids else ids in
  let ids :=
    match nonempty_dict accounts with
    | Some accounts =>
        fold_left
          (fun ids kv =>
             let id_ := fst kv in
             if Py.falsy id_ then ids
             else set_add (normalize_account_id (Some id_)) ids)
          accounts ids
    | None => ids
    end in
  let result := sorted ids in
  match result with
  | [] => Ok [DEFAULT_ACCOUNT_ID]
  | _ => Ok result
  end.

Definition resolve_default_whatsapp_account_id (runtime : AgentRuntime)
  : result string :=
  ids <- list_whatsapp_account_ids runtime ;;
  if existsb (String.eqb DEFAULT_ACCOUNT_ID) ids then Ok DEFAULT_ACCOUNT_ID
  else
    match ids with
    | id0 :: _ => Ok id0
    | [] => Ok DEFAULT_ACCOUNT_ID
    end.

Definition list_enabled_whatsapp_accounts (runtime : AgentRuntime)
  : result (list ResolvedWhatsAppAccount) :=
  ids <- list_whatsapp_account_ids runtime ;;
  accts <- mapM (fun aid => resolve_whatsapp_account runtime (Some aid)) ids ;;
  Ok (filter (fun acct => res_enabled acct && res_configured acct) accts).

Definition is_multi_account_enabled (runtime : AgentRuntime) : result bool :=
  accts <- list_enabled_whatsapp_accounts runtime ;;
  Ok (1 <? List.length accts)%nat.

End Accounts.

Definition is_whatsapp_mention_required
    (account_config : WhatsAppAccountRuntimeConfig)
    (group_config : option WhatsAppGroupRuntimeConfig) : bool :=
  match group_config with
  | Some gc =>
      match grp_require_mention gc with
      | Some true => true
      | _ => false
      end
  | None => false
  end.

(* ------------------------------------------------------------------------- *)
(** * Notions used in the statements *)
(* ------------------------------------------------------------------------- *)

(** A string that does not begin with white space. *)
Definition lstripped (s : string) : Prop :=
  match s with
  | EmptyString => True
  | String c _ => Py.isspace c = false
  end.

(** The number of digits of a string. *)
Definition digit_count (s : string) : nat :=
  String.length (Py.remove_chars (fun c => negb (Py.isdigit c)) s).

(** The entries of an optional list. *)
Definition entries {A : Type} (l : option (list A)) : list A :=
  match l with Some l => l | None => [] end.

(** The access token of the account-level configuration, when there is
    one. *)
Definition account_level_token (account_config : option WhatsAppAccountRuntimeConfig)
  : option string :=
  match account_config with
  | Some ac => access_token ac
  | None => None
  end.

(** The entry of a named account: the entry of [accounts] under the id
    itself, or else the first entry whose key normalizes to the same id. *)
Definition named_account (multi_config : WhatsAppMultiAccountConfig)
    (account_id : string) : option WhatsAppAccountRuntimeConfig :=
  let accounts := entries (multi_accounts multi_config) in
  match dict_get account_id accounts with
  | Some entry => Some entry
  | None =>
      option_map snd
        (find (fun kv => normalize_account_id (Some (fst kv))
                         =? normalize_account_id (Some account_id))
           accounts)
  end.

(** A runtime as the test suite builds it, from the [whatsapp] settings of
    the character and the settings map. *)
Definition _rt (whatsapp : option (dict pyval)) (settings_map : dict string)
  : AgentRuntime :=
  {| character :=
       match whatsapp with
       | Some wa => PDict [("settings", PDict [("whatsapp", PDict wa)])]
       | None => PDict [("settings", PDict [])]
       end;
     get_setting := fun key => dict_get key settings_map |}.

(** The configuration of the account-resolution example of the
    specification. *)
Definition base_and_business : dict pyval :=
  [ ("accessToken", PStr "base");
    ("accounts",
     PDict [("business",
             PDict [("accessToken", PStr "biz"); ("phoneNumberId", PStr "123")])]) ].

(** An account configuration that sets its policies and allowlists only. *)
Definition policy_account (dm_policy_ group_policy_ : option string)
    (allow_from_ group_allow_from_ : option (list str_or_int))
  : WhatsAppAccountRuntimeConfig :=
  {| name := None; enabled := None; access_token := None;
     phone_number_id := None; business_account_id := None;
     webhook_verify_token := None; api_version := None;
     allow_from := allow_from_; group_allow_from := group_allow_from_;
     dm_policy := dm_policy_; group_policy := group_policy_;
     media_max_mb := None; text_chunk_limit := None; groups := None |}.

(** A chunk as the loop keeps it: not empty and within the limit. *)
Definition kept_chunk (limit : Z) (c : string) : Prop :=
  c <> "" /\ (Py.len c <= limit)%Z.

(** The limit in force, [limit if limit is not None else
    WHATSAPP_TEXT_CHUNK_LIMIT]. *)
Definition effective (limit : option Z) : Z :=
  match limit with Some l => l | None => WHATSAPP_TEXT_CHUNK_LIMIT end.

(** A policy field that holds nothing or one of the allowed literals. *)
Definition allowed_policy (allowed : list string) (p : option string) : Prop :=
  forall s, p = Some s -> In s allowed.

(** An account configuration as validation leaves it. *)
Definition wf_account (c : WhatsAppAccountRuntimeConfig) : Prop :=
  allowed_policy DM_POLICIES (dm_policy c)
  /\ allowed_policy GROUP_POLICIES (group_policy c).

Definition wf_multi (c : WhatsAppMultiAccountConfig) : Prop :=
  allowed_policy DM_POLICIES (multi_dm_policy c)
  /\ allowed_policy GROUP_POLICIES (multi_group_policy c)
  /\ forall k a, In (k, a) (entries (multi_accounts c)) -> wf_account a.

(** The two policy settings of the runtime are unset, empty, or recognized
    policy values. *)
Definition env_policies_recognized (runtime : AgentRuntime) : Prop :=
  (forall s, get_setting runtime "WHATSAPP_DM_POLICY" = Some s ->
             s = "" \/ In s DM_POLICIES)
  /\ (forall s, get_setting runtime "WHATSAPP_GROUP_POLICY" = Some s ->
                s = "" \/ In s GROUP_POLICIES).

(** ** Values of the declared types *)

Definition is_bool (v : pyval) : bool :=
  match v with PBool _ => true | _ => false end.

Definition is_int (v : pyval) : bool :=
  match v with PInt _ => true | _ => false end.

Definition is_str (v : pyval) : bool :=
  match v with PStr _ => true | _ => false end.

Definition is_str_or_int (v : pyval) : bool := is_str v || is_int v.

Definition is_literal (allowed : list string) (v : pyval) : bool :=
  match v with
  | PStr s => existsb (String.eqb s) allowed
  | _ => false
  end.

Definition is_list_of (entry : pyval -> bool) (v : pyval) : bool :=
  match v with
  | PList l => forallb entry l
  | _ => false
  end.

Definition is_dict_of (value : pyval -> bool) (v : pyval) : bool :=
  match v with
  | PDict d => forallb (fun kv => value (snd kv)) d
  | _ => false
  end.

(** A field that is unset ([None], or left out) or holds a value of its
    type. *)
Definition unset_or (kind : pyval -> bool) (v : pyval) : bool :=
  is_none v || kind v.

(** A dict whose fields are unset or hold values of the types that
    [WhatsAppGroupRuntimeConfig] declares. *)
Definition declared_group (v : pyval) : bool :=
  match v with
  | PDict d =>
      unset_or is_bool (field d "enabled" "enabled")
      && unset_or (is_list_of is_str_or_int) (field d "allowFrom" "allow_from")
      && unset_or is_bool (field d "requireMention" "require_mention")
      && unset_or is_str (field d "systemPrompt" "system_prompt")
      && unset_or (is_list_of is_str) (field d "skills" "skills")
  | _ => false
  end.

(** The same for [WhatsAppAccountRuntimeConfig]. *)
Definition declared_account (v : pyval) : bool :=
  match v with
  | PDict d =>
      unset_or is_str (field d "name" "name")
      && unset_or is_bool (field d "enabled" "enabled")
      && unset_or is_str (field d "accessToken" "access_token")
      && unset_or is_str (field d "phoneNumberId" "phone_number_id")
      && unset_or is_str (field d "businessAccountId" "business_account_id")
      && unset_or is_str (field d "webhookVerifyToken" "webhook_verify_token")
      && unset_or is_str (field d "apiVersion" "api_version")
      && unset_or (is_list_of is_str_or_int) (field d "allowFrom" "allow_from")
      && unset_or (is_list_of is_str_or_int)
           (field d "groupAllowFrom" "group_allow_from")
      && unset_or (is_literal DM_POLICIES) (field d "dmPolicy" "dm_policy")
      && unset_or (is_literal GROUP_POLICIES) (field d "groupPolicy" "group_policy")
      && unset_or is_int (field d "mediaMaxMb" "media_max_mb")
      && unset_or is_int (field d "textChunkLimit" "text_chunk_limit")
      && unset_or (is_dict_of declared_group) (field d "groups" "groups")
  | _ => false
  end.

(** The same for the [whatsapp] settings of the character, of which
    [get_multi_account_config] reads these twelve keys. *)
Definition declared_settings (wa : dict pyval) : bool :=
  unset_or is_bool (py_get "enabled" wa)
  && unset_or is_str (py_get "accessToken" wa)
  && unset_or is_str (py_get "phoneNumberId" wa)
  && unset_or is_str (py_get "businessAccountId" wa)
  && unset_or is_str (py_get "webhookVerifyToken" wa)
  && unset_or is_str (py_get "apiVersion" wa)
  && unset_or (is_literal DM_POLICIES) (py_get "dmPolicy" wa)
  && unset_or (is_literal GROUP_POLICIES) (py_get "groupPolicy" wa)
  && unset_or is_int (py_get "mediaMaxMb" wa)
  && unset_or is_int (py_get "textChunkLimit" wa)
  && unset_or (is_dict_of declared_account) (py_get "accounts" wa)
  && unset_or (is_dict_of declared_group) (py_get "groups" wa).

(** A runtime whose configuration is absent, or holds values of the
    declared types in the fields that are set. *)
Definition declared_configuration (runtime : AgentRuntime) : bool :=
  match _get_character_whatsapp runtime with
  | Some wa => declared_settings wa
  | None => true
  end.

(** What a key holds once the [None] values are filtered out. *)
Definition defined (v : option pyval) : option pyval :=
  match v with
  | Some v => if is_none v then None else Some v
  | None => None
  end.

(** The value of a field after the merge of three layers, the first one
    taking precedence; [None] when no layer defines it. *)
Definition layered (account base env : option pyval) : pyval :=
  match defined account with
  | Some v => v
  | None =>
      match defined base with
      | Some v => v
      | None => match defined env with Some v => v | None => PNone end
      end
  end.

(** Every character of a string satisfies a test. *)
Fixpoint all_chars (p : ascii -> bool) (s : string) : bool :=
  match s with
  | EmptyString => true
  | String c s' => p c && all_chars p s'
  end.

(** The last character of a string. *)
Fixpoint last_char (s : string) : option ascii :=
  match s with
  | EmptyString => None
  | String c EmptyString => Some c
  | String _ s' => last_char s'
  end.

(** The chunks of a text put end to end. *)
Fixpoint join (chunks : list string) : string :=
  match chunks with
  | [] => EmptyString
  | c :: chunks' => c ++ join chunks'
  end.

(** A text without its white space. *)
Definition squeeze (s : string) : string := Py.remove_chars Py.isspace s.

(** A list of ids in the order of [sorted], without two equal neighbours. *)
Definition ascending (ids : list string) : Prop :=
  StronglySorted (fun a b => (a <? b)%string = true) ids.

(** The first of the layers of a field that is set. *)
Definition first_set {A : Type} (account base env : option A) : option A :=
  match account with
  | Some a => Some a
  | None => match base with Some b => Some b | None => env end
  end.

(** A setting of the runtime as a layer: an empty string counts as unset. *)
Definition setting (runtime : AgentRuntime) (key : string) : option string :=
  match get_setting runtime key with
  | Some s => if Py.falsy s then None else Some s
  | None => None
  end.

(** A field of the account-level configuration, unset when there is no
    such configuration. *)
Definition of_account {A : Type} (account_config : option WhatsAppAccountRuntimeConfig)
    (f : WhatsAppAccountRuntimeConfig -> option A) : option A :=
  match account_config with
  | Some c => f c
  | None => None
  end.

(* ------------------------------------------------------------------------- *)
(** * Properties of the string primitives *)
(* ------------------------------------------------------------------------- *)

Section StringFacts.

Lemma falsy_true (s : string) : Py.falsy s = true <-> s = "".
Proof. destruct s; simpl; split; congruence. Qed.

Lemma falsy_false (s : string) : Py.falsy s = false <-> s <> "".
Proof. destruct s; simpl; split; congruence. Qed.

Lemma length_zero (s : string) : String.length s = 0 -> s = "".
Proof. destruct s; simpl; [reflexivity | discriminate]. Qed.

Lemma lstrip_lstripped (s : string) : lstripped (Py.lstrip s).
Proof.
  induction s as [|c s IH]; simpl; [exact I|].
  destruct (Py.isspace c) eqn:E; [exact IH | exact E].
Qed.

Lemma lstripped_lstrip (s : string) : lstripped s -> Py.lstrip s = s.
Proof. destruct s as [|c s]; simpl; intros H; [|rewrite H]; reflexivity. Qed.

Lemma lstrip_length (s : string) :
  String.length (Py.lstrip s) <= String.length s.
Proof.
  induction s as [|c s IH]; simpl; [lia|].
  destruct (Py.isspace c); simpl; lia.
Qed.

Lemma lstrip_same_length (s : string) :
  String.length (Py.lstrip s) = String.length s -> Py.lstrip s = s.
Proof.
  destruct s as [|c s]; simpl; [reflexivity|].
  destruct (Py.isspace c); [|reflexivity].
  pose proof (lstrip_length s); simpl; lia.
Qed.

Lemma rstrip_length (s : string) :
  String.length (Py.rstrip s) <= String.length s.
Proof.
  induction s as [|c s IH]; simpl; [lia|].
  destruct (Py.rstrip s); [destruct (Py.isspace c)|]; simpl in *; lia.
Qed.

Lemma rstrip_same_length (s : string) :
  String.length (Py.rstrip s) = String.length s -> Py.rstrip s = s.
Proof.
  induction s as [|c s IH]; simpl; [reflexivity|].
  pose proof (rstrip_length s) as L.
  destruct (Py.rstrip s) eqn:E.
  - destruct (Py.isspace c); simpl in *; intros H; [lia|].
    injection H as H. symmetry in H. apply length_zero in H. now subst.
  - simpl. intros H. injection H as H. now rewrite IH.
Qed.

Lemma rstrip_rstrip (s : string) : Py.rstrip (Py.rstrip s) = Py.rstrip s.
Proof.
  induction s as [|c s IH]; simpl; [reflexivity|].
  destruct (Py.rstrip s) eqn:E.
  - destruct (Py.isspace c) eqn:Ec; simpl; [reflexivity | now rewrite Ec].
  - simpl. simpl in IH. now rewrite IH.
Qed.

Lemma rstrip_lstripped (s : string) : lstripped s -> lstripped (Py.rstrip s).
Proof.
  destruct s as [|c s]; simpl; [trivial|]. intros H.
  destruct (Py.rstrip s); [rewrite H|]; simpl; exact H.
Qed.

Lemma strip_lstripped (s : string) : lstripped (Py.strip s).
Proof. apply rstrip_lstripped, lstrip_lstripped. Qed.

Lemma strip_strip (s : string) : Py.strip (Py.strip s) = Py.strip s.
Proof.
  unfold Py.strip at 1.
  rewrite (lstripped_lstrip _ (strip_lstripped s)).
  apply rstrip_rstrip.
Qed.

Lemma strip_length (s : string) :
  String.length (Py.strip s) <= String.length s.
Proof.
  unfold Py.strip.
  pose proof (rstrip_length (Py.lstrip s)). pose proof (lstrip_length s). lia.
Qed.

Lemma strip_same_length (s : string) :
  String.length (Py.strip s) = String.length s -> Py.strip s = s.
Proof.
  unfold Py.strip. intros H.
  pose proof (rstrip_length (Py.lstrip s)). pose proof (lstrip_length s).
  assert (E : Py.lstrip s = s) by (apply lstrip_same_length; lia).
  rewrite E in *. now apply rstrip_same_length.
Qed.

Lemma take_length (n : nat) (s : string) :
  String.length (Py.take n s) = Nat.min n (String.length s).
Proof.
  revert s; induction n as [|n IH]; intros [|c s]; simpl; try reflexivity.
  now rewrite IH.
Qed.

Lemma drop_length (n : nat) (s : string) :
  String.length (Py.drop n s) = String.length s - n.
Proof.
  revert s; induction n as [|n IH]; intros [|c s]; simpl; try reflexivity.
  apply IH.
Qed.

Lemma prefix_length (p s : string) :
  String.prefix p s = true -> String.length p <= String.length s.
Proof.
  revert s; induction p as [|a p IH]; intros [|b s]; simpl; try lia;
    try discriminate.
  destruct (ascii_dec a b); [|discriminate].
  intros H. apply IH in H. lia.
Qed.

(** Where [rfind] finds its needle there is room for it. *)
Lemma rfind_at_bound (sub s : string) (i : Z) :
  (0 <= i)%Z ->
  Py.rfind_at i s sub = (-1)%Z
  \/ (i <= Py.rfind_at i s sub
      <= i + Z.of_nat (String.length s) - Z.of_nat (String.length sub))%Z.
Proof.
  revert i; induction s as [|c s IH]; intros i Hi.
  - simpl. destruct sub; simpl; [right; lia | now left].
  - change (Py.rfind_at i (String c s) sub) with
      (let r := Py.rfind_at (i + 1) s sub in
       if (0 <=? r)%Z then r
       else if String.prefix sub (String c s) then i else (-1)%Z).
    cbv zeta.
    destruct (IH (i + 1)%Z ltac:(lia)) as [E | B].
    + rewrite E. change (0 <=? -1)%Z with false. cbv iota.
      destruct (String.prefix sub (String c s)) eqn:P; [right | now left].
      apply prefix_length in P. lia.
    + destruct (0 <=? Py.rfind_at (i + 1) s sub)%Z eqn:Z0.
      * right. simpl String.length. lia.
      * apply Z.leb_gt in Z0. lia.
Qed.

Lemma rfind_bound (s sub : string) :
  Py.rfind s sub = (-1)%Z
  \/ (0 <= Py.rfind s sub <= Py.len s - Py.len sub)%Z.
Proof. unfold Py.rfind, Py.len. apply (rfind_at_bound sub s 0%Z). lia. Qed.

End StringFacts.

(* ------------------------------------------------------------------------- *)
(** * normalize_e164 *)
(* ------------------------------------------------------------------------- *)

Section E164.

(** Every character of the first substitution is one of the second. *)
Lemma separator_is_junk (c : ascii) :
  e164_separator c = true -> e164_junk c = true.
Proof.
  destruct c as [[] [] [] [] [] [] [] []]; vm_compute; congruence.
Qed.

Lemma remove_junk_after_separators (s : string) :
  Py.remove_chars e164_junk (Py.remove_chars e164_separator s)
  = Py.remove_chars e164_junk s.
Proof.
  induction s as [|c s IH]; simpl; [reflexivity|].
  destruct (e164_separator c) eqn:S.
  - now rewrite (separator_is_junk c S).
  - simpl. now rewrite IH.
Qed.

Lemma normalize_e164_unfold (input_ : string) :
  normalize_e164 input_ =
  let kept := Py.remove_chars e164_junk input_ in
  if Py.falsy kept then ""
  else if Py.startswith kept "+" then kept
  else if Py.startswith kept "00" then "+" ++ Py.drop 2 kept
  else if (10 <=? Py.len kept)%Z then "+" ++ kept
  else kept.
Proof.
  unfold normalize_e164. rewrite remove_junk_after_separators. reflexivity.
Qed.

End E164.

(** C3, as the code has it: [normalize_e164] drops every character that is
    neither a digit nor a plus sign (a plus sign is kept wherever it
    stands).  If nothing is left the result is empty; what is left is
    returned unchanged if it starts with a plus sign; a leading [00] is
    replaced by a plus sign; otherwise a plus sign is prepended when ten or
    more characters are left, and a shorter rest is returned as it is.  The
    four examples of the specification hold. *)
Theorem normalize_e164_cases :
  (forall input_ : string,
     let kept := Py.remove_chars e164_junk input_ in
     (kept = "" -> normalize_e164 input_ = "")
     /\ (Py.startswith kept "+" = true -> normalize_e164 input_ = kept)
     /\ (forall rest, kept = "00" ++ rest -> normalize_e164 input_ = "+" ++ rest)
     /\ (Py.startswith kept "+" = false -> Py.startswith kept "00" = false ->
         10 <= String.length kept -> normalize_e164 input_ = "+" ++ kept)
     /\ (Py.startswith kept "+" = false -> Py.startswith kept "00" = false ->
         String.length kept < 10 -> normalize_e164 input_ = kept))
  /\ normalize_e164 "+1 (234) 567.8901" = "+12345678901"
  /\ normalize_e164 "0012345678901" = "+12345678901"
  /\ normalize_e164 "123456789" = "123456789"
  /\ normalize_e164 "" = "".
Proof.
  split; [|repeat split; reflexivity].
  intros input_ kept. rewrite normalize_e164_unfold. fold kept. cbv zeta.
  repeat split.
  - intros ->. reflexivity.
  - intros H. destruct kept; [discriminate|]. simpl Py.falsy. cbv iota.
    now rewrite H.
  - intros rest ->. destruct rest; reflexivity.
  - intros Hp H0 Hl. rewrite Hp, H0.
    destruct kept; [simpl in Hl; lia|]. simpl Py.falsy. cbv iota.
    destruct (10 <=? Py.len (String a kept))%Z eqn:E; [reflexivity|].
    apply Z.leb_gt in E. unfold Py.len in E. lia.
  - intros Hp H0 Hl. rewrite Hp, H0.
    destruct kept; [reflexivity|]. simpl Py.falsy. cbv iota.
    destruct (10 <=? Py.len (String a kept))%Z eqn:E; [|reflexivity].
    apply Z.leb_le in E. unfold Py.len in E. lia.
Qed.

Lemma normalize_e164_cases_witness :
  normalize_e164 "   " = ""
  /\ normalize_e164 "+1 234-567-8901" = "+12345678901"
  /\ normalize_e164 "001234" = "+1234"
  /\ normalize_e164 "1234567890" = "+1234567890"
  /\ normalize_e164 "123456" = "123456".
Proof.
  refine (conj _ (conj _ (conj _ (conj _ _)))).
  - apply (proj1 (proj1 normalize_e164_cases "   ")). reflexivity.
  - apply (proj1 (proj2 (proj1 normalize_e164_cases "+1 234-567-8901"))).
    reflexivity.
  - apply (proj1 (proj2 (proj2 (proj1 normalize_e164_cases "001234"))) "1234").
    reflexivity.
  - apply (proj1 (proj2 (proj2 (proj2 (proj1 normalize_e164_cases "1234567890")))));
      [reflexivity | reflexivity | simpl; lia].
  - apply (proj2 (proj2 (proj2 (proj2 (proj1 normalize_e164_cases "123456")))));
      [reflexivity | reflexivity | simpl; lia].
Defined.

(** C3 as the specification words it fails: a plus sign alone has no digit
    and is not mapped to the empty string, a plus sign that is not leading
    is kept, and it counts towards the ten characters. *)
Lemma normalize_e164_keeps_plus_signs :
  (digit_count "+" = 0 /\ normalize_e164 "+" <> "")
  /\ normalize_e164 "1+2" = "1+2"
  /\ (digit_count "123+456789" = 9
      /\ normalize_e164 "123+456789" = "+123+456789").
Proof.
  repeat split; try reflexivity. vm_compute. discriminate.
Qed.


(* ------------------------------------------------------------------------- *)
(** * Prefix stripping and target normalization *)
(* ------------------------------------------------------------------------- *)

Section Prefixes.

Lemma sub_whatsapp_prefix_length (s : string) :
  String.length (sub_whatsapp_prefix s) <= String.length s.
Proof.
  unfold sub_whatsapp_prefix.
  destruct (Py.startswith _ _); [rewrite drop_length|]; lia.
Qed.

Lemma sub_whatsapp_prefix_same_length (s : string) :
  String.length (sub_whatsapp_prefix s) = String.length s ->
  sub_whatsapp_prefix s = s.
Proof.
  unfold sub_whatsapp_prefix.
  destruct (Py.startswith _ _) eqn:E; [|reflexivity].
  rewrite drop_length. intros H.
  apply prefix_length in E.
  assert (L : forall t, String.length (Py.lower t) = String.length t)
    by (induction t; simpl; congruence).
  rewrite L, take_length in E.
  change (String.length "whatsapp:") with 9 in E. lia.
Qed.

(** One turn of the loop returns its argument or a shorter string. *)
Lemma strip_step_shrinks (s : string) :
  Py.strip (sub_whatsapp_prefix s) = s
  \/ String.length (Py.strip (sub_whatsapp_prefix s)) < String.length s.
Proof.
  pose proof (strip_length (sub_whatsapp_prefix s)) as A.
  pose proof (sub_whatsapp_prefix_length s) as B.
  destruct (Nat.eq_dec (String.length (Py.strip (sub_whatsapp_prefix s)))
              (String.length s)) as [E|E]; [left | right; lia].
  rewrite strip_same_length by lia.
  apply sub_whatsapp_prefix_same_length. lia.
Qed.

(** With fuel beyond the length of its argument the loop leaves through its
    [return]: what it yields is a fixed point of the loop body. *)
Lemma strip_prefix_loop_exits (fuel : nat) (candidate : string) :
  String.length candidate < fuel ->
  Py.strip (sub_whatsapp_prefix (strip_prefix_loop fuel candidate))
  = strip_prefix_loop fuel candidate.
Proof.
  revert candidate; induction fuel as [|fuel IH]; intros candidate L; [lia|].
  simpl.
  destruct (Py.strip (sub_whatsapp_prefix candidate) =? candidate) eqn:E.
  - apply String.eqb_eq in E. now rewrite E, E.
  - apply String.eqb_neq in E. apply IH.
    destruct (strip_step_shrinks candidate); [contradiction | lia].
Qed.

Lemma strip_prefixes_fixed (value : string) :
  let r := _strip_whatsapp_target_prefixes value in
  Py.strip (sub_whatsapp_prefix r) = r.
Proof. apply strip_prefix_loop_exits. lia. Qed.

Lemma strip_prefixes_stripped (value : string) :
  Py.strip (_strip_whatsapp_target_prefixes value)
  = _strip_whatsapp_target_prefixes value.
Proof.
  rewrite <- (strip_prefixes_fixed value) at 1.
  rewrite strip_strip. apply strip_prefixes_fixed.
Qed.

(** Stripping the prefixes twice is stripping them once. *)
Lemma strip_prefixes_idempotent (value : string) :
  _strip_whatsapp_target_prefixes (_strip_whatsapp_target_prefixes value)
  = _strip_whatsapp_target_prefixes value.
Proof.
  unfold _strip_whatsapp_target_prefixes at 1.
  rewrite strip_prefixes_stripped. cbv zeta.
  simpl strip_prefix_loop.
  rewrite (strip_prefixes_fixed value), String.eqb_refl. reflexivity.
Qed.

End Prefixes.

(** C7: a string that, once its [whatsapp:] prefixes are stripped, contains
    an [@] while it is neither a group JID nor a user JID or LID, is not
    normalized: the result is [None].  The targets of the specification
    normalize as it says. *)
Theorem normalize_whatsapp_target_fail_fast :
  (forall value : string,
     Py.has_char "@" (_strip_whatsapp_target_prefixes value) = true ->
     is_whatsapp_group_jid value = false ->
     is_whatsapp_user_target value = false ->
     normalize_whatsapp_target value = None)
  /\ normalize_whatsapp_target "41796666864:0@s.whatsapp.net" = Some "+41796666864"
  /\ normalize_whatsapp_target "whatsapp:whatsapp:+1234567890" = Some "+1234567890"
  /\ normalize_whatsapp_target "some@random@thing" = None.
Proof.
  split; [|repeat split; vm_compute; reflexivity].
  intros value Hat Hgroup Huser.
  unfold normalize_whatsapp_target.
  assert (G : is_whatsapp_group_jid (_strip_whatsapp_target_prefixes value) = false).
  { unfold is_whatsapp_group_jid in *. now rewrite strip_prefixes_idempotent. }
  assert (U : is_whatsapp_user_target (_strip_whatsapp_target_prefixes value) = false).
  { unfold is_whatsapp_user_target in *. now rewrite strip_prefixes_idempotent. }
  cbv zeta. rewrite G, U, Hat.
  destruct (Py.falsy _); reflexivity.
Qed.

Lemma normalize_whatsapp_target_fail_fast_witness :
  normalize_whatsapp_target "whatsapp: 123-abc@g.us" = None.
Proof.
  apply (proj1 normalize_whatsapp_target_fail_fast); vm_compute; reflexivity.
Defined.


(* ------------------------------------------------------------------------- *)
(** * Policy evaluation *)
(* ------------------------------------------------------------------------- *)

Section Policy.

Lemma any_str_eq_spec (identifier : string) (l : list str_or_int) :
  any_str_eq identifier l = true
  <-> exists a, In a l /\ py_str a = identifier.
Proof.
  unfold any_str_eq. rewrite existsb_exists.
  split; intros [a [I E]]; exists a; split; auto;
    now apply String.eqb_eq.
Qed.

Lemma nonempty_list_entries {A : Type} (l : option (list A)) :
  nonempty_list l = None -> entries l = [].
Proof. destruct l as [[|a l]|]; simpl; congruence. Qed.

Lemma nonempty_list_some {A : Type} (l : option (list A)) (l' : list A) :
  nonempty_list l = Some l' -> l = Some l' /\ l' <> [].
Proof.
  destruct l as [[|a l]|]; simpl; try discriminate.
  intros [= <-]. split; congruence.
Qed.

(** The policy that is read from a field, by cases: a policy that is set
    and not empty is read as it is. *)
Lemma policy_or_set (p default : string) :
  p <> "" -> policy_or (Some p) default = p.
Proof. destruct p; [congruence | reflexivity]. Qed.

Lemma policy_or_differs (p : option string) (default x : string) :
  p <> Some x -> default <> x -> policy_or p default <> x.
Proof.
  intros Hp Hd. destruct p as [[|c s]|]; simpl; try exact Hd.
  intros E. apply Hp. now rewrite E.
Qed.

End Policy.

(** C5: in a direct message the policy is [dm_policy], read as ["pairing"]
    when it is unset or empty.  ["disabled"] denies every identifier,
    ["open"] and ["pairing"] allow every identifier, and under any other
    policy (["allowlist"]) the identifier is allowed exactly when the string
    of some entry of [allow_from] equals it, so that an absent or empty
    [allow_from] denies every identifier. *)
Theorem dm_policy_semantics
    (identifier : string) (account_config : WhatsAppAccountRuntimeConfig)
    (group_id : option string)
    (group_config : option WhatsAppGroupRuntimeConfig) :
  let allowed :=
    is_whatsapp_user_allowed identifier account_config false group_id
      group_config in
  let listed :=
    exists a, In a (entries (allow_from account_config))
              /\ py_str a = identifier in
  (dm_policy account_config = Some "disabled" -> allowed = false)
  /\ (dm_policy account_config = Some "open" -> allowed = true)
  /\ (dm_policy account_config = Some "pairing" -> allowed = true)
  /\ (dm_policy account_config = None \/ dm_policy account_config = Some "" ->
      allowed = true)
  /\ (forall policy,
        dm_policy account_config = Some policy ->
        policy <> "" -> policy <> "disabled" -> policy <> "open" ->
        policy <> "pairing" ->
        (allowed = true <-> listed)
        /\ (entries (allow_from account_config) = [] -> allowed = false)).
Proof.
  cbv zeta. unfold is_whatsapp_user_allowed. cbv zeta.
  split; [intros ->; reflexivity|].
  split; [intros ->; reflexivity|].
  split; [intros ->; reflexivity|].
  split; [intros [-> | ->]; reflexivity|].
  intros policy -> He Hd Ho Hp. rewrite (policy_or_set _ _ He).
  apply String.eqb_neq in Hd, Ho, Hp. rewrite Hd, Ho, Hp.
  destruct (nonempty_list (allow_from account_config)) as [l|] eqn:E.
  - apply nonempty_list_some in E as [E Hl]. rewrite E. simpl entries.
    split; [apply any_str_eq_spec | intros; contradiction].
  - apply nonempty_list_entries in E. rewrite E.
    split; [|reflexivity].
    split; [discriminate | intros [a [[] _]]].
Qed.

Lemma dm_policy_semantics_witness :
  let allowlist :=
    policy_account (Some "allowlist") None
      (Some [IsStr "+4179"; IsInt 1234567890]) None in
  is_whatsapp_user_allowed "1234567890" allowlist false None None = true
  /\ is_whatsapp_user_allowed "+4178" allowlist false None None = false
  /\ is_whatsapp_user_allowed "+4179"
       (policy_account (Some "disabled") None (Some [IsStr "+4179"]) None)
       false None None = false.
Proof.
  cbv zeta.
  match goal with
  | |- is_whatsapp_user_allowed ?i ?c _ _ _ = true /\ _ =>
      destruct (dm_policy_semantics i c None None) as (_ & _ & _ & _ & H);
      destruct (H "allowlist" eq_refl) as [[_ Hin] _]; try discriminate;
      clear H
  end.
  split; [|split].
  - apply Hin. exists (IsInt 1234567890).
    split; [right; left; reflexivity | reflexivity].
  - match goal with
    | |- is_whatsapp_user_allowed ?i ?c _ _ _ = false =>
        destruct (dm_policy_semantics i c None None) as (_ & _ & _ & _ & H);
        destruct (H "allowlist" eq_refl) as [[Hout _] _]; try discriminate
    end.
    apply not_true_is_false. intros A.
    destruct (Hout A) as (a & [<- | [<- | []]] & E); discriminate E.
  - match goal with
    | |- is_whatsapp_user_allowed ?i ?c _ _ _ = false =>
        exact (proj1 (dm_policy_semantics i c None None) eq_refl)
    end.
Defined.

(** C6: the policy is [group_policy], read as ["allowlist"] when it is unset
    or empty.  ["disabled"] denies and ["open"] allows whatever else is
    configured.  Otherwise a group configuration decides by its [enabled]
    flag not being [False], before any allowlist; without one, a group
    allowlist that is not empty decides by the membership of the group id,
    entries compared as strings; and without a group configuration and
    with an absent or empty allowlist the result is [policy != "allowlist"],
    so that a policy string that is none of the recognized ones allows.
    Under a policy of the declared type, which is unset or one of ["open"],
    ["allowlist"] and ["disabled"], an allowlist that is present decides by
    membership also when it is empty. *)
Theorem group_allowance_semantics
    (group_id : string) (account_config : WhatsAppAccountRuntimeConfig)
    (group_config : option WhatsAppGroupRuntimeConfig) :
  let allowed := is_whatsapp_group_allowed group_id account_config group_config in
  let listed :=
    exists a, In a (entries (group_allow_from account_config))
              /\ py_str a = group_id in
  (group_policy account_config = Some "disabled" -> allowed = false)
  /\ (group_policy account_config = Some "open" -> allowed = true)
  /\ (group_policy account_config <> Some "disabled" ->
      group_policy account_config <> Some "open" ->
      (forall gc, group_config = Some gc ->
         (allowed = true <-> grp_enabled gc <> Some false))
      /\ (group_config = None ->
          entries (group_allow_from account_config) <> [] ->
          (allowed = true <-> listed))
      /\ (group_config = None ->
          entries (group_allow_from account_config) = [] ->
          (allowed = true
           <-> exists policy,
                 group_policy account_config = Some policy
                 /\ policy <> "" /\ policy <> "allowlist")))
  /\ (allowed_policy GROUP_POLICIES (group_policy account_config) ->
      group_policy account_config <> Some "disabled" ->
      group_policy account_config <> Some "open" ->
      group_config = None ->
      group_allow_from account_config <> None ->
      (allowed = true <-> listed)).
Proof.
  cbv zeta. unfold is_whatsapp_group_allowed. cbv zeta.
  split; [intros ->; reflexivity|].
  split; [intros ->; reflexivity|].
  assert (Member : forall l,
            nonempty_list (group_allow_from account_config) = Some l ->
            any_str_eq group_id l = true
            <-> exists a, In a (entries (group_allow_from account_config))
                          /\ py_str a = group_id).
  { intros l E. apply nonempty_list_some in E as [E _]. rewrite E.
    apply any_str_eq_spec. }
  split.
  - intros Hd Ho.
    apply policy_or_differs with (default := "allowlist") in Hd, Ho;
      try discriminate.
    apply String.eqb_neq in Hd, Ho. rewrite Hd, Ho.
    split; [|split].
    + intros gc ->. destruct (grp_enabled gc) as [[|]|]; simpl;
        split; congruence.
    + intros -> Hne.
      destruct (nonempty_list (group_allow_from account_config)) as [l|] eqn:E;
        [now apply Member|].
      apply nonempty_list_entries in E. contradiction.
    + intros -> He.
      destruct (nonempty_list (group_allow_from account_config)) as [l|] eqn:E.
      { apply nonempty_list_some in E as [E Hl]. rewrite E in He.
        simpl in He. contradiction. }
      rewrite negb_true_iff, String.eqb_neq.
      destruct (group_policy account_config) as [[|c s]|]; simpl.
      * split; [congruence | intros (p & [= <-] & N & _); congruence].
      * split; [intros N; exists (String c s); repeat split; congruence
               | intros (p & [= <-] & _ & N); exact N].
      * split; [congruence | intros (p & [=] & _)].
  - intros Hp Hd Ho -> Hl.
    assert (P : policy_or (group_policy account_config) "allowlist"
                = "allowlist").
    { destruct (group_policy account_config) as [s|]; [|reflexivity].
      destruct (Hp s eq_refl) as [<- | [<- | [<- | []]]];
        [congruence | reflexivity | congruence]. }
    rewrite P. simpl.
    destruct (nonempty_list (group_allow_from account_config)) as [l|] eqn:E;
      [now apply Member|].
    apply nonempty_list_entries in E. rewrite E.
    split; [discriminate | intros [a [[] _]]].
Qed.

Lemma group_allowance_semantics_witness :
  is_whatsapp_group_allowed "120363@g.us"
    (policy_account None (Some "allowlist") None (Some [IsStr "120363@g.us"]))
    None = true
  /\ is_whatsapp_group_allowed "120363@g.us"
       (policy_account None (Some "allowlist") None (Some [])) None = false
  /\ is_whatsapp_group_allowed "120363@g.us"
       (policy_account None (Some "disabled") None (Some [IsStr "120363@g.us"]))
       None = false.
Proof.
  split; [|split].
  - match goal with
    | |- is_whatsapp_group_allowed ?g ?c ?gc = true =>
        destruct (group_allowance_semantics g c gc) as (_ & _ & H & _)
    end.
    destruct H as (_ & H & _); try discriminate.
    apply H; [reflexivity | discriminate |].
    exists (IsStr "120363@g.us"). split; [left; reflexivity | reflexivity].
  - match goal with
    | |- is_whatsapp_group_allowed ?g ?c ?gc = false =>
        destruct (group_allowance_semantics g c gc) as (_ & _ & _ & H)
    end.
    apply not_true_is_false. intros A.
    apply H in A;
      [ destruct A as (a & [] & _)
      | intros s [= <-]; right; left; reflexivity
      | discriminate | discriminate | reflexivity | discriminate ].
  - match goal with
    | |- is_whatsapp_group_allowed ?g ?c ?gc = false =>
        exact (proj1 (group_allowance_semantics g c gc) eq_refl)
    end.
Defined.


(* ------------------------------------------------------------------------- *)
(** * Token and account resolution *)
(* ------------------------------------------------------------------------- *)

(** Inversion of a [bind] that returned. *)
Ltac bind_inv H :=
  match type of H with
  | bind ?c _ = Ok _ =>
      let E := fresh "E" in
      destruct c eqn:E; simpl in H; [|discriminate H]
  end.

Section Resolution.

Context {pydantic : Pydantic}.

Lemma strip_empty_of_empty (s : string) :
  Py.falsy s = true -> Py.falsy (Py.strip s) = true.
Proof. intros H. apply falsy_true in H. now subst. Qed.

Lemma nonblank_stripped (s : option string) :
  nonblank s = true <-> stripped s <> "".
Proof.
  destruct s as [s|]; simpl; [|split; congruence].
  destruct (Py.falsy s) eqn:F; simpl.
  - rewrite (proj1 (falsy_true _) (strip_empty_of_empty s F)).
    split; congruence.
  - rewrite negb_true_iff. apply falsy_false.
Qed.

Lemma nonblank_false (s : option string) :
  nonblank s = false <-> stripped s = "".
Proof.
  pose proof (nonblank_stripped s) as H.
  destruct (nonblank s); split; intros E; try reflexivity; try discriminate.
  - exfalso. apply (proj1 H); [reflexivity | exact E].
  - destruct (string_dec (stripped s) ""); [assumption|].
    apply H in n. discriminate.
Qed.

Lemma stripped_strip (s : option string) :
  Py.strip (stripped s) = stripped s.
Proof. destruct s; simpl; [apply strip_strip | reflexivity]. Qed.

(** Once the configuration validates, the account lookup returns. *)
Lemma get_account_config_returns (runtime : AgentRuntime) (account_id : string)
    (multi_config : WhatsAppMultiAccountConfig) :
  get_multi_account_config runtime = Ok multi_config ->
  exists account_config, _get_account_config runtime account_id = Ok account_config.
Proof.
  intros H. unfold _get_account_config. rewrite H. simpl.
  destruct (multi_accounts multi_config) as [[|kv accounts]|]; eauto.
  destruct (dict_get account_id (kv :: accounts)); eauto.
Qed.

(** The account lookup returns the entry of the named account. *)
Lemma get_account_config_named (runtime : AgentRuntime) (account_id : string)
    (multi_config : WhatsAppMultiAccountConfig) :
  get_multi_account_config runtime = Ok multi_config ->
  _get_account_config runtime account_id
  = Ok (named_account multi_config account_id).
Proof.
  intros H. unfold _get_account_config, named_account. rewrite H.
  cbn [bind]. cbv zeta.
  destruct (multi_accounts multi_config) as [[|kv accounts]|]; try reflexivity.
  cbn [entries].
  destruct (dict_get account_id (kv :: accounts)); reflexivity.
Qed.

(** A configuration that does not validate makes the token resolution
    raise. *)
Lemma resolve_whatsapp_token_raises (runtime : AgentRuntime)
    (account_id : string) (e : exn) :
  get_multi_account_config runtime = Raise e ->
  resolve_whatsapp_token runtime account_id = Raise e.
Proof. intros H. unfold resolve_whatsapp_token. now rewrite H. Qed.

(** The token that [resolve_whatsapp_token] returns, by cases. *)
Lemma resolve_whatsapp_token_unfold (runtime : AgentRuntime) (account_id : string)
    (multi_config : WhatsAppMultiAccountConfig)
    (account_config : option WhatsAppAccountRuntimeConfig) :
  get_multi_account_config runtime = Ok multi_config ->
  _get_account_config runtime account_id = Ok account_config ->
  resolve_whatsapp_token runtime account_id =
  if nonblank (account_level_token account_config) then
    Ok {| token := stripped (account_level_token account_config);
          source := CONFIG |}
  else if account_id =? DEFAULT_ACCOUNT_ID then
    if nonblank (multi_access_token multi_config) then
      Ok {| token := stripped (multi_access_token multi_config);
            source := CONFIG |}
    else if nonblank (get_setting runtime "WHATSAPP_ACCESS_TOKEN") then
      Ok {| token := stripped (get_setting runtime "WHATSAPP_ACCESS_TOKEN");
            source := ENV |}
    else Ok {| token := ""; source := NONE |}
  else Ok {| token := ""; source := NONE |}.
Proof.
  intros Hm Ha. unfold resolve_whatsapp_token. rewrite Hm, Ha. simpl.
  destruct account_config; reflexivity.
Qed.

(** The resolved token is always trimmed. *)
Lemma resolved_token_trimmed (runtime : AgentRuntime) (account_id : string)
    (resolution : WhatsAppTokenResolution) :
  resolve_whatsapp_token runtime account_id = Ok resolution ->
  Py.strip (token resolution) = token resolution.
Proof.
  intros H.
  destruct (get_multi_account_config runtime) as [multi_config|e] eqn:Hm;
    [|unfold resolve_whatsapp_token in H; rewrite Hm in H; discriminate].
  destruct (get_account_config_returns runtime account_id _ Hm) as [ac Ha].
  rewrite (resolve_whatsapp_token_unfold _ _ _ _ Hm Ha) in H.
  repeat match type of H with
         | (if ?b then _ else _) = _ => destruct b
         end;
    injection H as <-; simpl; auto using stripped_strip.
Qed.

End Resolution.

(** C1, as the code has it: when the configuration of the runtime
    validates, [resolve_whatsapp_token] returns (1) the trimmed access token
    of the entry of the named account, with source [CONFIG], if it is not
    empty; else, only for the account id ["default"], (2) the trimmed global
    access token, with source [CONFIG], if it is not empty, else (3) the
    trimmed setting [WHATSAPP_ACCESS_TOKEN], with source [ENV], if it is
    not empty; else (4) the empty token with source [NONE].  An account
    that is not the default one never gets the global or the environment
    token.  The entry of the named account is the entry of [accounts] under
    the id itself, or else the first one whose key normalizes to the same
    id.  When the configuration does not validate, the call raises the
    validation error. *)
Theorem token_resolution_precedence {pydantic : Pydantic}
    (runtime : AgentRuntime) (account_id : string) :
  (forall multi_config : WhatsAppMultiAccountConfig,
     get_multi_account_config runtime = Ok multi_config ->
     let account_token :=
       stripped (account_level_token (named_account multi_config account_id)) in
     let global_token := stripped (multi_access_token multi_config) in
     let env_token := stripped (get_setting runtime "WHATSAPP_ACCESS_TOKEN") in
     let resolved := resolve_whatsapp_token runtime account_id in
     (account_token <> "" ->
      resolved = Ok {| token := account_token; source := CONFIG |})
     /\ (account_token = "" -> account_id = DEFAULT_ACCOUNT_ID ->
         global_token <> "" ->
         resolved = Ok {| token := global_token; source := CONFIG |})
     /\ (account_token = "" -> account_id = DEFAULT_ACCOUNT_ID ->
         global_token = "" -> env_token <> "" ->
         resolved = Ok {| token := env_token; source := ENV |})
     /\ (account_token = "" -> account_id = DEFAULT_ACCOUNT_ID ->
         global_token = "" -> env_token = "" ->
         resolved = Ok {| token := ""; source := NONE |})
     /\ (account_token = "" -> account_id <> DEFAULT_ACCOUNT_ID ->
         resolved = Ok {| token := ""; source := NONE |}))
  /\ (forall e : exn,
        get_multi_account_config runtime = Raise e ->
        resolve_whatsapp_token runtime account_id = Raise e).
Proof.
  split; [|intros e; apply resolve_whatsapp_token_raises].
  intros multi_config Hm.
  pose proof (get_account_config_named runtime account_id _ Hm) as Ha.
  cbv zeta. rewrite (resolve_whatsapp_token_unfold _ _ _ _ Hm Ha).
  repeat split.
  - intros H. apply nonblank_stripped in H. now rewrite H.
  - intros H -> G. apply nonblank_false in H. apply nonblank_stripped in G.
    now rewrite H, G.
  - intros H -> G V. apply nonblank_false in H, G. apply nonblank_stripped in V.
    now rewrite H, G, V.
  - intros H -> G V. apply nonblank_false in H, G, V. now rewrite H, G, V.
  - intros H N. apply nonblank_false in H. apply String.eqb_neq in N.
    now rewrite H, N.
Qed.

Lemma token_resolution_precedence_witness :
  let runtime :=
    _rt (Some base_and_business) [("WHATSAPP_ACCESS_TOKEN", "env")] in
  resolve_whatsapp_token (pydantic := strict_mode) runtime "business"
  = Ok {| token := "biz"; source := CONFIG |}
  /\ resolve_whatsapp_token (pydantic := strict_mode) runtime " Business "
     = Ok {| token := "biz"; source := CONFIG |}
  /\ resolve_whatsapp_token (pydantic := strict_mode) runtime "support"
     = Ok {| token := ""; source := NONE |}
  /\ resolve_whatsapp_token (pydantic := strict_mode) runtime "default"
     = Ok {| token := "base"; source := CONFIG |}.
Proof.
  cbv zeta.
  repeat match goal with
    | |- resolve_whatsapp_token ?rt ?a = _ /\ _ => split
    end;
  match goal with
  | |- resolve_whatsapp_token ?rt ?a = _ =>
      destruct (proj1 (token_resolution_precedence (pydantic := strict_mode)
                         rt a) _ eq_refl)
        as (Account & Global & _ & _ & Other)
  end.
  - apply Account. discriminate.
  - apply Account. discriminate.
  - apply Other; [reflexivity | discriminate].
  - apply Global; [reflexivity | reflexivity | discriminate].
Defined.

(** C1 as the specification words it fails on a runtime whose configuration
    does not validate, here by a [dmPolicy] that is none of the declared
    literals: no token is returned, of any source. *)
Lemma token_resolution_raises_on_invalid_configuration :
  resolve_whatsapp_token (pydantic := strict_mode)
    (_rt (Some [("accessToken", PStr "base"); ("dmPolicy", PStr "everyone")])
       [("WHATSAPP_ACCESS_TOKEN", "env")])
    "default"
  = Raise ValidationError.
Proof. reflexivity. Qed.

(** C10, as the code has it: the fallbacks of the default account are taken
    only for the account id that is literally ["default"].  For an id that
    normalizes to ["default"] without being that string, and for which the
    entry of the named account supplies no token, the result is the empty
    token with source [NONE], whatever the global configuration and the
    environment hold, when the configuration validates; when it does not,
    the call raises the validation error. *)
Theorem default_fallback_is_literal {pydantic : Pydantic}
    (runtime : AgentRuntime) (account_id : string) :
  normalize_account_id (Some account_id) = DEFAULT_ACCOUNT_ID ->
  account_id <> DEFAULT_ACCOUNT_ID ->
  (forall multi_config : WhatsAppMultiAccountConfig,
     get_multi_account_config runtime = Ok multi_config ->
     stripped (account_level_token (named_account multi_config account_id)) = "" ->
     resolve_whatsapp_token runtime account_id
     = Ok {| token := ""; source := NONE |})
  /\ (forall e : exn,
        get_multi_account_config runtime = Raise e ->
        resolve_whatsapp_token runtime account_id = Raise e).
Proof.
  intros _ Hne. split; [|intros e; apply resolve_whatsapp_token_raises].
  intros multi_config Hm Hacct.
  pose proof (get_account_config_named runtime account_id _ Hm) as Ha.
  rewrite (resolve_whatsapp_token_unfold _ _ _ _ Hm Ha).
  apply nonblank_false in Hacct. rewrite Hacct.
  apply String.eqb_neq in Hne. now rewrite Hne.
Qed.

Lemma default_fallback_is_literal_witness :
  let runtime :=
    _rt (Some [("accessToken", PStr "base")])
      [("WHATSAPP_ACCESS_TOKEN", "env-token")] in
  resolve_whatsapp_token (pydantic := strict_mode) runtime " DEFAULT "
  = Ok {| token := ""; source := NONE |}
  /\ resolve_whatsapp_token (pydantic := strict_mode) runtime "default"
     = Ok {| token := "base"; source := CONFIG |}.
Proof.
  cbv zeta. split; [|reflexivity].
  match goal with
  | |- resolve_whatsapp_token ?rt ?a = _ =>
      apply (proj1 (default_fallback_is_literal (pydantic := strict_mode)
                      rt a eq_refl ltac:(discriminate)) _ eq_refl)
  end.
  reflexivity.
Defined.

(** C10 as it is worded fails on a runtime whose configuration does not
    validate, here by a [groupPolicy] that is none of the declared
    literals: the call raises, and returns no token. *)
Lemma default_fallback_raises_on_invalid_configuration :
  normalize_account_id (Some " DEFAULT ") = DEFAULT_ACCOUNT_ID
  /\ " DEFAULT " <> DEFAULT_ACCOUNT_ID
  /\ resolve_whatsapp_token (pydantic := strict_mode)
       (_rt (Some [("groupPolicy", PStr "pairing")]) []) " DEFAULT "
     = Raise ValidationError.
Proof. split; [reflexivity | split; [discriminate | reflexivity]]. Qed.


(* ------------------------------------------------------------------------- *)
(** * Text chunking *)
(* ------------------------------------------------------------------------- *)

Section Chunking.

Variable limit : Z.
Hypothesis limit_positive : (0 < limit)%Z.

Lemma slice_to_len (s : string) (i : Z) :
  (0 <= i)%Z -> (Py.len (Py.slice_to s i) <= i)%Z.
Proof.
  intros H. unfold Py.len, Py.slice_to, Py.bound.
  destruct (i <? 0)%Z eqn:E; [apply Z.ltb_lt in E; lia|].
  rewrite take_length. lia.
Qed.

Lemma slice_from_length (s : string) (i : Z) :
  (0 <= i)%Z ->
  String.length (Py.slice_from s i) = String.length s - Z.to_nat i.
Proof.
  intros H. unfold Py.slice_from, Py.bound.
  destruct (i <? 0)%Z eqn:E; [apply Z.ltb_lt in E; lia|].
  apply drop_length.
Qed.

Lemma rstrip_len (s : string) : (Py.len (Py.rstrip s) <= Py.len s)%Z.
Proof. unfold Py.len. pose proof (rstrip_length s). lia. Qed.

(** A needle found in the search area lies before the limit. *)
Lemma rfind_in_search_area (text sub : string) :
  sub <> "" ->
  Py.rfind (Py.slice_to text limit) sub = (-1)%Z
  \/ (0 <= Py.rfind (Py.slice_to text limit) sub <= limit - Py.len sub)%Z.
Proof.
  intros _.
  destruct (rfind_bound (Py.slice_to text limit) sub) as [E|B]; [now left|].
  right. pose proof (slice_to_len text limit ltac:(lia)). lia.
Qed.

(** A cut at a break point: the chunk ends at [i] at the latest, and the
    remainder starts at [j], past the head of the text. *)
Lemma break_chunk_len (text : string) (i : Z) :
  (0 <= i <= limit)%Z ->
  (Py.len (Py.rstrip (Py.slice_to text i)) <= limit)%Z.
Proof.
  intros H. pose proof (rstrip_len (Py.slice_to text i)).
  pose proof (slice_to_len text i ltac:(lia)). lia.
Qed.

Lemma break_remainder_shrinks (text : string) (j : Z) :
  text <> "" -> (0 < j)%Z ->
  String.length (Py.lstrip (Py.slice_from text j)) < String.length text.
Proof.
  intros Ht Hj.
  pose proof (lstrip_length (Py.slice_from text j)) as L.
  rewrite slice_from_length in L by lia.
  destruct text; [contradiction|]. simpl String.length in *. lia.
Qed.

Lemma half_nonneg : (0 <= Z.quot limit 2)%Z.
Proof. apply Z.quot_pos; lia. Qed.

(** The split step makes progress: the remainder is strictly shorter. *)
Lemma split_shrinks (text : string) :
  text <> "" ->
  String.length (snd (_split_at_break_point text limit)) < String.length text.
Proof.
  intros Ht. unfold _split_at_break_point.
  pose proof half_nonneg as Hh.
  destruct (Py.len text <=? limit)%Z eqn:Hfit.
  { simpl. destruct text; [contradiction | simpl; lia]. }
  cbv zeta.
  repeat match goal with
         | |- context [(Z.quot limit 2 <? ?i)%Z] =>
             let E := fresh "E" in
             destruct (Z.quot limit 2 <? i)%Z eqn:E;
             [apply Z.ltb_lt in E; cbn [snd];
              apply break_remainder_shrinks; [exact Ht | lia] |]
         end.
  cbn [snd]. rewrite slice_from_length by lia.
  destruct text; [contradiction | cbn [String.length]; lia].
Qed.

(** The chunk of the split step fits the limit. *)
Lemma split_chunk_fits (text : string) :
  (Py.len (fst (_split_at_break_point text limit)) <= limit)%Z.
Proof.
  unfold _split_at_break_point.
  pose proof half_nonneg as Hh.
  destruct (Py.len text <=? limit)%Z eqn:Hfit.
  { simpl. now apply Z.leb_le. }
  cbv zeta.
  pose proof (rfind_in_search_area text (NL ++ NL) ltac:(discriminate)) as B1.
  pose proof (rfind_in_search_area text NL ltac:(discriminate)) as B2.
  pose proof (rfind_in_search_area text ". " ltac:(discriminate)) as B3.
  pose proof (rfind_in_search_area text "! " ltac:(discriminate)) as B4.
  pose proof (rfind_in_search_area text "? " ltac:(discriminate)) as B5.
  pose proof (rfind_in_search_area text " " ltac:(discriminate)) as B6.
  change (Py.len (NL ++ NL)) with 2%Z in B1.
  change (Py.len NL) with 1%Z in B2.
  change (Py.len ". ") with 2%Z in B3.
  change (Py.len "! ") with 2%Z in B4.
  change (Py.len "? ") with 2%Z in B5.
  change (Py.len " ") with 1%Z in B6.
  repeat match goal with
         | |- context [(Z.quot limit 2 <? ?i)%Z] =>
             let E := fresh "E" in
             destruct (Z.quot limit 2 <? i)%Z eqn:E;
             [apply Z.ltb_lt in E; cbn [fst];
              apply break_chunk_len; lia |]
         end.
  cbn [fst]. apply slice_to_len. lia.
Qed.

(** With fuel for the length of the remaining text the loop exits, having
    appended chunks that are not empty and fit the limit. *)
Lemma chunk_loop_exits (fuel : nat) :
  forall (remaining : string) (chunks : list string),
    String.length remaining <= fuel ->
    exists appended,
      chunk_loop fuel limit remaining chunks = Some (chunks ++ appended)%list
      /\ Forall (kept_chunk limit) appended.
Proof.
  induction fuel as [|fuel IH]; intros remaining chunks L.
  - apply Nat.le_0_r, length_zero in L. subst. simpl.
    exists []. now rewrite app_nil_r.
  - destruct remaining as [|c r].
    { simpl. exists []. now rewrite app_nil_r. }
    change (chunk_loop (S fuel) limit (String c r) chunks) with
      (let '(chunk, remaining) := _split_at_break_point (String c r) limit in
       chunk_loop fuel limit remaining
         (if Py.falsy chunk then chunks else (chunks ++ [chunk])%list)).
    pose proof (split_shrinks (String c r) ltac:(discriminate)) as Hs.
    pose proof (split_chunk_fits (String c r)) as Hf.
    destruct (_split_at_break_point (String c r) limit) as [chunk rest].
    simpl in Hs, Hf.
    destruct (IH rest (if Py.falsy chunk then chunks else (chunks ++ [chunk])%list)
                ltac:(simpl in L; lia)) as (app & -> & Happ).
    destruct (Py.falsy chunk) eqn:F.
    + exists app. split; [reflexivity | exact Happ].
    + exists (chunk :: app). split; [now rewrite <- app_assoc|].
      constructor; [|exact Happ].
      split; [now apply falsy_false | exact Hf].
Qed.

End Chunking.

(** The shape of the result under a positive limit: nothing for a blank
    text, the trimmed text alone when it fits, and otherwise chunks that are
    not empty and fit the limit. *)
Lemma chunk_whatsapp_text_shape (limit : option Z) (text : string) (fuel : nat) :
  (0 < effective limit)%Z ->
  String.length text <= fuel ->
  (Py.strip text = "" -> chunk_whatsapp_text fuel text limit = Some [])
  /\ (Py.strip text <> "" -> (Py.len (Py.strip text) <= effective limit)%Z ->
      chunk_whatsapp_text fuel text limit = Some [Py.strip text])
  /\ (Py.strip text <> "" -> (effective limit < Py.len (Py.strip text))%Z ->
      exists chunks,
        chunk_whatsapp_text fuel text limit = Some chunks
        /\ Forall (kept_chunk (effective limit)) chunks).
Proof.
  intros Hpos Hfuel. unfold chunk_whatsapp_text. fold (effective limit).
  cbv zeta.
  assert (Hblank : Py.falsy text || Py.falsy (Py.strip text)
                   = Py.falsy (Py.strip text)).
  { destruct text; reflexivity. }
  rewrite Hblank. repeat split.
  - intros ->. reflexivity.
  - intros Hne Hfit. apply falsy_false in Hne. rewrite Hne.
    apply Z.leb_le in Hfit. now rewrite Hfit.
  - intros Hne Hlong. apply falsy_false in Hne. rewrite Hne.
    apply Z.leb_gt in Hlong. rewrite Hlong.
    destruct (chunk_loop_exits (effective limit) Hpos fuel (Py.strip text) [])
      as (chunks & -> & Hall).
    { pose proof (strip_length text). lia. }
    simpl. exists (filter (fun c => negb (Py.falsy c)) chunks). split; [reflexivity|].
    rewrite Forall_forall in *. intros c Hc.
    apply filter_In in Hc. now apply Hall.
Qed.

(** The examples of the specification at the default limit. *)
Lemma chunk_whatsapp_text_at_default_limit :
  chunk_whatsapp_text 4096 (Py.repeat "a" 4096) None = Some [Py.repeat "a" 4096]
  /\ chunk_whatsapp_text 4097 (Py.repeat "a" 4097) None
     = Some [Py.repeat "a" 4096; "a"].
Proof. split; vm_compute; reflexivity. Qed.

(** C8 fails on the code after a hard cut: the remainder of a hard cut is
    not trimmed, so the chunk cut from it next begins with the blank that
    followed the cut. *)
Theorem chunk_after_hard_cut_keeps_blank :
  chunk_whatsapp_text 23 "aaaaaaaaaa bbbbbbbbbbbb" (Some 10%Z)
  = Some ["aaaaaaaaaa"; " bbbbbbbbb"; "bbb"]
  /\ Py.strip " bbbbbbbbb" <> " bbbbbbbbb"
  /\ _split_at_break_point "aaaaaaaaaa bbbbbbbbbbbb" 10
     = ("aaaaaaaaaa", " bbbbbbbbbbbb").
Proof.
  split; [reflexivity|]. split; [vm_compute; discriminate | reflexivity].
Qed.

(** C9, as the code has it: under a positive limit every split step leaves
    a remainder strictly shorter than the text it was given, and the loop
    of [chunk_whatsapp_text] exits, within as many iterations as the text
    has characters. *)
Theorem chunking_terminates (limit : option Z) :
  (0 < effective limit)%Z ->
  (forall remaining : string,
     remaining <> "" ->
     String.length (snd (_split_at_break_point remaining (effective limit)))
     < String.length remaining)
  /\ (forall (text : string) (fuel : nat),
        String.length text <= fuel ->
        exists chunks, chunk_whatsapp_text fuel text limit = Some chunks).
Proof.
  intros Hpos. split.
  - intros remaining. now apply split_shrinks.
  - intros text fuel Hfuel.
    destruct (chunk_whatsapp_text_shape limit text fuel Hpos Hfuel)
      as (Hblank & Hfit & Hlong).
    destruct (string_dec (Py.strip text) "") as [E|E]; [eauto|].
    destruct (Z_le_gt_dec (Py.len (Py.strip text)) (effective limit)) as [F|F];
      [eauto|].
    destruct (Hlong E ltac:(lia)) as (chunks & -> & _). eauto.
Qed.

Lemma chunking_terminates_witness :
  exists chunks,
    chunk_whatsapp_text 36 "Hello World! This is a test message." (Some 20%Z)
    = Some chunks.
Proof.
  apply (proj2 (chunking_terminates (Some 20%Z) ltac:(reflexivity))).
  simpl. lia.
Defined.

(** C9 as the specification words it fails at the limit [0]: the hard cut
    takes nothing off the text, and no amount of fuel lets the loop exit. *)
Lemma chunking_diverges_at_limit_zero :
  _split_at_break_point "a" 0 = ("", "a")
  /\ forall fuel : nat, chunk_whatsapp_text fuel "a" (Some 0%Z) = None.
Proof.
  split; [reflexivity|].
  assert (L : forall fuel chunks, chunk_loop fuel 0 "a" chunks = None).
  { induction fuel as [|fuel IH]; intros chunks; [reflexivity|].
    change (chunk_loop (S fuel) 0 "a" chunks) with (chunk_loop fuel 0 "a" chunks).
    apply IH. }
  intros fuel. unfold chunk_whatsapp_text. simpl. now rewrite L.
Qed.


(* ------------------------------------------------------------------------- *)
(** * Dicts and the merge of configuration layers *)
(* ------------------------------------------------------------------------- *)

Section Dicts.

Context {V : Type}.

Lemma dict_get_set (d : dict V) (k k' : string) (v : V) :
  dict_get k (dict_set d k' v) = if k' =? k then Some v else dict_get k d.
Proof.
  induction d as [|[k0 v0] d IH]; simpl.
  - destruct (k' =? k); reflexivity.
  - destruct (k0 =? k') eqn:E; simpl.
    + apply String.eqb_eq in E. subst k0. destruct (k' =? k); reflexivity.
    + rewrite IH. destruct (k0 =? k) eqn:E0; [|reflexivity].
      apply String.eqb_eq in E0. subst k0. now rewrite String.eqb_sym, E.
Qed.

Lemma dict_get_app (d1 d2 : dict V) (k : string) :
  dict_get k (d1 ++ d2)%list
  = match dict_get k d1 with Some v => Some v | None => dict_get k d2 end.
Proof.
  induction d1 as [|[k0 v0] d1 IH]; simpl; [reflexivity|].
  destruct (k0 =? k); [reflexivity | exact IH].
Qed.

(** After an update the last binding of a key in the second dict wins. *)
Lemma dict_get_update (d1 d2 : dict V) (k : string) :
  dict_get k (dict_update d1 d2)
  = match dict_get k (rev d2) with
    | Some v => Some v
    | None => dict_get k d1
    end.
Proof.
  unfold dict_update. revert d1.
  induction d2 as [|[k0 v0] d2 IH]; intros d1; simpl; [reflexivity|].
  rewrite IH, dict_get_app, dict_get_set. simpl.
  destruct (dict_get k (rev d2)); [reflexivity|].
  destruct (k0 =? k); reflexivity.
Qed.

Lemma dict_get_none (d : dict V) (k : string) :
  ~ In k (map fst d) -> dict_get k d = None.
Proof.
  induction d as [|[k0 v0] d IH]; simpl; [reflexivity|]. intros H.
  destruct (k0 =? k) eqn:E.
  - apply String.eqb_eq in E. tauto.
  - apply IH. tauto.
Qed.

Lemma dict_get_in (d : dict V) (k : string) (v : V) :
  dict_get k d = Some v -> In (k, v) d.
Proof.
  induction d as [|[k0 v0] d IH]; simpl; [discriminate|].
  destruct (k0 =? k) eqn:E.
  - apply String.eqb_eq in E. intros [= <-]. left. now subst.
  - intros H. right. now apply IH.
Qed.

(** With keys that are all different the order of a dict does not matter
    to a lookup. *)
Lemma dict_get_rev (d : dict V) (k : string) :
  NoDup (map fst d) -> dict_get k (rev d) = dict_get k d.
Proof.
  induction d as [|[k0 v0] d IH]; simpl; [reflexivity|].
  intros N. inversion N as [|? ? Hn N']; subst.
  rewrite dict_get_app, (IH N'). simpl.
  destruct (k0 =? k) eqn:E; [|destruct (dict_get k d); reflexivity].
  apply String.eqb_eq in E. subst k0. now rewrite (dict_get_none d k Hn).
Qed.

End Dicts.

Section Merge.

Lemma filter_defined_keys (d : dict pyval) (k : string) :
  In k (map fst (_filter_defined d)) -> In k (map fst d).
Proof.
  rewrite !in_map_iff. intros [kv [E I]].
  apply filter_In in I. exists kv. tauto.
Qed.

Lemma filter_defined_nodup (d : dict pyval) :
  NoDup (map fst d) -> NoDup (map fst (_filter_defined d)).
Proof.
  induction d as [|[k0 v0] d IH]; simpl; [constructor|].
  intros N. inversion N as [|? ? Hn N']; subst.
  destruct (is_none v0); simpl; [now apply IH|].
  constructor; [|now apply IH].
  intros H. now apply filter_defined_keys in H.
Qed.

Lemma dict_get_filter_defined (d : dict pyval) (k : string) :
  NoDup (map fst d) ->
  dict_get k (_filter_defined d) = defined (dict_get k d).
Proof.
  induction d as [|[k0 v0] d IH]; simpl; [reflexivity|].
  intros N. inversion N as [|? ? Hn N']; subst.
  destruct (is_none v0) eqn:E0; simpl.
  - rewrite (IH N'). destruct (k0 =? k) eqn:E; [|reflexivity].
    apply String.eqb_eq in E. subst k0.
    rewrite (dict_get_none d k Hn). simpl. now rewrite E0.
  - destruct (k0 =? k); [simpl; now rewrite E0 | exact (IH N')].
Qed.

(** A key of the merge [env < base < account] holds the value of the
    highest layer that defines it. *)
Lemma merged_get (env base account : dict pyval) (k : string) :
  NoDup (map fst env) -> NoDup (map fst base) -> NoDup (map fst account) ->
  dict_get k
    (dict_update
       (dict_update (dict_update [] (_filter_defined env))
          (_filter_defined base))
       (_filter_defined account))
  = match defined (dict_get k account) with
    | Some v => Some v
    | None =>
        match defined (dict_get k base) with
        | Some v => Some v
        | None => defined (dict_get k env)
        end
    end.
Proof.
  intros Ne Nb Na.
  rewrite !dict_get_update.
  rewrite !dict_get_rev by now apply filter_defined_nodup.
  rewrite !dict_get_filter_defined by assumption.
  simpl. destruct (defined (dict_get k account)); [reflexivity|].
  destruct (defined (dict_get k base)); [reflexivity|].
  destruct (defined (dict_get k env)); reflexivity.
Qed.

(** The value that validation reads for a field of the merge. *)
Lemma field_merged (env base account : dict pyval) (alias fname : string) :
  NoDup (map fst env) -> NoDup (map fst base) -> NoDup (map fst account) ->
  fname = alias
  \/ (dict_get fname account = None /\ dict_get fname base = None
      /\ dict_get fname env = None) ->
  field
    (dict_update
       (dict_update (dict_update [] (_filter_defined env))
          (_filter_defined base))
       (_filter_defined account)) alias fname
  = layered (dict_get alias account) (dict_get alias base) (dict_get alias env).
Proof.
  intros Ne Nb Na H. unfold field, py_get, layered.
  rewrite !merged_get by assumption.
  destruct H as [-> | (Ha & Hb & He)].
  - destruct (defined (dict_get alias account)); [reflexivity|].
    destruct (defined (dict_get alias base)); [reflexivity|].
    destruct (defined (dict_get alias env)); reflexivity.
  - rewrite Ha, Hb, He. simpl.
    destruct (defined (dict_get alias account)); [reflexivity|].
    destruct (defined (dict_get alias base)); [reflexivity|].
    destruct (defined (dict_get alias env)); reflexivity.
Qed.

(** A validator that accepts [None] and what each layer holds accepts the
    merged value. *)
Lemma layered_accepted {A : Type} (validate : pyval -> result A)
    (account base env : option pyval) :
  (exists x, validate PNone = Ok x) ->
  (forall v, account = Some v -> exists x, validate v = Ok x) ->
  (forall v, base = Some v -> exists x, validate v = Ok x) ->
  (forall v, env = Some v -> exists x, validate v = Ok x) ->
  exists x, validate (layered account base env) = Ok x.
Proof.
  intros Hn Ha Hb He. unfold layered, defined.
  destruct account as [a|]; [destruct (is_none a); [|now apply Ha]|];
    (destruct base as [b|]; [destruct (is_none b); [|now apply Hb]|];
     (destruct env as [e|]; [destruct (is_none e); [|now apply He]|]; exact Hn)).
Qed.

End Merge.


(* ------------------------------------------------------------------------- *)
(** * Validation *)
(* ------------------------------------------------------------------------- *)

Section Validation.

Context {pydantic : Pydantic}.

Lemma mapM_in {A B : Type} (f : A -> result B) (l : list A) (r : list B) :
  mapM f l = Ok r -> forall b, In b r -> exists a, In a l /\ f a = Ok b.
Proof.
  revert r; induction l as [|a l IH]; intros r H; simpl in H.
  - injection H as <-. intros b [].
  - bind_inv H. bind_inv H. injection H as <-.
    intros b [<- | I]; [exists a; split; [now left | assumption]|].
    destruct (IH _ eq_refl b I) as (a' & Ia & Ea). exists a'. split; [now right | assumption].
Qed.

Lemma mapM_map {A B : Type} (f : B -> result A) (g : A -> B) (l : list A) :
  (forall a, f (g a) = Ok a) -> mapM f (map g l) = Ok l.
Proof.
  intros H. induction l as [|a l IH]; simpl; [reflexivity|].
  now rewrite H, IH.
Qed.

(** What a model dumps validates again, to the same value. *)
Lemma validate_dump_bool (b : option bool) :
  validate_opt_bool (dump_opt PBool b) = Ok b.
Proof. destruct b; simpl; [now rewrite lax_bool_bool | reflexivity]. Qed.

Lemma validate_dump_str (s : option string) :
  validate_opt_str (dump_opt PStr s) = Ok s.
Proof. destruct s; reflexivity. Qed.

Lemma validate_dump_int (z : option Z) :
  validate_opt_int (dump_opt PInt z) = Ok z.
Proof. destruct z; simpl; [now rewrite lax_int_int | reflexivity]. Qed.

Lemma validate_dump_allow (l : option (list str_or_int)) :
  validate_opt_list validate_str_or_int (dump_opt (dump_list dump_str_or_int) l)
  = Ok l.
Proof.
  destruct l as [l|]; simpl; [|reflexivity].
  rewrite mapM_map; [reflexivity|].
  intros [s|z]; [apply lax_str_or_int_str | apply lax_str_or_int_int].
Qed.

Lemma validate_dump_skills (l : option (list string)) :
  validate_opt_list validate_str (dump_opt (dump_list PStr) l) = Ok l.
Proof.
  destruct l as [l|]; simpl; [|reflexivity].
  rewrite mapM_map; [reflexivity|]. reflexivity.
Qed.

Lemma validate_dump_group (g : WhatsAppGroupRuntimeConfig) :
  validate_group (dump_group g) = Ok g.
Proof.
  destruct g as [e af rm sp sk]. unfold validate_group, dump_group.
  unfold validate_group_fields, field. simpl dict_get.
  cbn [grp_enabled grp_allow_from grp_require_mention grp_system_prompt grp_skills].
  rewrite !validate_dump_bool, validate_dump_allow, validate_dump_str,
    validate_dump_skills.
  reflexivity.
Qed.

Lemma validate_dump_groups (gs : option (dict WhatsAppGroupRuntimeConfig)) :
  validate_opt_dict validate_group (dump_opt (dump_dict dump_group) gs) = Ok gs.
Proof.
  destruct gs as [gs|]; [|reflexivity].
  unfold validate_opt_dict, dump_opt, dump_dict.
  rewrite mapM_map; [reflexivity|].
  intros [k g]. cbn [fst snd]. now rewrite validate_dump_group.
Qed.

Lemma validate_dump_policy (allowed : list string) (p : option string) :
  allowed_policy allowed p ->
  validate_opt_literal allowed (dump_opt PStr p) = Ok p.
Proof.
  destruct p as [s|]; simpl; [|reflexivity]. intros H.
  replace (existsb (String.eqb s) allowed) with true; [reflexivity|].
  symmetry. apply existsb_exists. exists s. split; [now apply H|].
  apply String.eqb_refl.
Qed.

(** A policy that validation returns is one of the allowed literals. *)
Lemma validate_opt_literal_allowed (allowed : list string) (v : pyval)
    (p : option string) :
  validate_opt_literal allowed v = Ok p -> allowed_policy allowed p.
Proof.
  destruct v; simpl; try discriminate.
  - intros [= <-] s [=].
  - destruct (existsb (String.eqb s) allowed) eqn:E; [|discriminate].
    intros [= <-] s' [= <-].
    apply existsb_exists in E as (x & I & E).
    apply String.eqb_eq in E. now subst.
Qed.

(** The settings of the runtime as the environment layer holds them. *)
Lemma validate_or_none_str (s : option string) :
  exists x, validate_opt_str (or_none s) = Ok x.
Proof. destruct s as [[|c s]|]; simpl; eauto. Qed.

Lemma validate_or_none_policy (allowed : list string) (s : option string) :
  (forall s', s = Some s' -> s' = "" \/ In s' allowed) ->
  exists x, validate_opt_literal allowed (or_none s) = Ok x.
Proof.
  destruct s as [s|]; simpl; [|eauto]. intros H.
  destruct (H s eq_refl) as [-> | I]; [simpl; eauto|].
  destruct (Py.falsy s); [simpl; eauto|]. simpl.
  assert (E : existsb (String.eqb s) allowed = true).
  { apply existsb_exists. exists s. split; [assumption | apply String.eqb_refl]. }
  rewrite E. eauto.
Qed.

Lemma validate_account_fields_wf (d : dict pyval)
    (c : WhatsAppAccountRuntimeConfig) :
  validate_account_fields d = Ok c -> wf_account c.
Proof.
  unfold validate_account_fields. intros H.
  repeat bind_inv H. injection H as <-.
  split; simpl; eapply validate_opt_literal_allowed; eassumption.
Qed.

Lemma validate_accounts_wf (v : pyval)
    (accounts : option (dict WhatsAppAccountRuntimeConfig)) :
  validate_opt_dict validate_account v = Ok accounts ->
  forall k a, In (k, a) (entries accounts) -> wf_account a.
Proof.
  destruct v; simpl; try discriminate.
  - intros [= <-] k a [].
  - intros H. bind_inv H. injection H as <-. simpl.
    intros k acct I.
    destruct (mapM_in _ _ _ E _ I) as ([k' v] & _ & Hv). simpl in Hv.
    bind_inv Hv. injection Hv as _ <-.
    destruct v; simpl in E0; try discriminate.
    now apply validate_account_fields_wf in E0.
Qed.

Lemma validate_multi_fields_wf (d : dict pyval)
    (c : WhatsAppMultiAccountConfig) :
  validate_multi_fields d = Ok c -> wf_multi c.
Proof.
  unfold validate_multi_fields. intros H.
  repeat bind_inv H. injection H as <-.
  split; [|split]; simpl.
  - eapply validate_opt_literal_allowed; eassumption.
  - eapply validate_opt_literal_allowed; eassumption.
  - eapply validate_accounts_wf; eassumption.
Qed.

Lemma get_multi_account_config_wf (runtime : AgentRuntime)
    (multi_config : WhatsAppMultiAccountConfig) :
  get_multi_account_config runtime = Ok multi_config -> wf_multi multi_config.
Proof.
  assert (W : wf_multi empty_multi_config).
  { split; [|split]; simpl; try (intros s [=]). intros k a []. }
  unfold get_multi_account_config.
  destruct (_get_character_whatsapp runtime) as [[|kv wa]|].
  - now intros [= <-].
  - apply validate_multi_fields_wf.
  - now intros [= <-].
Qed.

Lemma get_account_config_wf (runtime : AgentRuntime) (account_id : string)
    (account_config : WhatsAppAccountRuntimeConfig) :
  _get_account_config runtime account_id = Ok (Some account_config) ->
  wf_account account_config.
Proof.
  unfold _get_account_config. intros H. bind_inv H.
  apply get_multi_account_config_wf in E. destruct E as (_ & _ & W).
  destruct (multi_accounts a) as [[|kv accounts]|]; try discriminate.
  simpl entries in W.
  destruct (dict_get account_id (kv :: accounts)) eqn:G.
  - injection H as ->. apply dict_get_in in G. eauto.
  - destruct (find _ (kv :: accounts)) as [[k v]|] eqn:F; [|discriminate].
    injection H as <-. apply find_some in F as [I _]. eauto.
Qed.

End Validation.


(* ------------------------------------------------------------------------- *)
(** * The error contract of the resolution functions *)
(* ------------------------------------------------------------------------- *)

Ltac nodup_keys :=
  cbn [map fst dump_account dump_multi_base];
  repeat (constructor; [cbn [In]; intuition discriminate|]); constructor.

Ltac accept_layer :=
  first
    [ apply validate_dump_str | apply validate_dump_bool
    | apply validate_dump_int | apply validate_dump_allow
    | apply validate_dump_groups
    | apply validate_dump_policy; assumption ].

Ltac accept_env Henv :=
  first [ apply validate_or_none_str
        | apply validate_or_none_policy; apply Henv ].

Section ErrorContract.

Context {pydantic : Pydantic}.

Local Opaque dump_opt or_none.

(** The merged dict validates: each of its fields holds what one of the
    three layers holds, and each layer holds values of the right kind. *)
Lemma merge_returns (runtime : AgentRuntime) (account_id : string)
    (multi_config : WhatsAppMultiAccountConfig) :
  get_multi_account_config runtime = Ok multi_config ->
  env_policies_recognized runtime ->
  exists merged, _merge_whatsapp_account_config runtime account_id = Ok merged.
Proof.
  intros Hm Henv.
  destruct (get_account_config_returns runtime account_id _ Hm) as [ac Ha].
  pose proof (get_multi_account_config_wf _ _ Hm) as (Wd & Wg & _).
  assert (Wa : forall c, ac = Some c -> wf_account c).
  { intros c ->. eapply get_account_config_wf; eassumption. }
  unfold _merge_whatsapp_account_config. rewrite Hm, Ha. cbn [bind].
  unfold validate_account_fields.
  match goal with
  | |- context [dict_update
                  (dict_update (dict_update [] (_filter_defined ?E))
                     (_filter_defined ?B)) (_filter_defined ?A)] =>
      assert (NE : NoDup (map fst E)) by nodup_keys;
      assert (NB : NoDup (map fst B)) by nodup_keys;
      assert (NA : NoDup (map fst A)) by (destruct ac; nodup_keys);
      repeat match goal with
        | |- context [field _ ?k ?n] =>
            rewrite (field_merged E B A k n NE NB NA)
              by (first [ left; reflexivity
                        | right; destruct ac; repeat split; reflexivity ])
        end
  end.
  clear NE NB NA Ha.
  destruct ac as [c|]; [destruct (Wa c eq_refl) as [Wad Wag]|]; clear Wa;
  repeat match goal with
    | |- exists m, bind (?V (layered ?a ?b ?e)) _ = Ok m =>
        let x := fresh "x" in
        let Hx := fresh "Hx" in
        destruct (layered_accepted V a b e) as [x Hx];
        [ eexists; reflexivity
        | cbn; intros v Hv;
          first [discriminate Hv | injection Hv as <-; eexists; accept_layer]
        | cbn; intros v Hv;
          first [discriminate Hv | injection Hv as <-; eexists; accept_layer]
        | cbn; intros v Hv;
          first [discriminate Hv | injection Hv as <-; accept_env Henv]
        | rewrite Hx; cbn [bind] ]
    end;
  eexists; reflexivity.
Qed.

Lemma token_returns (runtime : AgentRuntime) (account_id : string)
    (multi_config : WhatsAppMultiAccountConfig) :
  get_multi_account_config runtime = Ok multi_config ->
  exists resolution, resolve_whatsapp_token runtime account_id = Ok resolution.
Proof.
  intros Hm.
  destruct (get_account_config_returns runtime account_id _ Hm) as [ac Ha].
  rewrite (resolve_whatsapp_token_unfold _ _ _ _ Hm Ha).
  repeat match goal with
         | |- context [if ?b then _ else _] => destruct b
         end; eauto.
Qed.

Lemma group_config_returns (runtime : AgentRuntime)
    (account_id group_id : string) (multi_config : WhatsAppMultiAccountConfig) :
  get_multi_account_config runtime = Ok multi_config ->
  exists group,
    resolve_whatsapp_group_config runtime account_id group_id = Ok group.
Proof.
  intros Hm.
  destruct (get_account_config_returns runtime account_id _ Hm) as [ac Ha].
  unfold resolve_whatsapp_group_config. rewrite Hm, Ha. cbn [bind].
  match goal with
  | |- exists g, match ?x with _ => _ end = _ => destruct x; eauto
  end.
  destruct (nonempty_dict (multi_groups multi_config)); eauto.
Qed.

Lemma account_returns (runtime : AgentRuntime) (account_id : option string)
    (multi_config : WhatsAppMultiAccountConfig) :
  get_multi_account_config runtime = Ok multi_config ->
  env_policies_recognized runtime ->
  exists account, resolve_whatsapp_account runtime account_id = Ok account.
Proof.
  intros Hm Henv.
  unfold resolve_whatsapp_account. rewrite Hm. cbn [bind].
  destruct (merge_returns runtime (normalize_account_id account_id) _ Hm Henv)
    as [merged ->].
  destruct (token_returns runtime (normalize_account_id account_id) _ Hm)
    as [resolution ->].
  cbn [bind]. eauto.
Qed.

(** ** Configurations of the declared types validate *)

Lemma mapM_accepts {A B : Type} (kind : A -> bool) (f : A -> result B)
    (l : list A) :
  (forall a, kind a = true -> exists b, f a = Ok b) ->
  forallb kind l = true -> exists r, mapM f l = Ok r.
Proof.
  intros Hf. induction l as [|a l IH]; simpl; [eauto|].
  intros H. apply andb_true_iff in H as [Ha Hl].
  destruct (Hf a Ha) as [b ->]. destruct (IH Hl) as [r ->]. simpl. eauto.
Qed.

Lemma accepts_opt_bool (v : pyval) :
  unset_or is_bool v = true -> exists x, validate_opt_bool v = Ok x.
Proof.
  destruct v; try discriminate; simpl; [eauto|].
  rewrite lax_bool_bool. simpl. eauto.
Qed.

Lemma accepts_opt_int (v : pyval) :
  unset_or is_int v = true -> exists x, validate_opt_int v = Ok x.
Proof.
  destruct v; try discriminate; simpl; [eauto|].
  rewrite lax_int_int. simpl. eauto.
Qed.

Lemma accepts_opt_str (v : pyval) :
  unset_or is_str v = true -> exists x, validate_opt_str v = Ok x.
Proof. destruct v; try discriminate; simpl; eauto. Qed.

Lemma accepts_opt_literal (allowed : list string) (v : pyval) :
  unset_or (is_literal allowed) v = true ->
  exists x, validate_opt_literal allowed v = Ok x.
Proof.
  destruct v; try discriminate; simpl; [eauto|].
  unfold unset_or. simpl. intros ->. eauto.
Qed.

Lemma accepts_str_or_int (v : pyval) :
  is_str_or_int v = true -> exists x, validate_str_or_int v = Ok x.
Proof.
  unfold validate_str_or_int. destruct v; try discriminate; intros _.
  - rewrite lax_str_or_int_int. eauto.
  - rewrite lax_str_or_int_str. eauto.
Qed.

Lemma accepts_str (v : pyval) :
  is_str v = true -> exists x, validate_str v = Ok x.
Proof. destruct v; try discriminate; simpl; eauto. Qed.

Lemma accepts_opt_list {A : Type} (kind : pyval -> bool)
    (f : pyval -> result A) (v : pyval) :
  (forall a, kind a = true -> exists b, f a = Ok b) ->
  unset_or (is_list_of kind) v = true ->
  exists x, validate_opt_list f v = Ok x.
Proof.
  intros Hf. destruct v; try discriminate; simpl; [eauto|].
  unfold unset_or. simpl. intros H.
  destruct (mapM_accepts kind f l Hf H) as [r ->]. simpl. eauto.
Qed.

Lemma accepts_opt_dict {A : Type} (kind : pyval -> bool)
    (f : pyval -> result A) (v : pyval) :
  (forall a, kind a = true -> exists b, f a = Ok b) ->
  unset_or (is_dict_of kind) v = true ->
  exists x, validate_opt_dict f v = Ok x.
Proof.
  intros Hf. destruct v; try discriminate; simpl; [eauto|].
  unfold unset_or. simpl. intros H.
  destruct (mapM_accepts (fun kv => kind (snd kv))
              (fun kv => a <- f (snd kv) ;; Ok (fst kv, a)) d) as [r ->];
    [|exact H | simpl; eauto].
  intros [k a] Ha. destruct (Hf a Ha) as [b E]. cbn [fst snd] in *.
  rewrite E. simpl. eauto.
Qed.

Ltac split_fields H :=
  repeat match type of H with
    | _ && _ = true =>
        let H' := fresh "F" in
        apply andb_true_iff in H as [H H']
    end.

Ltac accept_fields :=
  repeat match goal with
    | |- exists m, bind (validate_opt_bool ?x) _ = Ok m =>
        destruct (accepts_opt_bool x) as [? ->]; [assumption | cbn [bind]]
    | |- exists m, bind (validate_opt_int ?x) _ = Ok m =>
        destruct (accepts_opt_int x) as [? ->]; [assumption | cbn [bind]]
    | |- exists m, bind (validate_opt_str ?x) _ = Ok m =>
        destruct (accepts_opt_str x) as [? ->]; [assumption | cbn [bind]]
    | |- exists m, bind (validate_opt_literal ?a ?x) _ = Ok m =>
        destruct (accepts_opt_literal a x) as [? ->]; [assumption | cbn [bind]]
    | H : unset_or (is_list_of ?k) ?x = true
      |- exists m, bind (validate_opt_list ?f ?x) _ = Ok m =>
        destruct (accepts_opt_list k f x) as [? ->];
        [auto using accepts_str_or_int, accepts_str | exact H | cbn [bind]]
    end.

Lemma accepts_group (v : pyval) :
  declared_group v = true -> exists g, validate_group v = Ok g.
Proof.
  destruct v; try discriminate. unfold declared_group. intros H.
  split_fields H. unfold validate_group, validate_group_fields.
  accept_fields. eauto.
Qed.

Lemma accepts_account (v : pyval) :
  declared_account v = true -> exists c, validate_account v = Ok c.
Proof.
  destruct v; try discriminate. unfold declared_account. intros H.
  split_fields H. unfold validate_account, validate_account_fields.
  accept_fields.
  match goal with
  | H : unset_or (is_dict_of ?k) ?x = true
    |- exists m, bind (validate_opt_dict ?f ?x) _ = Ok m =>
      destruct (accepts_opt_dict k f x accepts_group H) as [? ->]
  end.
  cbn [bind]. eauto.
Qed.

(** A configuration of the declared types validates. *)
Lemma declared_configuration_validates (runtime : AgentRuntime) :
  declared_configuration runtime = true ->
  exists multi_config, get_multi_account_config runtime = Ok multi_config.
Proof.
  unfold declared_configuration, get_multi_account_config.
  destruct (_get_character_whatsapp runtime) as [[|kv wa]|]; eauto.
  generalize (kv :: wa). clear kv wa. intros wa H.
  unfold declared_settings in H. split_fields H.
  unfold validate_multi_fields, field. simpl dict_get.
  accept_fields.
  match goal with
  | H : unset_or (is_dict_of ?k) ?x = true
    |- exists m, bind (validate_opt_dict ?f ?x) _ = Ok m =>
      destruct (accepts_opt_dict k f x accepts_account H) as [? ->]
  end.
  cbn [bind].
  match goal with
  | H : unset_or (is_dict_of ?k) ?x = true
    |- exists m, bind (validate_opt_dict ?f ?x) _ = Ok m =>
      destruct (accepts_opt_dict k f x accepts_group H) as [? ->]
  end.
  cbn [bind]. eauto.
Qed.

(** A value that the validation converts is kept as converted: whatever
    [int] the string ["16"] is read as, the configuration holds it. *)
Lemma converted_value_is_kept (z : Z) :
  lax_int (PStr "16") = Ok z ->
  exists multi_config,
    get_multi_account_config (_rt (Some [("mediaMaxMb", PStr "16")]) [])
    = Ok multi_config
    /\ multi_media_max_mb multi_config = Some z.
Proof.
  intros H. unfold get_multi_account_config. cbn. rewrite H. cbn.
  eexists. split; reflexivity.
Qed.

(** What makes the validation raise whatever it converts: a policy that is
    none of the declared literals, in the settings of the runtime or in the
    configuration of the character; a list for [mediaMaxMb]; a list for
    [accounts]. *)
Lemma malformed_configuration_raises :
  resolve_whatsapp_account (_rt None [("WHATSAPP_DM_POLICY", "everyone")]) None
  = Raise ValidationError
  /\ _merge_whatsapp_account_config
       (_rt None [("WHATSAPP_GROUP_POLICY", "pairing")]) "default"
     = Raise ValidationError
  /\ get_multi_account_config (_rt (Some [("mediaMaxMb", PList [PInt 16])]) [])
     = Raise ValidationError
  /\ resolve_whatsapp_group_config
       (_rt (Some [("accounts", PList [PStr "business"])]) []) "business" "1@g.us"
     = Raise ValidationError
  /\ resolve_whatsapp_token
       (_rt (Some [("accessToken", PStr "base"); ("dmPolicy", PStr "everyone")])
          [("WHATSAPP_ACCESS_TOKEN", "env")])
       "default"
     = Raise ValidationError
  /\ resolve_whatsapp_token
       (_rt (Some [("groupPolicy", PStr "pairing")]) []) " DEFAULT "
     = Raise ValidationError.
Proof.
  split; [reflexivity|]. split; [reflexivity|].
  split; [|split; [reflexivity | split; reflexivity]].
  unfold get_multi_account_config. cbn.
  now rewrite lax_int_list.
Qed.

End ErrorContract.

(** C4: the account that [resolve_whatsapp_account] returns is configured
    exactly when its access token and its phone-number id are both not
    empty after trimming; and an account is returned whenever the
    configuration validates and the policy settings are recognized. *)
Theorem configured_iff_token_and_phone {pydantic : Pydantic}
    (runtime : AgentRuntime) (account_id : option string) :
  (forall account : ResolvedWhatsAppAccount,
     resolve_whatsapp_account runtime account_id = Ok account ->
     (res_configured account = true
      <-> Py.strip (res_access_token account) <> ""
          /\ Py.strip (res_phone_number_id account) <> ""))
  /\ (forall multi_config : WhatsAppMultiAccountConfig,
        get_multi_account_config runtime = Ok multi_config ->
        env_policies_recognized runtime ->
        exists account, resolve_whatsapp_account runtime account_id = Ok account).
Proof.
  split; [|intros multi_config; apply account_returns].
  unfold resolve_whatsapp_account. intros account H.
  bind_inv H. bind_inv H. bind_inv H.
  injection H as <-. simpl.
  rewrite (resolved_token_trimmed _ _ _ E1), strip_strip.
  rewrite andb_true_iff, !negb_true_iff, !falsy_false. reflexivity.
Qed.

Lemma configured_iff_token_and_phone_witness :
  (exists account,
     resolve_whatsapp_account (pydantic := strict_mode)
       (_rt (Some base_and_business) []) (Some "business")
     = Ok account
     /\ res_access_token account = "biz"
     /\ res_token_source account = CONFIG
     /\ res_configured account = true)
  /\ (exists account,
        resolve_whatsapp_account (pydantic := strict_mode)
          (_rt (Some base_and_business) []) None
        = Ok account
        /\ res_configured account = false).
Proof.
  split.
  - eexists. split; [reflexivity|]. split; [reflexivity|]. split; [reflexivity|].
    apply (proj1 (configured_iff_token_and_phone (pydantic := strict_mode)
                    (_rt (Some base_and_business) []) (Some "business"))
             _ eq_refl).
    split; vm_compute; discriminate.
  - destruct (proj2 (configured_iff_token_and_phone (pydantic := strict_mode)
                       (_rt (Some base_and_business) []) None) _ eq_refl)
      as [account H].
    { split; intros s Hs; discriminate Hs. }
    exists account. split; [exact H|].
    vm_compute in H. injection H as <-. reflexivity.
Defined.

(** C2, as the code has it: a runtime without a [whatsapp] configuration
    resolves to the configuration with every field unset; a configuration
    whose fields are unset or hold values of the declared types validates;
    and for a runtime whose configuration validates, and whose
    [WHATSAPP_DM_POLICY] and [WHATSAPP_GROUP_POLICY] settings are unset,
    empty or recognized policy values, the merge of the configuration
    layers, [resolve_whatsapp_account] and [resolve_whatsapp_group_config]
    return without raising. *)
Theorem resolution_returns_on_valid_configuration {pydantic : Pydantic} :
  (forall runtime : AgentRuntime,
     _get_character_whatsapp runtime = None ->
     get_multi_account_config runtime = Ok empty_multi_config)
  /\ (forall runtime : AgentRuntime,
        declared_configuration runtime = true ->
        exists multi_config,
          get_multi_account_config runtime = Ok multi_config)
  /\ (forall (runtime : AgentRuntime) (multi_config : WhatsAppMultiAccountConfig),
        get_multi_account_config runtime = Ok multi_config ->
        env_policies_recognized runtime ->
        forall (account_id : string) (requested : option string)
               (group_id : string),
          (exists merged,
             _merge_whatsapp_account_config runtime account_id = Ok merged)
          /\ (exists account,
                resolve_whatsapp_account runtime requested = Ok account)
          /\ (exists group,
                resolve_whatsapp_group_config runtime account_id group_id
                = Ok group)).
Proof.
  split; [|split].
  - intros runtime H. unfold get_multi_account_config. now rewrite H.
  - apply declared_configuration_validates.
  - intros runtime multi_config Hm Henv account_id requested group_id.
    split; [now apply merge_returns with multi_config|].
    split; [|now apply group_config_returns with multi_config].
    now apply account_returns with multi_config.
Qed.

Lemma resolution_returns_on_valid_configuration_witness :
  get_multi_account_config (pydantic := strict_mode)
    (_rt None [("WHATSAPP_DM_POLICY", "open")])
  = Ok empty_multi_config
  /\ exists multi_config account,
       get_multi_account_config (pydantic := strict_mode)
         (_rt (Some base_and_business) [("WHATSAPP_DM_POLICY", "open")])
       = Ok multi_config
       /\ resolve_whatsapp_account (pydantic := strict_mode)
            (_rt (Some base_and_business) [("WHATSAPP_DM_POLICY", "open")])
            (Some "business")
          = Ok account.
Proof.
  destruct (resolution_returns_on_valid_configuration (pydantic := strict_mode))
    as (Absent & Declared & Returns).
  split; [apply Absent; reflexivity|].
  destruct (Declared (_rt (Some base_and_business)
                        [("WHATSAPP_DM_POLICY", "open")]) eq_refl)
    as [multi_config Hm].
  exists multi_config.
  destruct (Returns _ _ Hm) with (account_id := "business")
    (requested := Some "business") (group_id := "")
    as (_ & [account Ha] & _).
  { split; intros s H; vm_compute in H; [|discriminate H].
    injection H as <-. right. simpl. tauto. }
  exists account. split; assumption.
Defined.

(** C2 as the specification words it fails: a policy setting outside the
    recognized values, and a list where the configuration declares an
    [int] or a [dict], make the validation of the models raise. *)
Lemma unrecognized_configuration_raises :
  resolve_whatsapp_account (pydantic := strict_mode)
    (_rt None [("WHATSAPP_DM_POLICY", "everyone")]) None
  = Raise ValidationError
  /\ _merge_whatsapp_account_config (pydantic := strict_mode)
       (_rt None [("WHATSAPP_GROUP_POLICY", "pairing")]) "default"
     = Raise ValidationError
  /\ get_multi_account_config (pydantic := strict_mode)
       (_rt (Some [("mediaMaxMb", PList [PInt 16])]) [])
     = Raise ValidationError
  /\ resolve_whatsapp_group_config (pydantic := strict_mode)
       (_rt (Some [("accounts", PList [PStr "business"])]) []) "business" "1@g.us"
     = Raise ValidationError.
Proof.
  destruct (malformed_configuration_raises (pydantic := strict_mode))
    as (A & B & C & D & _).
  repeat split; assumption.
Qed.


(* ------------------------------------------------------------------------- *)
(** * What the patterns accept *)
(* ------------------------------------------------------------------------- *)

Section Regex.

Lemma append_length (a b : string) :
  String.length (a ++ b) = String.length a + String.length b.
Proof. induction a as [|c a IH]; simpl; [reflexivity | now rewrite IH]. Qed.

Lemma append_nil_r (a : string) : a ++ "" = a.
Proof. induction a as [|c a IH]; simpl; [reflexivity | now rewrite IH]. Qed.

Lemma append_assoc (a b c : string) : (a ++ b) ++ c = a ++ b ++ c.
Proof. induction a as [|x a IH]; simpl; [reflexivity | now rewrite IH]. Qed.

Lemma accepts_none (s : string) : accepts Rnone s = false.
Proof. induction s; simpl; auto. Qed.

Lemma accepts_eps (s : string) : accepts Reps s = true <-> s = "".
Proof.
  destruct s; simpl; [tauto|]. rewrite accepts_none. split; discriminate.
Qed.

Lemma accepts_alt (r1 r2 : regex) (s : string) :
  accepts (Ralt r1 r2) s = accepts r1 s || accepts r2 s.
Proof. revert r1 r2; induction s; intros; simpl; auto. Qed.

Lemma accepts_class (p : ascii -> bool) (s : string) :
  accepts (Rclass p) s = true <-> exists c, s = String c "" /\ p c = true.
Proof.
  destruct s as [|c s]; simpl.
  - split; [discriminate | intros (c & E & _); discriminate].
  - destruct (p c) eqn:P.
    + rewrite accepts_eps. split.
      * intros ->. eauto.
      * intros (c' & [= -> ->] & _). reflexivity.
    + rewrite accepts_none. split; [discriminate|].
      intros (c' & [= -> ->] & P'). congruence.
Qed.

(** A concatenation accepts the strings that split into a part for each
    side. *)
Lemma accepts_cat (r1 r2 : regex) (s : string) :
  accepts (Rcat r1 r2) s = true
  <-> exists s1 s2, s = s1 ++ s2 /\ accepts r1 s1 = true /\ accepts r2 s2 = true.
Proof.
  revert r1 r2; induction s as [|c s IH]; intros r1 r2.
  - simpl. rewrite andb_true_iff. split.
    + intros [H1 H2]. exists "", "". auto.
    + intros (s1 & s2 & E & H1 & H2).
      destruct s1; [|discriminate]. destruct s2; [|discriminate]. auto.
  - change (accepts (Rcat r1 r2) (String c s))
      with (accepts (if nullable r1
                     then Ralt (Rcat (deriv c r1) r2) (deriv c r2)
                     else Rcat (deriv c r1) r2) s).
    split.
    + intros H.
      assert (C : accepts (Rcat (deriv c r1) r2) s = true
                  \/ (nullable r1 = true /\ accepts (deriv c r2) s = true)).
      { destruct (nullable r1); [|now left].
        rewrite accepts_alt in H. apply orb_true_iff in H. tauto. }
      destruct C as [C | [N C]].
      * apply IH in C as (s1 & s2 & -> & H1 & H2).
        exists (String c s1), s2. auto.
      * exists "", (String c s). auto.
    + intros (s1 & s2 & E & H1 & H2).
      destruct s1 as [|c1 s1]; simpl in E.
      * subst s2. simpl in H1. rewrite H1, accepts_alt.
        simpl in H2. rewrite H2. apply orb_true_r.
      * injection E as -> ->.
        assert (C : accepts (Rcat (deriv c1 r1) r2) (s1 ++ s2) = true).
        { apply IH. exists s1, s2. auto. }
        destruct (nullable r1); [|exact C].
        rewrite accepts_alt, C. reflexivity.
Qed.

(** A repeated class accepts the strings made of its characters. *)
Lemma accepts_star_class (p : ascii -> bool) (s : string) :
  accepts (Rstar (Rclass p)) s = all_chars p s.
Proof.
  induction s as [|c s IH]; [reflexivity|].
  change (accepts (Rstar (Rclass p)) (String c s))
    with (accepts (Rcat (if p c then Reps else Rnone) (Rstar (Rclass p))) s).
  simpl all_chars. destruct (p c); simpl.
  - rewrite <- IH. apply eq_true_iff_eq. rewrite accepts_cat. split.
    + intros (s1 & s2 & -> & H1 & H2). apply accepts_eps in H1. now subst.
    + intros H. exists "", s. auto.
  - apply not_true_is_false. intros H. apply accepts_cat in H.
    destruct H as (s1 & s2 & _ & H1 & _). now rewrite accepts_none in H1.
Qed.

Lemma accepts_plus_class (p : ascii -> bool) (s : string) :
  accepts (Rplus (Rclass p)) s = true <-> s <> "" /\ all_chars p s = true.
Proof.
  unfold Rplus. rewrite accepts_cat. split.
  - intros (s1 & s2 & -> & H1 & H2).
    apply accepts_class in H1 as (c & -> & P).
    rewrite accepts_star_class in H2. simpl. rewrite P, H2.
    split; [discriminate | reflexivity].
  - intros [N A]. destruct s as [|c s]; [contradiction|].
    simpl in A. apply andb_true_iff in A as [P A].
    exists (String c ""), s. rewrite accepts_star_class.
    split; [reflexivity|]. split; [|exact A].
    apply accepts_class. eauto.
Qed.

Lemma accepts_pow_class (p : ascii -> bool) (n : nat) (s : string) :
  accepts (Rpow n (Rclass p)) s = true
  <-> String.length s = n /\ all_chars p s = true.
Proof.
  revert s; induction n as [|n IH]; intros s; simpl Rpow.
  - rewrite accepts_eps. split.
    + intros ->. auto.
    + intros [L _]. now apply length_zero.
  - rewrite accepts_cat. split.
    + intros (s1 & s2 & -> & H1 & H2).
      apply accepts_class in H1 as (c & -> & P).
      apply IH in H2 as [L A]. simpl. rewrite P, A, L. auto.
    + intros [L A]. destruct s as [|c s]; [discriminate|].
      simpl in A. apply andb_true_iff in A as [P A]. injection L as L.
      exists (String c ""), s. split; [reflexivity|].
      split; [apply accepts_class; eauto | apply IH; auto].
Qed.

Lemma accepts_upto_class (p : ascii -> bool) (n : nat) (s : string) :
  accepts (Rupto n (Rclass p)) s = true
  <-> String.length s <= n /\ all_chars p s = true.
Proof.
  revert s; induction n as [|n IH]; intros s; simpl Rupto.
  - rewrite accepts_eps. split.
    + intros ->. auto.
    + intros [L _]. apply length_zero. lia.
  - unfold Ropt. rewrite accepts_alt, orb_true_iff, accepts_cat, accepts_eps.
    split.
    + intros [(s1 & s2 & -> & H1 & H2) | ->]; [|simpl; split; [lia | reflexivity]].
      apply accepts_class in H1 as (c & -> & P).
      apply IH in H2 as [L A]. simpl. rewrite P, A. split; [lia | reflexivity].
    + intros [L A]. destruct s as [|c s]; [now right | left].
      simpl in A. apply andb_true_iff in A as [P A]. simpl in L.
      exists (String c ""), s. split; [reflexivity|].
      split; [apply accepts_class; eauto | apply IH; split; [lia | exact A]].
Qed.

(** A case-insensitive literal accepts the strings that lower-case to what
    it lower-cases to. *)
Lemma accepts_lit_i (lit s : string) :
  accepts (Rlit_i lit) s = true <-> Py.lower s = Py.lower lit.
Proof.
  revert s; induction lit as [|c lit IH]; intros s; simpl Rlit_i.
  - rewrite accepts_eps. destruct s; simpl; split; congruence.
  - rewrite accepts_cat. split.
    + intros (s1 & s2 & -> & H1 & H2).
      apply accepts_class in H1 as (x & -> & P).
      apply Ascii.eqb_eq in P. apply IH in H2. simpl. now rewrite P, H2.
    + destruct s as [|x s]; simpl; [discriminate|]. intros [= P H].
      exists (String x ""), s. split; [reflexivity|].
      split; [|now apply IH].
      apply accepts_class. exists x. split; [reflexivity|].
      now apply Ascii.eqb_eq.
Qed.

End Regex.


(* ------------------------------------------------------------------------- *)
(** * Account ids are canonical *)
(* ------------------------------------------------------------------------- *)

Section AccountIds.

Lemma isspace_lower_char (c : ascii) :
  Py.isspace (Py.lower_char c) = Py.isspace c.
Proof. destruct c as [[] [] [] [] [] [] [] []]; reflexivity. Qed.

Lemma lower_char_idempotent (c : ascii) :
  Py.lower_char (Py.lower_char c) = Py.lower_char c.
Proof. destruct c as [[] [] [] [] [] [] [] []]; reflexivity. Qed.

Lemma lower_lower (s : string) : Py.lower (Py.lower s) = Py.lower s.
Proof.
  induction s as [|c s IH]; simpl; [reflexivity|].
  now rewrite lower_char_idempotent, IH.
Qed.

Lemma lstrip_lower (s : string) : Py.lstrip (Py.lower s) = Py.lower (Py.lstrip s).
Proof.
  induction s as [|c s IH]; simpl; [reflexivity|].
  rewrite isspace_lower_char. destruct (Py.isspace c); [exact IH | reflexivity].
Qed.

Lemma rstrip_lower (s : string) : Py.rstrip (Py.lower s) = Py.lower (Py.rstrip s).
Proof.
  induction s as [|c s IH]; simpl; [reflexivity|].
  rewrite IH, isspace_lower_char.
  destruct (Py.rstrip s); simpl; [destruct (Py.isspace c)|]; reflexivity.
Qed.

Lemma strip_lower (s : string) : Py.strip (Py.lower s) = Py.lower (Py.strip s).
Proof. unfold Py.strip. now rewrite lstrip_lower, rstrip_lower. Qed.

Lemma falsy_lower (s : string) : Py.falsy (Py.lower s) = Py.falsy s.
Proof. destruct s; reflexivity. Qed.

(** The id that [normalize_account_id] returns is the default one or the
    trimmed lower-case form of its argument. *)
Lemma normalize_account_id_cases (account_id : option string) :
  normalize_account_id account_id = DEFAULT_ACCOUNT_ID
  \/ exists a, account_id = Some a
               /\ normalize_account_id account_id = Py.lower (Py.strip a)
               /\ Py.lower (Py.strip a) <> ""
               /\ Py.lower (Py.strip a) <> "default".
Proof.
  destruct account_id as [a|]; [|now left]. simpl.
  destruct (Py.falsy a); [now left|].
  destruct (Py.falsy (Py.lower (Py.strip a))) eqn:F; [now left|].
  destruct (Py.lower (Py.strip a) =? "default") eqn:D; [now left|].
  right. exists a. simpl.
  apply falsy_false in F. apply String.eqb_neq in D. auto.
Qed.


Lemma normalize_account_id_fixed (account_id : option string) :
  let id_ := normalize_account_id account_id in
  id_ <> ""
  /\ Py.strip id_ = id_
  /\ Py.lower id_ = id_
  /\ normalize_account_id (Some id_) = id_.
Proof.
  cbv zeta.
  destruct (normalize_account_id_cases account_id)
    as [-> | (a & -> & E & Hne & Hnd)].
  - repeat split. discriminate.
  - rewrite E.
    assert (S : Py.strip (Py.lower (Py.strip a)) = Py.lower (Py.strip a))
      by now rewrite strip_lower, strip_strip.
    assert (L : Py.lower (Py.lower (Py.strip a)) = Py.lower (Py.strip a))
      by apply lower_lower.
    repeat split; try assumption.
    unfold normalize_account_id. rewrite S, L.
    apply falsy_false in Hne. apply String.eqb_neq in Hnd.
    rewrite Hne, Hnd. reflexivity.
Qed.

End AccountIds.

(** X10: an account id is normalized once and for all: the result of
    [normalize_account_id] is never empty, is trimmed and in lower case, and
    is left as it is by a second normalization. *)
Theorem normalize_account_id_canonical (account_id : option string) :
  let id_ := normalize_account_id account_id in
  id_ <> ""
  /\ Py.strip id_ = id_
  /\ Py.lower id_ = id_
  /\ normalize_account_id (Some id_) = id_.
Proof. exact (normalize_account_id_fixed account_id). Qed.

(* ------------------------------------------------------------------------- *)
(** * Truncation *)
(* ------------------------------------------------------------------------- *)

(** X7: under a limit that is not negative, [truncate_text] returns a text
    within the limit: the text itself when it fits, and otherwise exactly
    [max_length] characters, of which the last ones are the ellipsis. *)
Theorem truncate_text_fits (text : string) (max_length : Z) :
  (0 <= max_length)%Z ->
  (Py.len (truncate_text text max_length) <= max_length)%Z
  /\ ((Py.len text <= max_length)%Z -> truncate_text text max_length = text)
  /\ ((max_length < Py.len text)%Z ->
      Py.len (truncate_text text max_length) = max_length
      /\ ((3 < max_length)%Z ->
          truncate_text text max_length
          = Py.take (Z.to_nat (max_length - 3)) text ++ "...")).
Proof.
  intros Hpos. unfold truncate_text.
  destruct (Py.len text <=? max_length)%Z eqn:Fit.
  { apply Z.leb_le in Fit. repeat split; try lia; reflexivity. }
  apply Z.leb_gt in Fit.
  destruct (max_length <=? 3)%Z eqn:Small.
  - apply Z.leb_le in Small.
    assert (L : Py.len (Py.slice_to "..." max_length) = max_length).
    { unfold Py.len, Py.slice_to, Py.bound.
      destruct (max_length <? 0)%Z eqn:N; [apply Z.ltb_lt in N; lia|].
      rewrite take_length. simpl String.length. lia. }
    repeat split; try lia.
  - apply Z.leb_gt in Small.
    assert (E : Py.slice_to text (max_length - 3)
                = Py.take (Z.to_nat (max_length - 3)) text).
    { unfold Py.slice_to, Py.bound.
      destruct (max_length - 3 <? 0)%Z eqn:N; [apply Z.ltb_lt in N; lia|].
      reflexivity. }
    assert (L : Py.len (Py.slice_to text (max_length - 3) ++ "...") = max_length).
    { rewrite E. unfold Py.len in *. rewrite append_length, take_length.
      simpl String.length. lia. }
    repeat split; try lia. intros _. now rewrite E.
Qed.

Lemma truncate_text_fits_witness :
  truncate_text "Hello World" 8 = "Hello...".
Proof.
  destruct (truncate_text_fits "Hello World" 8 ltac:(lia)) as (_ & _ & H).
  destruct (H ltac:(vm_compute; reflexivity)) as [_ E].
  rewrite (E ltac:(lia)). reflexivity.
Defined.


(* ------------------------------------------------------------------------- *)
(** * E.164 numbers and their display *)
(* ------------------------------------------------------------------------- *)

Section Numbers.

Lemma all_chars_app (p : ascii -> bool) (a b : string) :
  all_chars p (a ++ b) = all_chars p a && all_chars p b.
Proof.
  induction a as [|c a IH]; simpl; [reflexivity|].
  now rewrite IH, andb_assoc.
Qed.

Lemma all_chars_take (p : ascii -> bool) (n : nat) (s : string) :
  all_chars p s = true -> all_chars p (Py.take n s) = true.
Proof.
  revert s; induction n as [|n IH]; intros [|c s]; simpl; try reflexivity.
  rewrite !andb_true_iff. intros [P A]. auto.
Qed.

Lemma all_chars_drop (p : ascii -> bool) (n : nat) (s : string) :
  all_chars p s = true -> all_chars p (Py.drop n s) = true.
Proof.
  revert s; induction n as [|n IH]; intros [|c s]; simpl; try tauto.
  rewrite andb_true_iff. intros [P A]. auto.
Qed.

Lemma take_drop (n : nat) (s : string) : Py.take n s ++ Py.drop n s = s.
Proof.
  revert s; induction n as [|n IH]; intros [|c s]; simpl; try reflexivity.
  now rewrite IH.
Qed.

Lemma remove_chars_app (p : ascii -> bool) (a b : string) :
  Py.remove_chars p (a ++ b) = Py.remove_chars p a ++ Py.remove_chars p b.
Proof.
  induction a as [|c a IH]; simpl; [reflexivity|].
  destruct (p c); simpl; now rewrite IH.
Qed.

Lemma remove_chars_kept (p : ascii -> bool) (s : string) :
  all_chars (fun c => negb (p c)) s = true -> Py.remove_chars p s = s.
Proof.
  induction s as [|c s IH]; simpl; [reflexivity|].
  rewrite andb_true_iff, negb_true_iff. intros [-> A]. now rewrite IH.
Qed.

Lemma remove_chars_clean (p : ascii -> bool) (s : string) :
  all_chars (fun c => negb (p c)) (Py.remove_chars p s) = true.
Proof.
  induction s as [|c s IH]; simpl; [reflexivity|].
  destruct (p c) eqn:P; simpl; [exact IH | now rewrite P, IH].
Qed.

(** The result of [normalize_e164] is made of digits and plus signs. *)
Lemma normalize_e164_clean (input_ : string) :
  all_chars (fun c => negb (e164_junk c)) (normalize_e164 input_) = true.
Proof.
  rewrite normalize_e164_unfold. cbv zeta.
  pose proof (remove_chars_clean e164_junk input_) as C.
  set (kept := Py.remove_chars e164_junk input_) in *.
  destruct (Py.falsy kept); [reflexivity|].
  destruct (Py.startswith kept "+"); [exact C|].
  destruct (Py.startswith kept "00").
  - rewrite (all_chars_app _ "+"), andb_true_iff.
    split; [reflexivity | now apply all_chars_drop].
  - destruct (10 <=? Py.len kept)%Z; [|exact C].
    rewrite (all_chars_app _ "+"), andb_true_iff.
    split; [reflexivity | exact C].
Qed.

(** A result that does not start with a plus sign is a short rest. *)
Lemma normalize_e164_no_plus (input_ : string) :
  Py.startswith (normalize_e164 input_) "+" = false ->
  Py.startswith (normalize_e164 input_) "00" = false
  /\ (Py.len (normalize_e164 input_) < 10)%Z.
Proof.
  rewrite normalize_e164_unfold. cbv zeta.
  set (kept := Py.remove_chars e164_junk input_).
  destruct (Py.falsy kept) eqn:F;
    [intros _; split; [reflexivity | cbv; reflexivity]|].
  destruct (Py.startswith kept "+") eqn:P; [congruence|].
  assert (Plus : forall x, Py.startswith ("+" ++ x) "+" = true)
    by (intros [|c x]; reflexivity).
  destruct (Py.startswith kept "00") eqn:Z0; [now rewrite Plus|].
  destruct (10 <=? Py.len kept)%Z eqn:L; [now rewrite Plus|].
  intros _. split; [exact Z0 | now apply Z.leb_gt].
Qed.

Lemma startswith_nil (s : string) : Py.startswith s "" = true.
Proof. destruct s; reflexivity. Qed.

Lemma startswith_cons (c x : ascii) (p s : string) :
  Py.startswith (String x s) (String c p) = Ascii.eqb c x && Py.startswith s p.
Proof.
  unfold Py.startswith. simpl.
  destruct (ascii_dec c x) as [->|N].
  - now rewrite Ascii.eqb_refl.
  - apply Ascii.eqb_neq in N. now rewrite N.
Qed.

Lemma lstrip_char_all (p : ascii -> bool) (c : ascii) (s : string) :
  all_chars p s = true -> all_chars p (lstrip_char c s) = true.
Proof.
  induction s as [|x s IH]; simpl; [reflexivity|].
  destruct (Ascii.eqb x c); [|trivial].
  rewrite andb_true_iff. intros [_ A]. auto.
Qed.

End Numbers.

Lemma normalize_e164_twice (input_ : string) :
  normalize_e164 (normalize_e164 input_) = normalize_e164 input_.
Proof.
  pose proof (normalize_e164_clean input_) as C.
  rewrite (normalize_e164_unfold (normalize_e164 input_)). cbv zeta.
  rewrite (remove_chars_kept _ _ C).
  destruct (Py.falsy (normalize_e164 input_)) eqn:F;
    [now apply falsy_true in F|].
  destruct (Py.startswith (normalize_e164 input_) "+") eqn:P; [reflexivity|].
  destruct (normalize_e164_no_plus input_ P) as [Z0 L].
  rewrite Z0. apply Z.leb_gt in L. now rewrite L.
Qed.

(** X1: [normalize_e164] is idempotent, and its result holds digits and plus
    signs only. *)
Theorem normalize_e164_idempotent (input_ : string) :
  normalize_e164 (normalize_e164 input_) = normalize_e164 input_
  /\ all_chars (fun c => Py.isdigit c || Ascii.eqb c "+") (normalize_e164 input_)
     = true.
Proof.
  pose proof (normalize_e164_clean input_) as C.
  split.
  - apply normalize_e164_twice.
  - revert C. generalize (normalize_e164 input_).
    induction s as [|c s IH]; simpl; [reflexivity|].
    unfold e164_junk at 1. rewrite negb_involutive, !andb_true_iff.
    intros [D A]. auto.
Qed.

(** X2: a displayed number normalizes back to the number: the display only
    puts blanks in.  This holds unless the normalized number starts with
    two plus signs, of which the display keeps one. *)
Theorem format_whatsapp_phone_number_normalizes (phone_number : string) :
  Py.startswith (normalize_e164 phone_number) "++" = false ->
  normalize_e164 (format_whatsapp_phone_number phone_number)
  = normalize_e164 phone_number.
Proof.
  intros Hpp. unfold format_whatsapp_phone_number. cbv zeta.
  destruct (Py.falsy (normalize_e164 phone_number)) eqn:F; [reflexivity|].
  destruct (Py.len (lstrip_char "+" (normalize_e164 phone_number)) <=? 10)%Z
    eqn:Short; [apply normalize_e164_twice|].
  apply Z.leb_gt in Short.
  pose proof (normalize_e164_clean phone_number) as C.
  set (n := normalize_e164 phone_number) in *.
  assert (Hn : exists d, n = String "+" d /\ lstrip_char "+" n = d).
  { destruct (Py.startswith n "+") eqn:P.
    - destruct n as [|c d]; [discriminate|].
      rewrite startswith_cons, startswith_nil, andb_true_r in P.
      apply Ascii.eqb_eq in P. subst c.
      exists d. split; [reflexivity|].
      cbn [lstrip_char]. rewrite Ascii.eqb_refl.
      destruct d as [|c' d']; [reflexivity|].
      rewrite !startswith_cons, startswith_nil, andb_true_r in Hpp.
      rewrite Ascii.eqb_refl in Hpp. cbn [andb] in Hpp.
      cbn [lstrip_char]. rewrite Ascii.eqb_sym in Hpp. now rewrite Hpp.
    - exfalso. destruct (normalize_e164_no_plus phone_number P) as [_ L].
      fold n in L.
      assert (E : lstrip_char "+" n = n).
      { destruct n as [|c d]; [reflexivity|].
        rewrite startswith_cons, startswith_nil, andb_true_r in P.
        cbn [lstrip_char]. rewrite Ascii.eqb_sym in P. now rewrite P. }
      rewrite E in Short. lia. }
  destruct Hn as (d & En & Ed). rewrite Ed in *.
  assert (Cd : all_chars (fun c => negb (e164_junk c)) d = true).
  { rewrite En in C. cbn [all_chars] in C. now apply andb_true_iff in C. }
  set (cc := Py.slice_to d (Py.len d - 10)).
  set (rest := Py.slice_from d (-10)).
  assert (Hd : cc ++ rest = d).
  { unfold cc, rest, Py.slice_to, Py.slice_from, Py.bound.
    replace (Py.len d - 10 <? 0)%Z with false by (symmetry; apply Z.ltb_ge; lia).
    change (-10 <? 0)%Z with true. cbv iota.
    replace (Z.max 0 (Py.len d + -10)) with (Py.len d - 10)%Z by lia.
    apply take_drop. }
  assert (Hr : Py.slice_to rest 3 ++ slice_between rest 3 6 ++ Py.slice_from rest 6
               = rest).
  { unfold slice_between, Py.slice_to, Py.slice_from, Py.bound.
    change (3 <? 0)%Z with false. change (6 <? 0)%Z with false. cbv iota.
    change (Z.to_nat 6 - Z.to_nat 3) with 3. change (Z.to_nat 3) with 3.
    change (Z.to_nat 6) with 6.
    rewrite <- (take_drop 3 rest) at 4.
    rewrite <- (take_drop 3 (Py.drop 3 rest)) at 2.
    f_equal. f_equal.
    clear. generalize rest. intros s.
    destruct s as [|a [|b [|c s]]]; reflexivity. }
  assert (Cc : all_chars (fun c => negb (e164_junk c)) cc = true)
    by (apply all_chars_take, Cd).
  assert (Cr : all_chars (fun c => negb (e164_junk c)) rest = true)
    by (apply all_chars_drop, Cd).
  rewrite normalize_e164_unfold. cbv zeta.
  assert (K : Py.remove_chars e164_junk
                ("+" ++ cc ++ " " ++ Py.slice_to rest 3 ++ " "
                 ++ slice_between rest 3 6 ++ " " ++ Py.slice_from rest 6)
              = String "+" d).
  { assert (C3 : all_chars (fun c => negb (e164_junk c))
                   (Py.slice_to rest 3 ++ slice_between rest 3 6
                    ++ Py.slice_from rest 6) = true) by now rewrite Hr.
    rewrite !all_chars_app, !andb_true_iff in C3. destruct C3 as (A1 & A2 & A3).
    rewrite !remove_chars_app.
    rewrite (remove_chars_kept _ _ Cc), (remove_chars_kept _ _ A1),
      (remove_chars_kept _ _ A2), (remove_chars_kept _ _ A3).
    change (Py.remove_chars e164_junk "+") with "+".
    change (Py.remove_chars e164_junk " ") with "".
    cbn [append]. now rewrite Hr, Hd. }
  rewrite K. cbn [Py.falsy].
  rewrite startswith_cons, startswith_nil, Ascii.eqb_refl. cbn [andb].
  now rewrite En.
Qed.

Lemma format_whatsapp_phone_number_normalizes_witness :
  format_whatsapp_phone_number "+44 (123) 456-7890" = "+44 123 456 7890"
  /\ normalize_e164 "+44 123 456 7890" = normalize_e164 "+44 (123) 456-7890".
Proof.
  split; [reflexivity|].
  apply (format_whatsapp_phone_number_normalizes "+44 (123) 456-7890").
  reflexivity.
Defined.


(* ------------------------------------------------------------------------- *)
(** * Kinds of targets *)
(* ------------------------------------------------------------------------- *)

Section Targets.

Lemma lower_app (a b : string) : Py.lower (a ++ b) = Py.lower a ++ Py.lower b.
Proof. induction a as [|c a IH]; simpl; [reflexivity | now rewrite IH]. Qed.

Lemma lower_length (s : string) : String.length (Py.lower s) = String.length s.
Proof. induction s; simpl; congruence. Qed.

Lemma last_char_app (a b : string) :
  b <> "" -> last_char (a ++ b) = last_char b.
Proof.
  intros Hb. induction a as [|c a IH]; [reflexivity|].
  simpl append. cbn [last_char]. rewrite IH.
  destruct (a ++ b) eqn:E; [|reflexivity].
  destruct a; [simpl in E; contradiction | discriminate].
Qed.

Lemma last_char_lower (s : string) :
  last_char (Py.lower s) = option_map Py.lower_char (last_char s).
Proof.
  induction s as [|c s IH]; [reflexivity|].
  simpl Py.lower. cbn [last_char]. rewrite IH.
  destruct s; reflexivity.
Qed.

Lemma endswith_last_char (s p : string) :
  p <> "" -> Py.endswith s p = true -> last_char s = last_char p.
Proof.
  intros Hp H. unfold Py.endswith in H.
  apply andb_true_iff in H as [_ H]. apply String.eqb_eq in H.
  rewrite <- (take_drop (String.length s - String.length p) s), H.
  now apply last_char_app.
Qed.

(** The digits that a pattern starts with are the head of what it
    accepts. *)
Lemma accepts_digits_then (r : regex) (s : string) :
  accepts (Rcat (Rplus (Rclass Py.isdigit)) r) s = true ->
  exists c s', s = String c s' /\ Py.isdigit c = true.
Proof.
  intros H. apply accepts_cat in H as (s1 & s2 & -> & H1 & _).
  apply accepts_plus_class in H1 as [N A].
  destruct s1 as [|c s1]; [contradiction|].
  simpl in A. apply andb_true_iff in A as [D _].
  exists c, (s1 ++ s2). auto.
Qed.

(** What a pattern that ends with a case-insensitive literal accepts ends,
    in lower case, like the literal. *)
Lemma accepts_then_lit (r : regex) (lit s : string) :
  lit <> "" ->
  accepts (Rcat r (Rlit_i lit)) s = true ->
  last_char (Py.lower s) = last_char (Py.lower lit).
Proof.
  intros Hl H. apply accepts_cat in H as (s1 & s2 & -> & _ & H2).
  apply accepts_lit_i in H2. rewrite lower_app, H2.
  apply last_char_app. destruct lit; [contradiction | discriminate].
Qed.

Lemma re_match_last_char (r : regex) (s : string) (x : ascii) :
  last_char (Py.lower s) = Some x -> x <> "010"%char ->
  re_match r s = accepts r s.
Proof.
  intros L N. unfold re_match.
  destruct (Py.endswith s (String "010" "")) eqn:E; [|apply orb_false_r].
  apply endswith_last_char in E; [|discriminate].
  rewrite last_char_lower, E in L. vm_compute in L. congruence.
Qed.

Lemma user_target_last_char (s : string) :
  re_match _WHATSAPP_USER_JID_RE s || re_match _WHATSAPP_LID_RE s = true ->
  last_char (Py.lower s) <> Some "s"%char.
Proof.
  intros H L.
  rewrite !(re_match_last_char _ s "s" L) in H by discriminate.
  apply orb_true_iff in H as [H | H].
  - unfold _WHATSAPP_USER_JID_RE in H.
    apply accepts_cat in H as (s1 & s2 & -> & _ & H).
    apply accepts_then_lit in H; [|discriminate].
    rewrite lower_app, last_char_app in L.
    + rewrite H in L. discriminate.
    + intros E. rewrite E in H. discriminate.
  - apply accepts_then_lit in H; [|discriminate].
    rewrite H in L. discriminate.
Qed.

Lemma accepts_e164_digits (d : string) :
  accepts _E164_DIGITS_RE d = true
  <-> all_chars Py.isdigit d = true /\ 10 <= String.length d <= 15.
Proof.
  unfold _E164_DIGITS_RE. rewrite accepts_cat. split.
  - intros (s1 & s2 & -> & H1 & H2).
    apply accepts_pow_class in H1 as [L1 A1].
    apply accepts_upto_class in H2 as [L2 A2].
    rewrite all_chars_app, append_length, A1, A2. split; [reflexivity | lia].
  - intros [A L]. exists (Py.take 10 d), (Py.drop 10 d).
    split; [now rewrite take_drop|]. split.
    + apply accepts_pow_class. rewrite take_length.
      split; [lia | now apply all_chars_take].
    + apply accepts_upto_class. rewrite drop_length.
      split; [lia | now apply all_chars_drop].
Qed.

(** The local part of a group JID starts with a digit. *)
Lemma group_local_head (local_part : string) :
  re_match _GROUP_LOCAL_RE local_part = true ->
  exists c s, local_part = String c s /\ Py.isdigit c = true.
Proof.
  unfold re_match. intros H. apply orb_true_iff in H as [H | H].
  - now apply accepts_digits_then in H.
  - apply andb_true_iff in H as [_ H].
    apply accepts_digits_then in H as (c & s' & E & D).
    destruct local_part as [|x l]; [discriminate E|].
    destruct (String.length (String x l) - 1) eqn:K; [discriminate E|].
    simpl in E. injection E as -> _. eauto.
Qed.

(** What [normalize_whatsapp_target] returns for a group JID. *)
Lemma normalize_group_jid (value : string) :
  is_whatsapp_group_jid value = true ->
  exists c s, normalize_whatsapp_target value = Some (String c s)
              /\ Py.isdigit c = true.
Proof.
  intros G. unfold normalize_whatsapp_target. cbv zeta.
  assert (G' : is_whatsapp_group_jid (_strip_whatsapp_target_prefixes value) = true).
  { unfold is_whatsapp_group_jid in *. now rewrite strip_prefixes_idempotent. }
  rewrite G'.
  unfold is_whatsapp_group_jid in G. cbv zeta in G.
  set (candidate := _strip_whatsapp_target_prefixes value) in *.
  destruct (Py.endswith (Py.lower candidate) "@g.us") eqn:E; [|discriminate].
  simpl negb in G. cbv iota in G.
  destruct (Py.falsy _ || Py.has_char "@" _) eqn:F; [discriminate|].
  apply group_local_head in G as (c & s & -> & D).
  destruct (Py.falsy candidate) eqn:Fc.
  { apply falsy_true in Fc. rewrite Fc in E. discriminate. }
  exists c, (s ++ "@g.us"). auto.
Qed.

End Targets.

Lemma group_jid_not_user_target (value : string) :
  is_whatsapp_group_jid value = true -> is_whatsapp_user_target value = false.
Proof.
  intros G. apply not_true_is_false. intros U.
  unfold is_whatsapp_user_target in U. apply user_target_last_char in U.
  apply U. unfold is_whatsapp_group_jid in G. cbv zeta in G.
  destruct (Py.endswith _ "@g.us") eqn:E; [|discriminate].
  apply endswith_last_char in E; [exact E | discriminate].
Qed.

(** X3: no target is both a group JID and a user JID or LID, so the kind of a
    chat is well defined. *)
Theorem jid_kinds_exclusive (value : string) :
  is_whatsapp_group_jid value = true ->
  is_whatsapp_user_target value = false
  /\ get_whatsapp_chat_type value = "group".
Proof.
  intros G. split; [now apply group_jid_not_user_target|].
  unfold get_whatsapp_chat_type. now rewrite G.
Qed.

Lemma jid_kinds_exclusive_witness :
  is_whatsapp_user_target "whatsapp:120363-1234@G.US" = false
  /\ get_whatsapp_chat_type "whatsapp:120363-1234@G.US" = "group".
Proof. apply jid_kinds_exclusive. reflexivity. Defined.

(** X4: [is_valid_whatsapp_number] accepts exactly the values that normalize
    to plus signs followed by ten to fifteen digits; a group JID is never
    one of them. *)
Theorem valid_number_shape (value : string) :
  (is_valid_whatsapp_number value = true
   <-> exists normalized,
         normalize_whatsapp_target value = Some normalized
         /\ Py.startswith normalized "+" = true
         /\ all_chars Py.isdigit (lstrip_char "+" normalized) = true
         /\ 10 <= String.length (lstrip_char "+" normalized) <= 15)
  /\ (is_whatsapp_group_jid value = true ->
      is_valid_whatsapp_number value = false).
Proof.
  unfold is_valid_whatsapp_number. split.
  - destruct (normalize_whatsapp_target value) as [n|]; split.
    + destruct (Py.falsy n); [discriminate|].
      destruct (Py.startswith n "+") eqn:P; [|discriminate]. simpl. intros H.
      apply accepts_e164_digits in H. exists n. tauto.
    + intros (n' & [= <-] & P & A & L). rewrite P.
      destruct (Py.falsy n) eqn:F;
        [apply falsy_true in F; subst; discriminate|].
      simpl. apply accepts_e164_digits. tauto.
    + discriminate.
    + intros (n' & E & _). discriminate.
  - intros G. destruct (normalize_group_jid value G) as (c & s & -> & D).
    cbn [Py.falsy]. rewrite startswith_cons.
    destruct (Ascii.eqb "+" c) eqn:E; [|reflexivity].
    apply Ascii.eqb_eq in E. subst c. discriminate.
Qed.

Lemma valid_number_shape_witness :
  is_valid_whatsapp_number "12345678901@S.whatsapp.net" = true
  /\ is_valid_whatsapp_number "123456789-987654321@g.us" = false.
Proof.
  split.
  - apply (proj1 (valid_number_shape _)). exists "+12345678901".
    repeat split; try reflexivity; simpl; lia.
  - apply (proj2 (valid_number_shape _)). reflexivity.
Defined.

Section UserJid.

Lemma digit_not_space (c : ascii) : Py.isdigit c = true -> Py.isspace c = false.
Proof. destruct c as [[] [] [] [] [] [] [] []]; vm_compute; congruence. Qed.

Lemma digit_not_w (c : ascii) :
  Py.isdigit c = true -> Ascii.eqb "w" (Py.lower_char c) = false.
Proof. destruct c as [[] [] [] [] [] [] [] []]; vm_compute; congruence. Qed.

Lemma digit_not_plus (c : ascii) :
  Py.isdigit c = true -> Ascii.eqb "+" c = false /\ Ascii.eqb c "+" = false.
Proof. destruct c as [[] [] [] [] [] [] [] []]; vm_compute; split; congruence. Qed.

Lemma digit_clean (c : ascii) : Py.isdigit c = true -> e164_junk c = false.
Proof. unfold e164_junk. now intros ->. Qed.

Lemma all_chars_weaken (p q : ascii -> bool) (s : string) :
  (forall c, p c = true -> q c = true) ->
  all_chars p s = true -> all_chars q s = true.
Proof.
  intros H. induction s as [|c s IH]; simpl; [reflexivity|].
  rewrite !andb_true_iff. intros [P A]. auto.
Qed.

Lemma lstrip_no_space (s : string) :
  all_chars (fun c => negb (Py.isspace c)) s = true -> Py.lstrip s = s.
Proof.
  destruct s as [|c s]; simpl; [reflexivity|].
  rewrite andb_true_iff, negb_true_iff. now intros [-> _].
Qed.

Lemma rstrip_no_space (s : string) :
  all_chars (fun c => negb (Py.isspace c)) s = true -> Py.rstrip s = s.
Proof.
  induction s as [|c s IH]; simpl; [reflexivity|].
  rewrite andb_true_iff, negb_true_iff. intros [-> A].
  rewrite (IH A). destruct s; reflexivity.
Qed.

Lemma strip_no_space (s : string) :
  all_chars (fun c => negb (Py.isspace c)) s = true -> Py.strip s = s.
Proof.
  intros A. unfold Py.strip. rewrite (lstrip_no_space s A).
  now apply rstrip_no_space.
Qed.

Lemma leading_digits_app (d s : string) :
  all_chars Py.isdigit d = true ->
  leading_digits (d ++ s) = d ++ leading_digits s.
Proof.
  induction d as [|c d IH]; simpl; [reflexivity|].
  rewrite andb_true_iff. intros [-> A]. now rewrite IH.
Qed.

(** A run of digits followed by the user domain is left alone by prefix
    stripping. *)
Lemma strip_prefixes_user_jid (d : string) :
  d <> "" -> all_chars Py.isdigit d = true ->
  _strip_whatsapp_target_prefixes (d ++ "@s.whatsapp.net")
  = d ++ "@s.whatsapp.net".
Proof.
  intros N A.
  assert (S : Py.strip (d ++ "@s.whatsapp.net") = d ++ "@s.whatsapp.net").
  { apply strip_no_space. rewrite all_chars_app, andb_true_iff.
    split; [|reflexivity].
    apply (all_chars_weaken Py.isdigit); [|exact A].
    intros c D. now rewrite (digit_not_space c D). }
  assert (P : sub_whatsapp_prefix (d ++ "@s.whatsapp.net")
              = d ++ "@s.whatsapp.net").
  { unfold sub_whatsapp_prefix. destruct d as [|c d]; [contradiction|].
    simpl in A. apply andb_true_iff in A as [D _].
    cbn [append Py.take Py.lower].
    now rewrite startswith_cons, (digit_not_w c D). }
  unfold _strip_whatsapp_target_prefixes. rewrite S. cbv zeta.
  cbn [strip_prefix_loop]. now rewrite P, S, String.eqb_refl.
Qed.

Lemma accepts_user_jid (d : string) :
  d <> "" -> all_chars Py.isdigit d = true ->
  accepts _WHATSAPP_USER_JID_RE (d ++ "@s.whatsapp.net") = true.
Proof.
  intros N A. unfold _WHATSAPP_USER_JID_RE. apply accepts_cat.
  exists d, "@s.whatsapp.net". split; [reflexivity|].
  split; [now apply accepts_plus_class|].
  apply accepts_cat. exists "", "@s.whatsapp.net". split; [reflexivity|].
  split; [reflexivity | now apply accepts_lit_i].
Qed.

End UserJid.

(** X5: the JID built from a number leads back to the number: when a phone
    number normalizes to a plus sign and at least ten digits that do not
    start with [00], the JID built from it is a user target, and it
    normalizes to the same E.164 number. *)
Theorem build_user_jid_round_trip (phone_number d : string) :
  normalize_e164 phone_number = "+" ++ d ->
  all_chars Py.isdigit d = true ->
  10 <= String.length d ->
  Py.startswith d "00" = false ->
  build_whatsapp_user_jid phone_number = d ++ "@s.whatsapp.net"
  /\ is_whatsapp_user_target (build_whatsapp_user_jid phone_number) = true
  /\ normalize_whatsapp_target (build_whatsapp_user_jid phone_number)
     = Some (normalize_e164 phone_number).
Proof.
  intros En A L Z0.
  assert (N : d <> "") by (intros ->; simpl in L; lia).
  assert (B : build_whatsapp_user_jid phone_number = d ++ "@s.whatsapp.net").
  { unfold build_whatsapp_user_jid. rewrite En. cbv zeta.
    cbn [append lstrip_char]. rewrite Ascii.eqb_refl.
    destruct d as [|c d]; [contradiction|].
    simpl in A. apply andb_true_iff in A as [D _].
    cbn [lstrip_char]. now rewrite (proj2 (digit_not_plus c D)). }
  rewrite B.
  pose proof (strip_prefixes_user_jid d N A) as S.
  pose proof (accepts_user_jid d N A) as M.
  assert (U : is_whatsapp_user_target (d ++ "@s.whatsapp.net") = true).
  { unfold is_whatsapp_user_target. rewrite S. cbv zeta.
    unfold re_match at 1. now rewrite M. }
  assert (G : is_whatsapp_group_jid (d ++ "@s.whatsapp.net") = false).
  { apply not_true_is_false. intros G.
    apply group_jid_not_user_target in G. congruence. }
  split; [reflexivity|]. split; [exact U|].
  unfold normalize_whatsapp_target. rewrite S. cbv zeta. rewrite G, U.
  destruct (Py.falsy (d ++ "@s.whatsapp.net")) eqn:F.
  { apply falsy_true in F. destruct d; [contradiction | discriminate]. }
  unfold _extract_user_jid_phone. unfold re_match at 1. rewrite M. simpl orb.
  cbv iota. rewrite (leading_digits_app d _ A).
  change (leading_digits "@s.whatsapp.net") with "". rewrite append_nil_r.
  assert (E : normalize_e164 d = "+" ++ d).
  { rewrite normalize_e164_unfold. cbv zeta.
    rewrite (remove_chars_kept e164_junk d).
    - destruct d as [|c d']; [contradiction|].
      pose proof A as A'. simpl in A'. apply andb_true_iff in A' as [D _].
      cbn [Py.falsy]. rewrite (startswith_cons "+"), (proj1 (digit_not_plus c D)).
      cbn [andb]. rewrite Z0.
      replace (10 <=? Py.len (String c d'))%Z with true; [reflexivity|].
      symmetry. apply Z.leb_le. unfold Py.len. lia.
    - apply (all_chars_weaken Py.isdigit); [|exact A].
      intros c D. now rewrite (digit_clean c D). }
  rewrite E, En.
  replace (1 <? Py.len ("+" ++ d))%Z with true; [reflexivity|].
  symmetry. apply Z.ltb_lt. unfold Py.len. rewrite append_length. simpl. lia.
Qed.

Lemma build_user_jid_round_trip_witness :
  build_whatsapp_user_jid "+41 (79) 666-6864" = "41796666864@s.whatsapp.net"
  /\ normalize_whatsapp_target (build_whatsapp_user_jid "+41 (79) 666-6864")
     = Some "+41796666864".
Proof.
  destruct (build_user_jid_round_trip "+41 (79) 666-6864" "41796666864")
    as (B & _ & R); try reflexivity; [simpl; lia|].
  split; [exact B | exact R].
Defined.


(* ------------------------------------------------------------------------- *)
(** * Listing accounts *)
(* ------------------------------------------------------------------------- *)

Section Listing.

Context {pydantic : Pydantic}.

Lemma ascii_compare_lt (a b : ascii) :
  Ascii.compare a b = Lt <-> (N_of_ascii a < N_of_ascii b)%N.
Proof. unfold Ascii.compare. apply N.compare_lt_iff. Qed.

Lemma ascii_compare_refl (a : ascii) : Ascii.compare a a = Eq.
Proof. unfold Ascii.compare. apply N.compare_refl. Qed.

Lemma string_compare_refl (s : string) : String.compare s s = Eq.
Proof.
  induction s as [|c s IH]; simpl; [reflexivity|].
  now rewrite ascii_compare_refl.
Qed.

Lemma string_compare_lt_trans (a b c : string) :
  String.compare a b = Lt -> String.compare b c = Lt -> String.compare a c = Lt.
Proof.
  revert b c; induction a as [|x a IH]; intros [|y b] [|z c]; simpl;
    try discriminate; try reflexivity.
  destruct (Ascii.compare x y) eqn:XY; try discriminate;
    destruct (Ascii.compare y z) eqn:YZ; try discriminate; intros H1 H2.
  - apply Ascii.compare_eq_iff in XY, YZ. subst.
    rewrite ascii_compare_refl. eauto.
  - apply Ascii.compare_eq_iff in XY. subst. now rewrite YZ.
  - apply Ascii.compare_eq_iff in YZ. subst. now rewrite XY.
  - apply (proj1 (ascii_compare_lt _ _)) in XY.
    apply (proj1 (ascii_compare_lt _ _)) in YZ.
    replace (Ascii.compare x z) with Lt; [reflexivity|].
    symmetry. apply ascii_compare_lt. lia.
Qed.

Lemma ltb_trans (a b c : string) :
  (a <? b)%string = true -> (b <? c)%string = true -> (a <? c)%string = true.
Proof.
  unfold String.ltb.
  destruct (String.compare a b) eqn:AB; try discriminate.
  destruct (String.compare b c) eqn:BC; try discriminate.
  now rewrite (string_compare_lt_trans a b c AB BC).
Qed.

Lemma ltb_irrefl (a : string) : (a <? a)%string = false.
Proof. unfold String.ltb. now rewrite string_compare_refl. Qed.

Lemma leb_false_ltb (a b : string) :
  (a <=? b)%string = false -> (b <? a)%string = true.
Proof.
  unfold String.leb, String.ltb. rewrite (String.compare_antisym b a).
  destruct (String.compare a b); simpl; congruence.
Qed.

Lemma leb_true_ltb (a b : string) :
  (a <=? b)%string = true -> a <> b -> (a <? b)%string = true.
Proof.
  unfold String.leb, String.ltb.
  destruct (String.compare a b) eqn:C; try congruence.
  apply String.compare_eq_iff in C. congruence.
Qed.

Lemma insert_sorted_in (x y : string) (l : list string) :
  In y (insert_sorted x l) <-> y = x \/ In y l.
Proof.
  induction l as [|z l IH]; simpl; [intuition|].
  destruct (x <=? z)%string; simpl; [intuition|].
  rewrite IH. intuition.
Qed.

Lemma insert_sorted_ascending (x : string) (l : list string) :
  ascending l -> ~ In x l -> ascending (insert_sorted x l).
Proof.
  unfold ascending. induction l as [|y l IH]; simpl; intros S N.
  - constructor; constructor.
  - inversion S as [|? ? S' F]; subst.
    destruct (x <=? y)%string eqn:L.
    + assert (XY : (x <? y)%string = true) by (apply leb_true_ltb; [exact L | intros ->; tauto]).
      constructor; [exact S|]. constructor; [exact XY|].
      rewrite Forall_forall in *. intros z Hz. eauto using ltb_trans.
    + apply leb_false_ltb in L. constructor; [apply IH; tauto|].
      rewrite Forall_forall in *. intros z Hz.
      apply insert_sorted_in in Hz as [-> | Hz]; auto.
Qed.

Lemma sorted_in (x : string) (l : list string) : In x (sorted l) <-> In x l.
Proof.
  induction l as [|y l IH]; simpl; [tauto|].
  rewrite insert_sorted_in, IH. intuition.
Qed.

Lemma sorted_ascending (l : list string) : NoDup l -> ascending (sorted l).
Proof.
  induction l as [|y l IH]; simpl; intros N; [constructor|].
  inversion N; subst. apply insert_sorted_ascending; [auto|].
  now rewrite sorted_in.
Qed.

Lemma ascending_nodup (l : list string) : ascending l -> NoDup l.
Proof.
  unfold ascending. induction 1 as [|x l S IH F]; constructor; [|exact IH].
  intros I. rewrite Forall_forall in F. apply F in I.
  now rewrite ltb_irrefl in I.
Qed.

Lemma set_add_in (x y : string) (ids : list string) :
  In y (set_add x ids) <-> y = x \/ In y ids.
Proof.
  unfold set_add. destruct (existsb (String.eqb x) ids) eqn:E.
  - apply existsb_exists in E as (z & I & E). apply String.eqb_eq in E.
    subst z. intuition. now subst.
  - rewrite in_app_iff. simpl. intuition.
Qed.

Lemma set_add_nodup (x : string) (ids : list string) :
  NoDup ids -> NoDup (set_add x ids).
Proof.
  intros N. unfold set_add. destruct (existsb (String.eqb x) ids) eqn:E; [exact N|].
  apply NoDup_app; [exact N | repeat constructor; simpl; tauto|].
  intros a I [Ea | []]. subst a.
  assert (T : existsb (String.eqb x) ids = true).
  { apply existsb_exists. exists x. split; [exact I | apply String.eqb_refl]. }
  congruence.
Qed.

(** The ids that the loop over the accounts collects. *)
Lemma collect_ids (accounts : dict WhatsAppAccountRuntimeConfig)
    (ids : list string) :
  let collected :=
    fold_left
      (fun ids kv =>
         let id_ := fst kv in
         if Py.falsy id_ then ids
         else set_add (normalize_account_id (Some id_)) ids)
      accounts ids in
  (NoDup ids -> NoDup collected)
  /\ forall y, In y collected
               <-> In y ids
                   \/ exists k a, In (k, a) accounts /\ k <> ""
                                  /\ y = normalize_account_id (Some k).
Proof.
  revert ids; induction accounts as [|[k a] accounts IH]; intros ids; simpl.
  - split; [trivial|]. intros y. split; [tauto|].
    intros [I | (k & a & [] & _)]. exact I.
  - destruct (IH (if Py.falsy k then ids
                  else set_add (normalize_account_id (Some k)) ids))
      as [N M].
    split.
    + intros Nd. apply N. destruct (Py.falsy k); [exact Nd|].
      now apply set_add_nodup.
    + intros y. rewrite M. clear N M IH.
      destruct (Py.falsy k) eqn:F.
      * apply falsy_true in F. subst k. split.
        -- intros [I | (k & a' & I & Hk & E)]; [tauto|]. right. eauto 6.
        -- intros [I | (k & a' & [[= <- <-] | I] & Hk & E)];
             [tauto | contradiction | right; eauto 6].
      * apply falsy_false in F. rewrite set_add_in. split.
        -- intros [[-> | I] | (k' & a' & I & Hk & E)];
             [right; exists k, a; auto | tauto | right; eauto 6].
        -- intros [I | (k' & a' & [[= <- <-] | I] & Hk & E)];
             [tauto | auto | right; eauto 6].
Qed.

Lemma mapM_returns {A B : Type} (f : A -> result B) (l : list A) :
  (forall a, In a l -> exists b, f a = Ok b) -> exists r, mapM f l = Ok r.
Proof.
  induction l as [|a l IH]; intros H; simpl; [eauto|].
  destruct (H a (or_introl eq_refl)) as [b ->].
  destruct IH as [r ->]; [intros; apply H; now right|].
  simpl. eauto.
Qed.

Lemma mapM_image {A B C : Type} (f : A -> result B) (g : B -> C) (h : A -> C)
    (l : list A) (r : list B) :
  (forall a b, In a l -> f a = Ok b -> g b = h a) ->
  mapM f l = Ok r -> map g r = map h l.
Proof.
  revert r; induction l as [|a l IH]; intros r H M; simpl in M.
  - now injection M as <-.
  - bind_inv M. bind_inv M. injection M as <-. simpl.
    rewrite (H a a0 (or_introl eq_refl) E). f_equal.
    apply IH; [|reflexivity]. intros; apply H; [now right | assumption].
Qed.

Lemma nodup_map_filter {A B : Type} (g : A -> B) (p : A -> bool) (l : list A) :
  NoDup (map g l) -> NoDup (map g (filter p l)).
Proof.
  induction l as [|a l IH]; simpl; intros N; [constructor|].
  inversion N as [|? ? Hn N']; subst.
  destruct (p a); simpl; [|auto].
  constructor; [|auto]. intros I. apply Hn.
  apply in_map_iff in I as (x & E & I). apply filter_In in I as [I _].
  apply in_map_iff. eauto.
Qed.

Lemma resolved_account_id (runtime : AgentRuntime) (account_id : option string)
    (account : ResolvedWhatsAppAccount) :
  resolve_whatsapp_account runtime account_id = Ok account ->
  res_account_id account = normalize_account_id account_id.
Proof.
  unfold resolve_whatsapp_account. intros H.
  bind_inv H. bind_inv H. bind_inv H. now injection H as <-.
Qed.

End Listing.

Lemma listed_account_ids_facts {pydantic : Pydantic} (runtime : AgentRuntime)
    (multi_config : WhatsAppMultiAccountConfig) :
  get_multi_account_config runtime = Ok multi_config ->
  exists ids,
    list_whatsapp_account_ids runtime = Ok ids
    /\ ids <> []
    /\ ascending ids
    /\ Forall (fun id_ => normalize_account_id (Some id_) = id_) ids
    /\ forall k a, In (k, a) (entries (multi_accounts multi_config)) ->
                   k <> "" -> In (normalize_account_id (Some k)) ids.
Proof.
  intros Hm. unfold list_whatsapp_account_ids. rewrite Hm. cbn [bind].
  cbv zeta.
  match goal with
  | |- context [if ?b then set_add DEFAULT_ACCOUNT_ID [] else []] =>
      set (seed := if b then set_add DEFAULT_ACCOUNT_ID [] else [])
  end.
  match goal with
  | |- context [sorted ?collected] => set (ids := collected)
  end.
  assert (Hseed : NoDup seed /\ forall y, In y seed -> y = DEFAULT_ACCOUNT_ID).
  { subst seed. destruct (_ || _); simpl; split;
      try (repeat constructor; simpl; tauto); intros y; simpl; intuition. }
  destruct Hseed as [Ns Ds].
  assert (Hids : NoDup ids
                 /\ forall y, In y ids
                    <-> In y seed
                        \/ exists k a,
                             In (k, a) (entries (multi_accounts multi_config))
                             /\ k <> "" /\ y = normalize_account_id (Some k)).
  { subst ids. destruct (multi_accounts multi_config) as [[|kv accounts]|];
      simpl nonempty_dict; cbv iota; simpl entries.
    - split; [exact Ns|]. intros y. split; [tauto|].
      intros [I | (k & a & [] & _)]. exact I.
    - destruct (collect_ids (kv :: accounts) seed) as [N M]. split; auto.
    - split; [exact Ns|]. intros y. split; [tauto|].
      intros [I | (k & a & [] & _)]. exact I. }
  destruct Hids as [Ni Mi].
  assert (Hn : forall y, In y ids -> normalize_account_id (Some y) = y).
  { intros y I. apply Mi in I as [I | (k & a & _ & _ & ->)].
    - now rewrite (Ds y I).
    - apply normalize_account_id_fixed. }
  pose proof (sorted_ascending ids Ni) as As.
  destruct (sorted ids) as [|x l] eqn:E.
  - exists [DEFAULT_ACCOUNT_ID]. split; [reflexivity|].
    split; [discriminate|]. split; [repeat constructor|].
    split; [repeat constructor|].
    intros k a I Hk. exfalso.
    assert (J : In (normalize_account_id (Some k)) (sorted ids)).
    { apply sorted_in, Mi. right. eauto. }
    now rewrite E in J.
  - exists (x :: l). split; [reflexivity|]. split; [discriminate|].
    split; [exact As|]. rewrite <- E. split.
    + apply Forall_forall. intros y I. apply Hn. now apply sorted_in.
    + intros k a I Hk. apply sorted_in, Mi. right. eauto.
Qed.

(** X11: the listed account ids: the list is never empty, ascends strictly in
    the order of the strings (so no id is listed twice), holds normalized
    ids only, and holds the normalized id of every account key that is not
    empty.  A list is returned whenever the configuration validates. *)
Theorem listed_account_ids {pydantic : Pydantic} (runtime : AgentRuntime)
    (multi_config : WhatsAppMultiAccountConfig) :
  get_multi_account_config runtime = Ok multi_config ->
  exists ids,
    list_whatsapp_account_ids runtime = Ok ids
    /\ ids <> []
    /\ ascending ids
    /\ Forall (fun id_ => normalize_account_id (Some id_) = id_) ids
    /\ forall k a, In (k, a) (entries (multi_accounts multi_config)) ->
                   k <> "" -> In (normalize_account_id (Some k)) ids.
Proof. apply listed_account_ids_facts. Qed.

Lemma listed_account_ids_witness :
  list_whatsapp_account_ids (pydantic := strict_mode)
    (_rt (Some [("accounts",
                 PDict [("Zebra", PDict []); ("", PDict []); ("alpha", PDict []);
                        (" ZEBRA ", PDict [])])]) [])
  = Ok ["alpha"; "zebra"].
Proof.
  destruct (listed_account_ids (pydantic := strict_mode)
              (_rt (Some [("accounts",
                           PDict [("Zebra", PDict []); ("", PDict []);
                                  ("alpha", PDict []); (" ZEBRA ", PDict [])])]) [])
              _ eq_refl) as (ids & E & _).
  rewrite E. vm_compute in E. now injection E as <-.
Defined.

Lemma listed_account_ids_returns {pydantic : Pydantic} (runtime : AgentRuntime)
    (multi_config : WhatsAppMultiAccountConfig) :
  get_multi_account_config runtime = Ok multi_config ->
  exists ids,
    list_whatsapp_account_ids runtime = Ok ids /\ ids <> [] /\ ascending ids.
Proof.
  intros Hm.
  destruct (listed_account_ids_facts runtime multi_config Hm)
    as (ids & E & N & A & _).
  eauto.
Qed.

(** X12: the default account id is one of the listed ids: ["default"] when it is
    listed, and otherwise the least of the listed ids. *)
Theorem default_account_id_is_listed {pydantic : Pydantic}
    (runtime : AgentRuntime)
    (multi_config : WhatsAppMultiAccountConfig) :
  get_multi_account_config runtime = Ok multi_config ->
  exists ids id0,
    list_whatsapp_account_ids runtime = Ok ids
    /\ resolve_default_whatsapp_account_id runtime = Ok id0
    /\ In id0 ids
    /\ (In DEFAULT_ACCOUNT_ID ids -> id0 = DEFAULT_ACCOUNT_ID)
    /\ (~ In DEFAULT_ACCOUNT_ID ids ->
        forall id_, In id_ ids -> id_ = id0 \/ (id0 <? id_)%string = true).
Proof.
  intros Hm.
  destruct (listed_account_ids_returns runtime multi_config Hm)
    as (ids & E & Hne & As).
  exists ids. unfold resolve_default_whatsapp_account_id. rewrite E.
  cbn [bind].
  destruct (existsb (String.eqb DEFAULT_ACCOUNT_ID) ids) eqn:D.
  - exists DEFAULT_ACCOUNT_ID.
    apply existsb_exists in D as (x & I & Ex). apply String.eqb_eq in Ex.
    subst x. repeat split; auto; try (intros N; contradiction).
  - destruct ids as [|id0 ids]; [contradiction|].
    exists id0. repeat split; [now left | |].
    + intros I. exfalso.
      assert (T : existsb (String.eqb DEFAULT_ACCOUNT_ID) (id0 :: ids) = true).
      { apply existsb_exists. exists DEFAULT_ACCOUNT_ID.
        split; [exact I | apply String.eqb_refl]. }
      congruence.
    + intros _ id_ [<- | I]; [now left | right].
      inversion As as [|? ? _ F]; subst.
      rewrite Forall_forall in F. auto.
Qed.

Lemma default_account_id_is_listed_witness :
  resolve_default_whatsapp_account_id (pydantic := strict_mode)
    (_rt (Some [("accounts", PDict [("beta", PDict []); ("Alpha", PDict [])])]) [])
  = Ok "alpha".
Proof.
  destruct (default_account_id_is_listed (pydantic := strict_mode)
              (_rt (Some [("accounts",
                           PDict [("beta", PDict []); ("Alpha", PDict [])])]) [])
              _ eq_refl) as (ids & id0 & _ & E & _).
  rewrite E. vm_compute in E. now injection E as <-.
Defined.

Lemma enabled_accounts_facts {pydantic : Pydantic} (runtime : AgentRuntime)
    (accounts : list ResolvedWhatsAppAccount) :
  list_enabled_whatsapp_accounts runtime = Ok accounts ->
  exists ids,
    list_whatsapp_account_ids runtime = Ok ids
    /\ Forall (fun a => res_enabled a = true /\ res_configured a = true
                        /\ In (res_account_id a) ids) accounts
    /\ NoDup (map res_account_id accounts).
Proof.
  unfold list_enabled_whatsapp_accounts. intros H.
  bind_inv H. rename a into ids. bind_inv H. rename a into accts.
  injection H as <-. exists ids. split; [reflexivity|].
  assert (F : ascending ids
              /\ Forall (fun id_ => normalize_account_id (Some id_) = id_) ids).
  { pose proof E as E'. unfold list_whatsapp_account_ids in E'. bind_inv E'.
    destruct (listed_account_ids_facts runtime _ E1) as (ids' & Ei & _ & A & N & _).
    rewrite E in Ei. injection Ei as <-. auto. }
  destruct F as [As Hn].
  assert (I : map res_account_id accts = map (fun x => x) ids).
  { refine (mapM_image _ _ _ _ _ _ E0). intros aid b Ia Hb. cbv beta in *.
    rewrite (resolved_account_id _ _ _ Hb).
    rewrite Forall_forall in Hn. now apply Hn. }
  split.
  - apply Forall_forall. intros a Ia. apply filter_In in Ia as [Ia P].
    apply andb_true_iff in P as [P1 P2]. repeat split; auto.
    rewrite <- (map_id ids), <- I. now apply in_map.
  - apply nodup_map_filter. rewrite I, map_id. now apply ascending_nodup.
Qed.

Lemma enabled_accounts_returns {pydantic : Pydantic} (runtime : AgentRuntime)
    (multi_config : WhatsAppMultiAccountConfig) :
  get_multi_account_config runtime = Ok multi_config ->
  env_policies_recognized runtime ->
  exists accounts, list_enabled_whatsapp_accounts runtime = Ok accounts.
Proof.
  intros Hm Henv.
  destruct (listed_account_ids_facts runtime multi_config Hm) as (ids & E & _).
  unfold list_enabled_whatsapp_accounts. rewrite E. cbn [bind].
  destruct (mapM_returns
              (fun aid => resolve_whatsapp_account runtime (Some aid)) ids)
    as [accts M].
  { intros aid _. now apply account_returns with multi_config. }
  rewrite M. cbn [bind]. eauto.
Qed.

(** X13: the enabled accounts: every account of the list is enabled and
    configured, its id is a listed id, and no two accounts of the list
    have the same id.  The list is returned whenever the configuration
    validates and the policy settings are recognized. *)
Theorem enabled_accounts_sound {pydantic : Pydantic} (runtime : AgentRuntime) :
  (forall accounts,
     list_enabled_whatsapp_accounts runtime = Ok accounts ->
     exists ids,
       list_whatsapp_account_ids runtime = Ok ids
       /\ Forall (fun a => res_enabled a = true /\ res_configured a = true
                           /\ In (res_account_id a) ids) accounts
       /\ NoDup (map res_account_id accounts))
  /\ (forall multi_config,
        get_multi_account_config runtime = Ok multi_config ->
        env_policies_recognized runtime ->
        exists accounts, list_enabled_whatsapp_accounts runtime = Ok accounts).
Proof.
  split; [apply enabled_accounts_facts | apply enabled_accounts_returns].
Qed.

Lemma enabled_accounts_sound_witness :
  exists accounts,
    list_enabled_whatsapp_accounts (pydantic := strict_mode)
      (_rt (Some base_and_business) [])
    = Ok accounts
    /\ map res_account_id accounts = ["business"].
Proof.
  destruct (proj2 (enabled_accounts_sound (pydantic := strict_mode)
                     (_rt (Some base_and_business) []))
              _ eq_refl) as [accounts H].
  { split; intros s Hs; discriminate Hs. }
  exists accounts. split; [exact H|].
  vm_compute in H. now injection H as <-.
Defined.

(** X14: more than one account is enabled exactly when the list of the enabled
    accounts holds two accounts with different ids. *)
Theorem multi_account_iff_two_accounts {pydantic : Pydantic}
    (runtime : AgentRuntime)
    (accounts : list ResolvedWhatsAppAccount) :
  list_enabled_whatsapp_accounts runtime = Ok accounts ->
  (is_multi_account_enabled runtime = Ok true
   <-> exists a b, In a accounts /\ In b accounts
                   /\ res_account_id a <> res_account_id b).
Proof.
  intros H. destruct (enabled_accounts_facts runtime accounts H) as (_ & _ & _ & N).
  unfold is_multi_account_enabled. rewrite H. cbn [bind]. split.
  - intros [= L]. apply Nat.ltb_lt in L.
    destruct accounts as [|a [|b rest]]; simpl in L; try lia.
    exists a, b. split; [now left|]. split; [right; now left|].
    simpl in N. inversion N as [|? ? Hn _]; subst.
    intros Eab. apply Hn. left. now symmetry.
  - intros (a & b & Ia & Ib & Hab). f_equal. apply Nat.ltb_lt.
    destruct accounts as [|x [|y rest]]; simpl; try lia.
    + destruct Ia.
    + destruct Ia as [<- | []]. destruct Ib as [<- | []]. contradiction.
Qed.

Lemma multi_account_iff_two_accounts_witness :
  is_multi_account_enabled (pydantic := strict_mode)
    (_rt (Some [("accessToken", PStr "t"); ("phoneNumberId", PStr "p");
                ("accounts",
                 PDict [("business",
                         PDict [("accessToken", PStr "bt");
                                ("phoneNumberId", PStr "bp")])])]) [])
  = Ok true.
Proof.
  match goal with
  | |- is_multi_account_enabled (pydantic := strict_mode) ?rt = _ =>
      destruct (list_enabled_whatsapp_accounts (pydantic := strict_mode) rt)
        as [accounts|e] eqn:H;
        [|vm_compute in H; discriminate H];
      apply (proj2 (multi_account_iff_two_accounts (pydantic := strict_mode)
                      rt accounts H))
  end.
  vm_compute in H. injection H as <-.
  eexists. eexists. split; [left; reflexivity|].
  split; [right; left; reflexivity|]. vm_compute. discriminate.
Defined.


(* ------------------------------------------------------------------------- *)
(** * What chunking keeps *)
(* ------------------------------------------------------------------------- *)

Section ChunkContent.

Lemma squeeze_app (a b : string) : squeeze (a ++ b) = squeeze a ++ squeeze b.
Proof. apply remove_chars_app. Qed.

Lemma squeeze_lstrip (s : string) : squeeze (Py.lstrip s) = squeeze s.
Proof.
  induction s as [|c s IH]; [reflexivity|]. simpl Py.lstrip.
  destruct (Py.isspace c) eqn:E; [|reflexivity].
  rewrite IH. unfold squeeze. simpl. now rewrite E.
Qed.

Lemma squeeze_rstrip (s : string) : squeeze (Py.rstrip s) = squeeze s.
Proof.
  unfold squeeze. induction s as [|c s IH]; [reflexivity|]. simpl.
  destruct (Py.rstrip s) eqn:R.
  - rewrite <- IH. destruct (Py.isspace c) eqn:E; simpl; now rewrite ?E.
  - rewrite <- IH. reflexivity.
Qed.

Lemma squeeze_strip (s : string) : squeeze (Py.strip s) = squeeze s.
Proof. unfold Py.strip. now rewrite squeeze_rstrip, squeeze_lstrip. Qed.

Lemma squeeze_blank (s : string) :
  all_chars Py.isspace s = true -> squeeze s = "".
Proof.
  unfold squeeze. induction s as [|c s IH]; simpl; [reflexivity|].
  rewrite andb_true_iff. intros [-> A]. auto.
Qed.

Lemma drop_drop (i k : nat) (s : string) :
  Py.drop k (Py.drop i s) = Py.drop (i + k) s.
Proof.
  revert s; induction i as [|i IH]; intros s; [reflexivity|].
  destruct s as [|c s]; [destruct k; reflexivity|]. simpl. apply IH.
Qed.

Lemma drop_take (n m : nat) (s : string) :
  Py.drop n (Py.take m s) = Py.take (m - n) (Py.drop n s).
Proof.
  assert (take_nil : forall k, Py.take k "" = "") by (intros [|k]; reflexivity).
  revert m s; induction n as [|n IH]; intros m s.
  - now rewrite Nat.sub_0_r.
  - destruct m as [|m]; destruct s as [|c s]; simpl;
      rewrite ?take_nil; try reflexivity.
    apply IH.
Qed.

Lemma prefix_take (sub s : string) (m : nat) :
  String.prefix sub (Py.take m s) = true -> String.prefix sub s = true.
Proof.
  revert s m; induction sub as [|a sub IH]; intros s m; [now destruct s|].
  destruct s as [|c s]; destruct m as [|m]; simpl; try discriminate.
  destruct (ascii_dec a c); [|discriminate]. apply IH.
Qed.

Lemma prefix_take_length (sub s : string) :
  String.prefix sub s = true -> Py.take (String.length sub) s = sub.
Proof.
  revert s; induction sub as [|a sub IH]; intros s; [now destruct s|].
  destruct s as [|c s]; simpl; [discriminate|].
  destruct (ascii_dec a c) as [->|]; [|discriminate].
  intros H. now rewrite IH.
Qed.

(** Where [rfind] finds its needle, the needle is. *)
Lemma rfind_at_found (sub s : string) (i : Z) :
  (0 <= i)%Z -> (0 <= Py.rfind_at i s sub)%Z ->
  exists n, Py.rfind_at i s sub = (i + Z.of_nat n)%Z
            /\ String.prefix sub (Py.drop n s) = true.
Proof.
  revert i; induction s as [|c s IH]; intros i Hi.
  - simpl. destruct sub; simpl; [|lia]. intros _. exists 0. split; [lia | reflexivity].
  - change (Py.rfind_at i (String c s) sub) with
      (let r := Py.rfind_at (i + 1) s sub in
       if (0 <=? r)%Z then r
       else if String.prefix sub (String c s) then i else (-1)%Z).
    cbv zeta. destruct (0 <=? Py.rfind_at (i + 1) s sub)%Z eqn:R.
    + apply Z.leb_le in R. intros _.
      destruct (IH (i + 1)%Z ltac:(lia) R) as (n & E & P).
      exists (S n). split; [lia | exact P].
    + destruct (String.prefix sub (String c s)) eqn:P; [|lia].
      intros _. exists 0. split; [lia | exact P].
Qed.

Variable limit : Z.
Hypothesis limit_positive : (0 < limit)%Z.

(** A needle found in the search area stands in the text at the same
    place. *)
Lemma found_in_text (text sub : string) :
  (0 <= Py.rfind (Py.slice_to text limit) sub)%Z ->
  Py.take (String.length sub)
    (Py.drop (Z.to_nat (Py.rfind (Py.slice_to text limit) sub)) text) = sub.
Proof.
  intros H. unfold Py.rfind in *.
  destruct (rfind_at_found sub _ 0%Z ltac:(lia) H) as (n & E & P).
  rewrite E. replace (Z.to_nat (0 + Z.of_nat n)) with n by lia.
  unfold Py.slice_to in P. rewrite drop_take in P.
  apply prefix_take in P. now apply prefix_take_length.
Qed.

(** Cutting a run of white space out of a text loses white space only. *)
Lemma squeeze_gap (text : string) (i k : nat) :
  all_chars Py.isspace (Py.take k (Py.drop i text)) = true ->
  squeeze (Py.take i text) ++ squeeze (Py.drop (i + k) text) = squeeze text.
Proof.
  intros B.
  transitivity (squeeze (Py.take i text ++ Py.take k (Py.drop i text)
                         ++ Py.drop (i + k) text)).
  - now rewrite !squeeze_app, (squeeze_blank _ B).
  - f_equal. now rewrite <- drop_drop, !take_drop.
Qed.

Lemma break_keeps (text : string) (i j : Z) :
  (0 <= i <= j)%Z ->
  all_chars Py.isspace
    (Py.take (Z.to_nat j - Z.to_nat i) (Py.drop (Z.to_nat i) text)) = true ->
  squeeze (Py.rstrip (Py.slice_to text i))
  ++ squeeze (Py.lstrip (Py.slice_from text j))
  = squeeze text.
Proof.
  intros H B. rewrite squeeze_rstrip, squeeze_lstrip.
  unfold Py.slice_to, Py.slice_from, Py.bound.
  replace (i <? 0)%Z with false by (symmetry; apply Z.ltb_ge; lia).
  replace (j <? 0)%Z with false by (symmetry; apply Z.ltb_ge; lia).
  replace (Z.to_nat j) with (Z.to_nat i + (Z.to_nat j - Z.to_nat i)) by lia.
  now apply squeeze_gap.
Qed.

(** The gap after a needle of white space, and after the mark of a
    sentence end. *)
Lemma blank_needle_gap (text sub : string) (k : Z) :
  all_chars Py.isspace sub = true -> k = Py.len sub ->
  let idx := Py.rfind (Py.slice_to text limit) sub in
  (0 <= idx)%Z ->
  all_chars Py.isspace
    (Py.take (Z.to_nat (idx + k) - Z.to_nat idx) (Py.drop (Z.to_nat idx) text))
  = true.
Proof.
  intros B -> idx H.
  replace (Z.to_nat (idx + Py.len sub) - Z.to_nat idx) with (String.length sub)
    by (unfold Py.len; lia).
  unfold idx. now rewrite found_in_text.
Qed.

Lemma sentence_gap (text : string) (mark : ascii) :
  let idx := Py.rfind (Py.slice_to text limit) (String mark " ") in
  (0 <= idx)%Z ->
  all_chars Py.isspace
    (Py.take (Z.to_nat (idx + 2) - Z.to_nat (idx + 1))
       (Py.drop (Z.to_nat (idx + 1)) text))
  = true.
Proof.
  intros idx H.
  pose proof (found_in_text text (String mark " ") H) as F. fold idx in F.
  replace (Z.to_nat (idx + 2) - Z.to_nat (idx + 1)) with 1 by lia.
  replace (Z.to_nat (idx + 1)) with (Z.to_nat idx + 1) by lia.
  rewrite <- drop_drop.
  destruct (Py.drop (Z.to_nat idx) text) as [|a [|b t]]; try discriminate.
  simpl in F. injection F as _ ->. reflexivity.
Qed.

(** The split step loses white space only. *)
Lemma split_keeps (text : string) :
  squeeze (fst (_split_at_break_point text limit))
  ++ squeeze (snd (_split_at_break_point text limit))
  = squeeze text.
Proof.
  unfold _split_at_break_point.
  pose proof (half_nonneg limit limit_positive) as Hh.
  destruct (Py.len text <=? limit)%Z; [cbn [fst snd]; apply append_nil_r|].
  cbv zeta.
  destruct (Z.quot limit 2 <? Py.rfind (Py.slice_to text limit) (NL ++ NL))%Z
    eqn:E1.
  { apply Z.ltb_lt in E1. cbn [fst snd]. apply break_keeps; [lia|].
    apply (blank_needle_gap text (NL ++ NL) 2); [reflexivity | reflexivity | lia]. }
  destruct (Z.quot limit 2 <? Py.rfind (Py.slice_to text limit) NL)%Z eqn:E2.
  { apply Z.ltb_lt in E2. cbn [fst snd]. apply break_keeps; [lia|].
    apply (blank_needle_gap text NL 1); [reflexivity | reflexivity | lia]. }
  match goal with
  | |- context [(Z.quot limit 2 <? ?se)%Z] =>
      destruct (Z.quot limit 2 <? se)%Z eqn:E3
  end.
  { apply Z.ltb_lt in E3. cbn [fst snd]. apply break_keeps; [lia|].
    destruct (Z.max_spec (Py.rfind (Py.slice_to text limit) ". ")
                (Py.rfind (Py.slice_to text limit) "! ")) as [[_ M1] | [_ M1]];
      rewrite M1 in *;
      match goal with
      | |- context [Z.max ?a ?b] =>
          destruct (Z.max_spec a b) as [[_ M2] | [_ M2]]; rewrite M2 in *
      end;
      apply sentence_gap; lia. }
  destruct (Z.quot limit 2 <? Py.rfind (Py.slice_to text limit) " ")%Z eqn:E4.
  { apply Z.ltb_lt in E4. cbn [fst snd]. apply break_keeps; [lia|].
    apply (blank_needle_gap text " " 1); [reflexivity | reflexivity | lia]. }
  cbn [fst snd]. unfold Py.slice_to, Py.slice_from.
  now rewrite <- squeeze_app, take_drop.
Qed.

Lemma join_app (a b : list string) : join (a ++ b) = join a ++ join b.
Proof.
  induction a as [|c a IH]; simpl; [reflexivity|].
  now rewrite IH, append_assoc.
Qed.

Lemma join_filter (l : list string) :
  join (filter (fun c => negb (Py.falsy c)) l) = join l.
Proof.
  induction l as [|c l IH]; simpl; [reflexivity|].
  destruct c; simpl; now rewrite IH.
Qed.

(** The loop loses white space only. *)
Lemma chunk_loop_keeps (fuel : nat) :
  forall (remaining : string) (chunks out : list string),
    chunk_loop fuel limit remaining chunks = Some out ->
    squeeze (join out) = squeeze (join chunks) ++ squeeze remaining.
Proof.
  induction fuel as [|fuel IH]; intros remaining chunks out.
  - destruct remaining; simpl; [|discriminate].
    intros [= <-]. now rewrite append_nil_r.
  - destruct remaining as [|c r].
    { simpl. intros [= <-]. now rewrite append_nil_r. }
    change (chunk_loop (S fuel) limit (String c r) chunks) with
      (let '(chunk, remaining) := _split_at_break_point (String c r) limit in
       chunk_loop fuel limit remaining
         (if Py.falsy chunk then chunks else (chunks ++ [chunk])%list)).
    pose proof (split_keeps (String c r)) as K.
    destruct (_split_at_break_point (String c r) limit) as [chunk rest].
    cbn [fst snd] in K. intros H. apply IH in H. rewrite H, <- K.
    destruct (Py.falsy chunk) eqn:F.
    + apply falsy_true in F. now subst.
    + rewrite join_app, squeeze_app. simpl join.
      now rewrite append_nil_r, append_assoc.
Qed.

End ChunkContent.

(** X8: under a positive limit the chunks of a text are not empty and fit the
    limit; a blank text has no chunk, and a text that fits once trimmed is
    its own single chunk. *)
Theorem chunks_fit_the_limit (limit : option Z) (text : string) (fuel : nat) :
  (0 < effective limit)%Z ->
  String.length text <= fuel ->
  exists chunks,
    chunk_whatsapp_text fuel text limit = Some chunks
    /\ Forall (kept_chunk (effective limit)) chunks
    /\ (Py.strip text = "" -> chunks = [])
    /\ (Py.strip text <> "" -> (Py.len (Py.strip text) <= effective limit)%Z ->
        chunks = [Py.strip text]).
Proof.
  intros Hpos Hfuel.
  destruct (chunk_whatsapp_text_shape limit text fuel Hpos Hfuel)
    as (Hblank & Hfit & Hlong).
  destruct (string_dec (Py.strip text) "") as [E|E].
  { exists []. split; [auto|]. split; [constructor|]. split; [auto | tauto]. }
  destruct (Z_le_gt_dec (Py.len (Py.strip text)) (effective limit)) as [F|F].
  { exists [Py.strip text]. split; [auto|].
    split; [repeat constructor; assumption|]. split; [tauto | auto]. }
  destruct (Hlong E ltac:(lia)) as (chunks & Hc & Hall).
  exists chunks. split; [exact Hc|]. split; [exact Hall|].
  split; [tauto | intros; lia].
Qed.

Lemma chunks_fit_the_limit_witness :
  exists chunks,
    chunk_whatsapp_text 32 "First sentence. Second sentence." (Some 20%Z)
    = Some chunks
    /\ Forall (kept_chunk 20) chunks.
Proof.
  destruct (chunks_fit_the_limit (Some 20%Z) "First sentence. Second sentence."
              32 ltac:(reflexivity) ltac:(simpl; lia))
    as (chunks & H & F & _).
  eauto.
Defined.

(** X9: under a positive limit chunking loses white space only: the chunks put
    end to end are, white space apart, the text. *)
Theorem chunks_keep_the_text (limit : option Z) (text : string) (fuel : nat) :
  (0 < effective limit)%Z ->
  String.length text <= fuel ->
  exists chunks,
    chunk_whatsapp_text fuel text limit = Some chunks
    /\ squeeze (join chunks) = squeeze text.
Proof.
  intros Hpos Hfuel.
  destruct (chunk_whatsapp_text_shape limit text fuel Hpos Hfuel)
    as (Hblank & Hfit & Hlong).
  destruct (string_dec (Py.strip text) "") as [E|E].
  { exists []. split; [auto|]. rewrite <- (squeeze_strip text), E. reflexivity. }
  destruct (Z_le_gt_dec (Py.len (Py.strip text)) (effective limit)) as [F|F].
  { exists [Py.strip text]. split; [auto|]. simpl.
    now rewrite append_nil_r, squeeze_strip. }
  destruct (Hlong E ltac:(lia)) as (chunks & Hc & _).
  exists chunks. split; [exact Hc|].
  unfold chunk_whatsapp_text in Hc. fold (effective limit) in Hc.
  cbv zeta in Hc.
  destruct (Py.falsy text || Py.falsy (Py.strip text)) eqn:B.
  { apply orb_true_iff in B as [B | B]; apply falsy_true in B;
      [subst text; contradiction | contradiction]. }
  replace (Py.len (Py.strip text) <=? effective limit)%Z with false in Hc
    by (symmetry; apply Z.leb_gt; lia).
  destruct (chunk_loop fuel (effective limit) (Py.strip text) []) as [out|] eqn:L;
    [|discriminate].
  simpl in Hc. injection Hc as <-.
  rewrite join_filter, (chunk_loop_keeps _ Hpos _ _ _ _ L).
  simpl. apply squeeze_strip.
Qed.

Lemma chunks_keep_the_text_witness :
  exists chunks,
    chunk_whatsapp_text 36 "Hello World! This is a test message." (Some 20%Z)
    = Some chunks
    /\ squeeze (join chunks) = "HelloWorld!Thisisatestmessage.".
Proof.
  exact (chunks_keep_the_text (Some 20%Z)
           "Hello World! This is a test message." 36
           ltac:(reflexivity) ltac:(simpl; lia)).
Defined.


(* ------------------------------------------------------------------------- *)
(** * Invariants of a resolved account *)
(* ------------------------------------------------------------------------- *)

Section ResolvedAccount.

Context {pydantic : Pydantic}.

(** The source of a resolved token is [NONE] exactly when the token is
    empty. *)
Lemma token_source_none (runtime : AgentRuntime) (account_id : string)
    (resolution : WhatsAppTokenResolution) :
  resolve_whatsapp_token runtime account_id = Ok resolution ->
  (source resolution = NONE <-> token resolution = "").
Proof.
  intros H.
  destruct (get_multi_account_config runtime) as [multi_config|e] eqn:Hm;
    [|unfold resolve_whatsapp_token in H; rewrite Hm in H; discriminate].
  destruct (get_account_config_returns runtime account_id _ Hm) as [ac Ha].
  rewrite (resolve_whatsapp_token_unfold _ _ _ _ Hm Ha) in H.
  repeat match type of H with
         | (if ?b then _ else _) = _ =>
             let N := fresh "N" in destruct b eqn:N
         end;
    injection H as <-; simpl; try tauto;
    (match goal with
     | N : nonblank _ = true |- _ => apply nonblank_stripped in N
     end; split; [discriminate | contradiction]).
Qed.

Lemma strip_or_none_not_empty (s : option string) :
  strip_or_none s <> Some "".
Proof.
  destruct s as [s|]; simpl; [|discriminate].
  destruct (Py.falsy s); [discriminate|].
  destruct (Py.falsy (Py.strip s)) eqn:F; [discriminate|].
  apply falsy_false in F. congruence.
Qed.

End ResolvedAccount.

(** X16: what holds of every account that [resolve_whatsapp_account] returns:
    its id is the normalized id that was asked for; its token source is
    [NONE] exactly when its token is empty; it is disabled when the global
    configuration or the merged configuration says [enabled = False]; and
    its name and business-account id are trimmed and never the empty
    string. *)
Theorem resolved_account_invariants {pydantic : Pydantic}
    (runtime : AgentRuntime) (account_id : option string)
    (account : ResolvedWhatsAppAccount) :
  resolve_whatsapp_account runtime account_id = Ok account ->
  res_account_id account = normalize_account_id account_id
  /\ (res_token_source account = NONE <-> res_access_token account = "")
  /\ (forall multi_config,
        get_multi_account_config runtime = Ok multi_config ->
        (res_enabled account = true
         <-> multi_enabled multi_config <> Some false
             /\ enabled (res_config account) <> Some false))
  /\ res_name account <> Some ""
  /\ res_business_account_id account <> Some ""
  /\ Py.strip (res_phone_number_id account) = res_phone_number_id account.
Proof.
  unfold resolve_whatsapp_account. intros H.
  bind_inv H. bind_inv H. bind_inv H. injection H as <-. simpl.
  split; [reflexivity|].
  split; [now apply token_source_none with runtime (normalize_account_id account_id)|].
  split.
  { intros multi_config Hm. injection Hm as <-.
    rewrite andb_true_iff.
    destruct (multi_enabled a) as [[|]|]; destruct (enabled a0) as [[|]|];
      simpl; intuition congruence. }
  split; [apply strip_or_none_not_empty|].
  split; [apply strip_or_none_not_empty | apply strip_strip].
Qed.

Lemma resolved_account_invariants_witness :
  exists account,
    resolve_whatsapp_account (pydantic := strict_mode)
      (_rt (Some [("enabled", PBool false);
                  ("accounts",
                   PDict [("Business",
                           PDict [("enabled", PBool true);
                                  ("name", PStr "  Shop  ")])])]) [])
      (Some " BUSINESS ")
    = Ok account
    /\ res_account_id account = "business"
    /\ res_enabled account = false
    /\ res_name account = Some "Shop"
    /\ res_token_source account = NONE.
Proof.
  eexists. split; [reflexivity|].
  split; [|repeat split].
  match goal with
  | |- res_account_id ?acc = _ =>
      refine (eq_trans (proj1 (resolved_account_invariants (pydantic := strict_mode)
                 (_rt (Some [("enabled", PBool false);
                             ("accounts",
                              PDict [("Business",
                                      PDict [("enabled", PBool true);
                                             ("name", PStr "  Shop  ")])])]) [])
                 (Some " BUSINESS ") acc eq_refl)) _)
  end.
  reflexivity.
Defined.

(* ------------------------------------------------------------------------- *)
(** * Senders in a group *)
(* ------------------------------------------------------------------------- *)

(** X18: in a group the sender is judged by [group_policy], read as
    ["allowlist"] when it is unset or empty: ["disabled"] denies and
    ["open"] allows every sender; otherwise an allowlist of the group that
    is not empty decides alone, whatever the account-level allowlist holds;
    without one an account-level group allowlist that is not empty decides,
    and without either the sender is allowed exactly when the policy is
    not ["allowlist"], which is how [is_whatsapp_group_allowed] judges a
    group without configuration.  Of the group configuration only
    [allow_from] is read. *)
Theorem group_sender_policy
    (identifier : string) (account_config : WhatsAppAccountRuntimeConfig)
    (group_id : option string)
    (group_config : option WhatsAppGroupRuntimeConfig) :
  let allowed :=
    is_whatsapp_user_allowed identifier account_config true group_id
      group_config in
  (group_policy account_config = Some "disabled" -> allowed = false)
  /\ (group_policy account_config = Some "open" -> allowed = true)
  /\ (group_policy account_config <> Some "disabled" ->
      group_policy account_config <> Some "open" ->
      (forall gc, group_config = Some gc -> entries (grp_allow_from gc) <> [] ->
         allowed = any_str_eq identifier (entries (grp_allow_from gc)))
      /\ ((group_config = None
           \/ exists gc, group_config = Some gc /\ entries (grp_allow_from gc) = []) ->
          (entries (group_allow_from account_config) <> [] ->
           allowed
           = any_str_eq identifier (entries (group_allow_from account_config)))
          /\ (entries (group_allow_from account_config) = [] ->
              (allowed = true
               <-> exists policy,
                     group_policy account_config = Some policy
                     /\ policy <> "" /\ policy <> "allowlist"))
          /\ allowed = is_whatsapp_group_allowed identifier account_config None))
  /\ (forall gc gc',
        group_config = Some gc -> grp_allow_from gc = grp_allow_from gc' ->
        allowed
        = is_whatsapp_user_allowed identifier account_config true group_id
            (Some gc')).
Proof.
  cbv zeta.
  unfold is_whatsapp_user_allowed, is_whatsapp_group_allowed. cbv zeta.
  split; [intros ->; reflexivity|].
  split; [intros ->; reflexivity|].
  split.
  - intros Hd Ho.
    apply policy_or_differs with (default := "allowlist") in Hd, Ho;
      try discriminate.
    apply String.eqb_neq in Hd, Ho. rewrite Hd, Ho. split.
    + intros gc -> Hne.
      destruct (grp_allow_from gc) as [[|a l]|]; simpl in *;
        try contradiction; reflexivity.
    + intros G.
      assert (E : match group_config with
                  | Some gc => nonempty_list (grp_allow_from gc)
                  | None => None
                  end = None).
      { destruct G as [-> | (gc & -> & He)]; [reflexivity|].
        destruct (grp_allow_from gc) as [[|a l]|]; simpl in *;
          try discriminate; reflexivity. }
      rewrite E. clear E G. split; [|split; [|reflexivity]].
      * intros Hne.
        destruct (group_allow_from account_config) as [[|a l]|]; simpl in *;
          try contradiction; reflexivity.
      * intros He.
        destruct (nonempty_list (group_allow_from account_config))
          as [l|] eqn:E.
        { apply nonempty_list_some in E as [E Hl]. rewrite E in He.
          simpl in He. contradiction. }
        rewrite negb_true_iff, String.eqb_neq.
        destruct (group_policy account_config) as [[|c s]|]; simpl.
        -- split; [congruence | intros (p & [= <-] & N & _); congruence].
        -- split; [intros N; exists (String c s); repeat split; congruence
                  | intros (p & [= <-] & _ & N); exact N].
        -- split; [congruence | intros (p & [=] & _)].
  - intros gc gc' -> E. now rewrite E.
Qed.

Lemma group_sender_policy_witness :
  let group :=
    {| grp_enabled := None; grp_allow_from := Some [IsStr "+1555"];
       grp_require_mention := None; grp_system_prompt := None;
       grp_skills := None |} in
  is_whatsapp_user_allowed "+4179"
    (policy_account None None None (Some [IsStr "+4179"]))
    true None (Some group)
  = false
  /\ is_whatsapp_user_allowed "+1555"
       (policy_account None (Some "disabled") None None)
       true None (Some group)
     = false.
Proof.
  cbv zeta. split.
  - match goal with
    | |- is_whatsapp_user_allowed ?i ?c true ?g (Some ?gc) = _ =>
        destruct (group_sender_policy i c g (Some gc)) as (_ & _ & H & _);
        rewrite (proj1 (H ltac:(discriminate) ltac:(discriminate))
                   gc eq_refl ltac:(discriminate))
    end.
    reflexivity.
  - match goal with
    | |- is_whatsapp_user_allowed ?i ?c true ?g ?gc = _ =>
        exact (proj1 (group_sender_policy i c g gc) eq_refl)
    end.
Defined.


(* ------------------------------------------------------------------------- *)
(** * Precedence of the configuration layers *)
(* ------------------------------------------------------------------------- *)

Section Precedence.

Context {pydantic : Pydantic}.

Lemma or_none_dump (s : option string) :
  or_none s
  = dump_opt PStr (match s with
                   | Some s => if Py.falsy s then None else Some s
                   | None => None
                   end).
Proof. destruct s as [[|c s]|]; reflexivity. Qed.

(** The merged value of a field whose layers hold dumped values is the
    dumped value of the first layer that is set. *)
Lemma layered_read {A : Type} (validate : pyval -> result (option A))
    (d : A -> pyval) (la lb le : option pyval) (xa xb xe r : option A) :
  (la = None /\ xa = None) \/ la = Some (dump_opt d xa) ->
  (lb = None /\ xb = None) \/ lb = Some (dump_opt d xb) ->
  (le = None /\ xe = None) \/ le = Some (dump_opt d xe) ->
  (forall x r, validate (dump_opt d x) = Ok r -> r = x) ->
  (forall a, is_none (d a) = false) ->
  validate (layered la lb le) = Ok r ->
  r = first_set xa xb xe.
Proof.
  intros Ha Hb He Hv Hd H. apply Hv. rewrite <- H. f_equal.
  assert (L : forall l x, (l = None /\ x = None) \/ l = Some (dump_opt d x) ->
              defined l = option_map d x).
  { intros l x [[-> ->] | ->]; [reflexivity|].
    destruct x as [a|]; simpl; [now rewrite Hd | reflexivity]. }
  unfold layered. rewrite (L _ _ Ha), (L _ _ Hb), (L _ _ He).
  destruct xa, xb, xe; reflexivity.
Qed.

Lemma read_str (x r : option string) :
  validate_opt_str (dump_opt PStr x) = Ok r -> r = x.
Proof. rewrite validate_dump_str. congruence. Qed.

Lemma read_bool (x r : option bool) :
  validate_opt_bool (dump_opt PBool x) = Ok r -> r = x.
Proof. rewrite validate_dump_bool. congruence. Qed.

Lemma read_int (x r : option Z) :
  validate_opt_int (dump_opt PInt x) = Ok r -> r = x.
Proof. rewrite validate_dump_int. congruence. Qed.

Lemma read_allow (x r : option (list str_or_int)) :
  validate_opt_list validate_str_or_int (dump_opt (dump_list dump_str_or_int) x)
  = Ok r -> r = x.
Proof. rewrite validate_dump_allow. congruence. Qed.

Lemma read_groups (x r : option (dict WhatsAppGroupRuntimeConfig)) :
  validate_opt_dict validate_group (dump_opt (dump_dict dump_group) x) = Ok r ->
  r = x.
Proof. rewrite validate_dump_groups. congruence. Qed.

Lemma read_policy (allowed : list string) (x r : option string) :
  validate_opt_literal allowed (dump_opt PStr x) = Ok r -> r = x.
Proof.
  destruct x as [s|]; simpl; [|congruence].
  destruct (existsb (String.eqb s) allowed); congruence.
Qed.

Local Opaque dump_opt or_none layered.

Lemma first_set_account {A : Type} (a : option A) : first_set a None None = a.
Proof. now destruct a. Qed.

(** The fields of the merged configuration, layer by layer. *)
Lemma merged_fields (runtime : AgentRuntime) (account_id : string)
    (multi_config : WhatsAppMultiAccountConfig)
    (account_config : option WhatsAppAccountRuntimeConfig)
    (merged : WhatsAppAccountRuntimeConfig) :
  get_multi_account_config runtime = Ok multi_config ->
  _get_account_config runtime account_id = Ok account_config ->
  _merge_whatsapp_account_config runtime account_id = Ok merged ->
  (name merged = of_account account_config name
   /\ allow_from merged = of_account account_config allow_from
   /\ group_allow_from merged = of_account account_config group_allow_from)
  /\ (enabled merged
      = first_set (of_account account_config enabled)
          (multi_enabled multi_config) None
      /\ api_version merged
         = first_set (of_account account_config api_version)
             (multi_api_version multi_config) None
      /\ media_max_mb merged
         = first_set (of_account account_config media_max_mb)
             (multi_media_max_mb multi_config) None
      /\ text_chunk_limit merged
         = first_set (of_account account_config text_chunk_limit)
             (multi_text_chunk_limit multi_config) None
      /\ groups merged
         = first_set (of_account account_config groups)
             (multi_groups multi_config) None)
  /\ (access_token merged
      = first_set (of_account account_config access_token)
          (multi_access_token multi_config)
          (setting runtime "WHATSAPP_ACCESS_TOKEN")
      /\ phone_number_id merged
         = first_set (of_account account_config phone_number_id)
             (multi_phone_number_id multi_config)
             (setting runtime "WHATSAPP_PHONE_NUMBER_ID")
      /\ business_account_id merged
         = first_set (of_account account_config business_account_id)
             (multi_business_account_id multi_config)
             (setting runtime "WHATSAPP_BUSINESS_ACCOUNT_ID")
      /\ webhook_verify_token merged
         = first_set (of_account account_config webhook_verify_token)
             (multi_webhook_verify_token multi_config)
             (setting runtime "WHATSAPP_WEBHOOK_VERIFY_TOKEN")
      /\ dm_policy merged
         = first_set (of_account account_config dm_policy)
             (multi_dm_policy multi_config)
             (setting runtime "WHATSAPP_DM_POLICY")
      /\ group_policy merged
         = first_set (of_account account_config group_policy)
             (multi_group_policy multi_config)
             (setting runtime "WHATSAPP_GROUP_POLICY")).
Proof.
  intros Hm Ha H.
  unfold _merge_whatsapp_account_config in H. rewrite Hm, Ha in H.
  cbn [bind] in H. unfold validate_account_fields in H.
  match type of H with
  | context [dict_update
               (dict_update (dict_update [] (_filter_defined ?E))
                  (_filter_defined ?B)) (_filter_defined ?A)] =>
      assert (NE : NoDup (map fst E)) by nodup_keys;
      assert (NB : NoDup (map fst B)) by nodup_keys;
      assert (NA : NoDup (map fst A)) by (destruct account_config; nodup_keys);
      repeat match type of H with
        | context [field _ ?k ?n] =>
            rewrite (field_merged E B A k n NE NB NA) in H
              by (first [ left; reflexivity
                        | right; destruct account_config; repeat split;
                          reflexivity ])
        end
  end.
  clear NE NB NA Hm Ha.
  repeat bind_inv H. injection H as <-.
  cbn [name enabled access_token phone_number_id business_account_id
       webhook_verify_token api_version allow_from group_allow_from dm_policy
       group_policy media_max_mb text_chunk_limit groups].
  unfold setting.
  destruct account_config as [c|]; cbn [of_account];
    repeat match goal with
      | E : ?V (layered _ _ _) = Ok ?x |- context [?x = _] =>
          cbn in E;
          eapply (layered_read V) in E;
          [ rewrite E; clear E
          | first [left; split; reflexivity | right; reflexivity
                  | right; f_equal; apply or_none_dump ] ..
          | first [ apply read_str | apply read_bool | apply read_int
                  | apply read_allow | apply read_groups | apply read_policy ]
          | intros; reflexivity ]
      end.
  all: rewrite !first_set_account; repeat split; reflexivity.
Qed.

End Precedence.

(** X15: when the merge of the configuration layers returns, every field of
    the merged configuration is the first value set among the account-level
    configuration, the base configuration and the environment, in this
    order.  [name], [allowFrom] and [groupAllowFrom] are read from the
    account only; [enabled], [apiVersion], [mediaMaxMb], [textChunkLimit] and
    [groups] have no environment layer; an empty environment setting counts
    as unset. *)
Theorem merge_precedence {pydantic : Pydantic}
    (runtime : AgentRuntime) (account_id : string)
    (multi_config : WhatsAppMultiAccountConfig)
    (account_config : option WhatsAppAccountRuntimeConfig)
    (merged : WhatsAppAccountRuntimeConfig) :
  get_multi_account_config runtime = Ok multi_config ->
  _get_account_config runtime account_id = Ok account_config ->
  _merge_whatsapp_account_config runtime account_id = Ok merged ->
  (name merged = of_account account_config name
   /\ allow_from merged = of_account account_config allow_from
   /\ group_allow_from merged = of_account account_config group_allow_from)
  /\ (enabled merged
      = first_set (of_account account_config enabled)
          (multi_enabled multi_config) None
      /\ api_version merged
         = first_set (of_account account_config api_version)
             (multi_api_version multi_config) None
      /\ media_max_mb merged
         = first_set (of_account account_config media_max_mb)
             (multi_media_max_mb multi_config) None
      /\ text_chunk_limit merged
         = first_set (of_account account_config text_chunk_limit)
             (multi_text_chunk_limit multi_config) None
      /\ groups merged
         = first_set (of_account account_config groups)
             (multi_groups multi_config) None)
  /\ (access_token merged
      = first_set (of_account account_config access_token)
          (multi_access_token multi_config)
          (setting runtime "WHATSAPP_ACCESS_TOKEN")
      /\ phone_number_id merged
         = first_set (of_account account_config phone_number_id)
             (multi_phone_number_id multi_config)
             (setting runtime "WHATSAPP_PHONE_NUMBER_ID")
      /\ business_account_id merged
         = first_set (of_account account_config business_account_id)
             (multi_business_account_id multi_config)
             (setting runtime "WHATSAPP_BUSINESS_ACCOUNT_ID")
      /\ webhook_verify_token merged
         = first_set (of_account account_config webhook_verify_token)
             (multi_webhook_verify_token multi_config)
             (setting runtime "WHATSAPP_WEBHOOK_VERIFY_TOKEN")
      /\ dm_policy merged
         = first_set (of_account account_config dm_policy)
             (multi_dm_policy multi_config)
             (setting runtime "WHATSAPP_DM_POLICY")
      /\ group_policy merged
         = first_set (of_account account_config group_policy)
             (multi_group_policy multi_config)
             (setting runtime "WHATSAPP_GROUP_POLICY")).
Proof. apply merged_fields. Qed.

Lemma merge_precedence_witness :
  exists merged,
    _merge_whatsapp_account_config (pydantic := strict_mode)
      (_rt (Some base_and_business)
         [("WHATSAPP_ACCESS_TOKEN", "env");
          ("WHATSAPP_BUSINESS_ACCOUNT_ID", "");
          ("WHATSAPP_DM_POLICY", "open")])
      "business"
    = Ok merged
    /\ access_token merged = Some "biz"
    /\ name merged = None.
Proof.
  eexists. split; [reflexivity|].
  match goal with
  | |- access_token ?m = _ /\ _ =>
      destruct (merge_precedence (pydantic := strict_mode)
                  (_rt (Some base_and_business)
                     [("WHATSAPP_ACCESS_TOKEN", "env");
                      ("WHATSAPP_BUSINESS_ACCOUNT_ID", "");
                      ("WHATSAPP_DM_POLICY", "open")])
                  "business" _ _ m eq_refl eq_refl eq_refl)
        as [[N _] [_ [T _]]]
  end.
  exact (conj T N).
Defined.


(* ------------------------------------------------------------------------- *)
(** * Normalized targets *)
(* ------------------------------------------------------------------------- *)

Section NormalizedTargets.

Lemma rstrip_last (s : string) (x : ascii) :
  last_char s = Some x -> Py.isspace x = false -> Py.rstrip s = s.
Proof.
  induction s as [|c s IH]; [discriminate|].
  destruct s as [|c' s].
  - simpl. intros [= ->] ->. reflexivity.
  - intros L X. change (last_char (String c (String c' s)))
      with (last_char (String c' s)) in L.
    change (Py.rstrip (String c (String c' s)))
      with (match Py.rstrip (String c' s) with
            | EmptyString => if Py.isspace c then EmptyString else String c EmptyString
            | r => String c r
            end).
    now rewrite (IH L X).
Qed.

Lemma strip_ends (s : string) (x : ascii) :
  lstripped s -> last_char s = Some x -> Py.isspace x = false -> Py.strip s = s.
Proof.
  intros H L X. unfold Py.strip. rewrite (lstripped_lstrip s H).
  now apply (rstrip_last s x).
Qed.

(** A string that is trimmed and does not start with the prefix is left as
    it is. *)
Lemma strip_prefixes_keeps (s : string) :
  Py.strip s = s -> sub_whatsapp_prefix s = s ->
  _strip_whatsapp_target_prefixes s = s.
Proof.
  intros S P. unfold _strip_whatsapp_target_prefixes. cbv zeta.
  rewrite S. cbn [strip_prefix_loop]. rewrite P, S, String.eqb_refl.
  reflexivity.
Qed.

Lemma sub_whatsapp_prefix_head (c : ascii) (s : string) :
  Py.isdigit c || Ascii.eqb c "+" = true ->
  sub_whatsapp_prefix (String c s) = String c s.
Proof.
  intros H. unfold sub_whatsapp_prefix.
  change (Py.take 9 (String c s)) with (String c (Py.take 8 s)).
  change (Py.lower (String c (Py.take 8 s)))
    with (String (Py.lower_char c) (Py.lower (Py.take 8 s))).
  destruct c as [[] [] [] [] [] [] [] []]; try discriminate H; reflexivity.
Qed.

Lemma clean_head_not_space (c : ascii) :
  Py.isdigit c || Ascii.eqb c "+" = true -> Py.isspace c = false.
Proof. destruct c as [[] [] [] [] [] [] [] []]; intros H; try discriminate H; reflexivity. Qed.

Lemma all_chars_last (p : ascii -> bool) (s : string) (x : ascii) :
  all_chars p s = true -> last_char s = Some x -> p x = true.
Proof.
  induction s as [|c s IH]; [discriminate|].
  simpl. intros H L. apply andb_true_iff in H as [Hc Hs].
  destruct s as [|c' s]; [now injection L as <- | now apply IH].
Qed.

Lemma last_char_some (s : string) : s <> "" -> exists x, last_char s = Some x.
Proof.
  induction s as [|c s IH]; [congruence|]. intros _.
  destruct s as [|c' s]; [now exists c|]. apply IH. discriminate.
Qed.

Lemma clean_lower (s : string) :
  all_chars (fun c => negb (e164_junk c)) s = true -> Py.lower s = s.
Proof.
  induction s as [|c s IH]; [reflexivity|]. simpl.
  intros H. apply andb_true_iff in H as [Hc Hs]. rewrite (IH Hs). f_equal.
  unfold e164_junk in Hc. rewrite negb_involutive in Hc.
  destruct c as [[] [] [] [] [] [] [] []]; try discriminate Hc; reflexivity.
Qed.

Lemma clean_no_at (s : string) :
  all_chars (fun c => negb (e164_junk c)) s = true -> Py.has_char "@" s = false.
Proof.
  induction s as [|c s IH]; [reflexivity|]. simpl.
  intros H. apply andb_true_iff in H as [Hc Hs]. rewrite (IH Hs).
  unfold e164_junk in Hc. rewrite negb_involutive in Hc.
  destruct c as [[] [] [] [] [] [] [] []]; try discriminate Hc; reflexivity.
Qed.

(** A string of digits and plus signs is its own candidate, and neither a
    group JID nor a user target. *)
Lemma clean_target (n : string) :
  all_chars (fun c => negb (e164_junk c)) n = true -> n <> "" ->
  _strip_whatsapp_target_prefixes n = n
  /\ is_whatsapp_group_jid n = false
  /\ is_whatsapp_user_target n = false.
Proof.
  intros C N.
  destruct (last_char_some n N) as [x L].
  pose proof (all_chars_last _ n x C L) as X.
  unfold e164_junk in X. rewrite negb_involutive in X.
  assert (S : _strip_whatsapp_target_prefixes n = n).
  { destruct n as [|c s]; [congruence|].
    assert (Hc : Py.isdigit c || Ascii.eqb c "+" = true).
    { simpl in C. apply andb_true_iff in C as [Hc _].
      unfold e164_junk in Hc. now rewrite negb_involutive in Hc. }
    apply strip_prefixes_keeps; [|now apply sub_whatsapp_prefix_head].
    apply (strip_ends _ x); [now apply clean_head_not_space | exact L
                            | now apply clean_head_not_space]. }
  split; [exact S|]. split.
  - unfold is_whatsapp_group_jid. cbv zeta. rewrite S, (clean_lower n C).
    destruct (Py.endswith n "@g.us") eqn:E; [|reflexivity].
    apply endswith_last_char in E; [|discriminate].
    rewrite L in E. injection E as ->. discriminate X.
  - unfold is_whatsapp_user_target. rewrite S.
    assert (L' : last_char (Py.lower n) = Some x) by now rewrite clean_lower.
    assert (Nl : x <> "010"%char) by (intros ->; discriminate X).
    rewrite !(re_match_last_char _ n x L' Nl).
    apply orb_false_iff. split; apply not_true_is_false; intros H.
    + unfold _WHATSAPP_USER_JID_RE in H.
      apply accepts_cat in H as (s1 & s2 & -> & _ & H).
      apply accepts_then_lit in H; [|discriminate].
      rewrite lower_app, last_char_app in L'.
      * rewrite H in L'. injection L' as <-. discriminate X.
      * intros E. rewrite E in H. discriminate.
    + apply accepts_then_lit in H; [|discriminate].
      rewrite H in L'. injection L' as <-. discriminate X.
Qed.

Lemma normalized_number_fixed (x : string) :
  (1 <? Py.len (normalize_e164 x))%Z = true ->
  normalize_whatsapp_target (normalize_e164 x) = Some (normalize_e164 x)
  /\ is_whatsapp_group_jid (normalize_e164 x) = false.
Proof.
  intros Len. pose proof (normalize_e164_clean x) as C.
  assert (N : normalize_e164 x <> "").
  { intros E. rewrite E in Len. discriminate. }
  destruct (clean_target _ C N) as (S & G & U).
  split; [|exact G].
  unfold normalize_whatsapp_target. cbv zeta.
  rewrite S, G, U, (clean_no_at _ C), normalize_e164_twice, Len.
  apply falsy_false in N. now rewrite N.
Qed.

Lemma take_app_length (a b : string) : Py.take (String.length a) (a ++ b) = a.
Proof. induction a as [|c a IH]; simpl; [now destruct b | now rewrite IH]. Qed.

Lemma drop_app_length (a b : string) : Py.drop (String.length a) (a ++ b) = b.
Proof. induction a as [|c a IH]; simpl; [reflexivity | exact IH]. Qed.

Lemma slice_to_suffix (a b : string) :
  Py.slice_to (a ++ b) (Py.len (a ++ b) - Py.len b) = a.
Proof.
  unfold Py.slice_to, Py.bound, Py.len. rewrite append_length.
  replace (Z.of_nat (String.length a + String.length b)
           - Z.of_nat (String.length b))%Z
    with (Z.of_nat (String.length a)) by lia.
  destruct (Z.of_nat (String.length a) <? 0)%Z eqn:E;
    [apply Z.ltb_lt in E; lia|].
  rewrite Nat2Z.id. apply take_app_length.
Qed.

Lemma endswith_app (a b : string) : Py.endswith (a ++ b) b = true.
Proof.
  unfold Py.endswith. rewrite append_length.
  replace (String.length a + String.length b - String.length b)
    with (String.length a) by lia.
  rewrite drop_app_length, String.eqb_refl, andb_true_r.
  apply Nat.leb_le. lia.
Qed.

(** A local part that passes the tests of [is_whatsapp_group_jid] gives a
    group JID that is its own normal form. *)
Lemma group_jid_fixed (local_part : string) :
  Py.falsy local_part || Py.has_char "@" local_part = false ->
  re_match _GROUP_LOCAL_RE local_part = true ->
  is_whatsapp_group_jid (local_part ++ "@g.us") = true
  /\ normalize_whatsapp_target (local_part ++ "@g.us")
     = Some (local_part ++ "@g.us").
Proof.
  intros F R.
  assert (S : _strip_whatsapp_target_prefixes (local_part ++ "@g.us")
              = local_part ++ "@g.us").
  { destruct (group_local_head _ R) as (c & s & -> & D).
    assert (Hc : Py.isdigit c || Ascii.eqb c "+" = true) by now rewrite D.
    apply strip_prefixes_keeps;
      [|exact (sub_whatsapp_prefix_head c (s ++ "@g.us") Hc)].
    apply (strip_ends _ "s"); [now apply clean_head_not_space | | reflexivity].
    now rewrite last_char_app. }
  assert (G : is_whatsapp_group_jid (local_part ++ "@g.us") = true).
  { unfold is_whatsapp_group_jid. cbv zeta. rewrite S, lower_app.
    change (Py.lower "@g.us") with "@g.us". rewrite endswith_app.
    simpl negb. cbv iota.
    rewrite (slice_to_suffix local_part "@g.us"), F. exact R. }
  split; [exact G|].
  unfold normalize_whatsapp_target. cbv zeta. rewrite S, G.
  rewrite (slice_to_suffix local_part "@g.us").
  destruct local_part; [discriminate F | reflexivity].
Qed.

End NormalizedTargets.

(** X6: a normalized target is its own normal form.  Whatever
    [normalize_whatsapp_target] returns is not empty, is returned again when
    it is normalized itself, and is a group JID exactly when the value it
    came from is one. *)
Theorem normalize_whatsapp_target_idempotent (value normalized : string) :
  normalize_whatsapp_target value = Some normalized ->
  normalized <> ""
  /\ normalize_whatsapp_target normalized = Some normalized
  /\ is_whatsapp_group_jid normalized = is_whatsapp_group_jid value.
Proof.
  unfold normalize_whatsapp_target. cbv zeta.
  assert (G0 : is_whatsapp_group_jid (_strip_whatsapp_target_prefixes value)
               = is_whatsapp_group_jid value).
  { unfold is_whatsapp_group_jid. now rewrite strip_prefixes_idempotent. }
  rewrite G0.
  set (candidate := _strip_whatsapp_target_prefixes value) in *.
  destruct (Py.falsy candidate); [discriminate|].
  assert (Number : forall x,
            (if (1 <? Py.len (normalize_e164 x))%Z
             then Some (normalize_e164 x) else None) = Some normalized ->
            normalized <> ""
            /\ normalize_whatsapp_target normalized = Some normalized
            /\ is_whatsapp_group_jid normalized = false).
  { intros x H. destruct (1 <? Py.len (normalize_e164 x))%Z eqn:Len;
      [|discriminate]. injection H as <-.
    destruct (normalized_number_fixed x Len) as [F G].
    repeat split; [|exact F | exact G].
    intros E. rewrite E in Len. discriminate. }
  destruct (is_whatsapp_group_jid value) eqn:G.
  - intros [= <-]. clear G. rename G0 into G.
    unfold is_whatsapp_group_jid in G. cbv zeta in G.
    assert (Sc : _strip_whatsapp_target_prefixes candidate = candidate)
      by apply strip_prefixes_idempotent.
    rewrite Sc in G.
    destruct (Py.endswith (Py.lower candidate) "@g.us");
      simpl negb in G; cbv iota in G; [|discriminate].
    match type of G with
    | (if ?b then _ else _) = _ => destruct b eqn:F; [discriminate G|]
    end.
    destruct (group_jid_fixed _ F G) as [G' N'].
    repeat split; [|exact N' | exact G'].
    destruct (Py.slice_to candidate _); discriminate.
  - destruct (is_whatsapp_user_target candidate).
    + destruct (_extract_user_jid_phone candidate) as [phone|]; [|discriminate].
      apply Number.
    + destruct (Py.has_char "@" candidate); [discriminate|]. apply Number.
Qed.

Lemma normalize_whatsapp_target_idempotent_witness :
  normalize_whatsapp_target "+41796666864" = Some "+41796666864"
  /\ is_whatsapp_group_jid "+41796666864"
     = is_whatsapp_group_jid "whatsapp:41796666864:0@S.WhatsApp.Net".
Proof.
  exact (proj2 (normalize_whatsapp_target_idempotent
                  "whatsapp:41796666864:0@S.WhatsApp.Net" "+41796666864"
                  eq_refl)).
Defined.

(* ------------------------------------------------------------------------- *)
(** * The configuration of a group *)
(* ------------------------------------------------------------------------- *)

(** X17: the configuration of a group is the entry of the account-level
    groups when they hold the group, and the entry of the base-level groups
    otherwise; an account-level entry stands for the whole group, no field
    of the base-level entry is read behind it.  An entry that the groups of
    the merged configuration hold is the one that is found, and a mention
    is required exactly when the entry found says so. *)
Theorem group_config_shadowing {pydantic : Pydantic} (runtime : AgentRuntime)
    (account_id group_id : string)
    (multi_config : WhatsAppMultiAccountConfig)
    (account_config : option WhatsAppAccountRuntimeConfig) :
  get_multi_account_config runtime = Ok multi_config ->
  _get_account_config runtime account_id = Ok account_config ->
  let lookup groups_ :=
    match groups_ with
    | Some gs => dict_get group_id gs
    | None => None
    end in
  let found :=
    first_set (lookup (of_account account_config groups))
      (lookup (multi_groups multi_config)) None in
  resolve_whatsapp_group_config runtime account_id group_id = Ok found
  /\ (forall merged,
        _merge_whatsapp_account_config runtime account_id = Ok merged ->
        forall group, lookup (groups merged) = Some group -> found = Some group)
  /\ (forall config,
        is_whatsapp_mention_required config found = true
        <-> exists group,
              found = Some group /\ grp_require_mention group = Some true).
Proof.
  intros Hm Ha lookup found. split; [|split].
  - unfold resolve_whatsapp_group_config. rewrite Hm, Ha. cbn [bind].
    subst found lookup. cbv beta.
    assert (N : forall d : option (dict WhatsAppGroupRuntimeConfig),
              match nonempty_dict d with
              | Some gs => dict_get group_id gs
              | None => None
              end
              = match d with
                | Some gs => dict_get group_id gs
                | None => None
                end)
      by (intros [[|kv gs]|]; reflexivity).
    destruct account_config as [c|]; cbn [of_account].
    + rewrite N. destruct (groups c) as [gs|]; cbn [first_set].
      * destruct (dict_get group_id gs); [reflexivity|].
        destruct (multi_groups multi_config) as [[|kv gs']|]; try reflexivity.
        cbn [nonempty_dict]. now destruct (dict_get group_id (kv :: gs')).
      * destruct (multi_groups multi_config) as [[|kv gs']|]; try reflexivity.
        cbn [nonempty_dict]. now destruct (dict_get group_id (kv :: gs')).
    + cbn [first_set].
      destruct (multi_groups multi_config) as [[|kv gs']|]; try reflexivity.
      cbn [nonempty_dict]. now destruct (dict_get group_id (kv :: gs')).
  - intros merged M group L.
    destruct (merged_fields runtime account_id multi_config account_config
                merged Hm Ha M) as (_ & (_ & _ & _ & _ & G) & _).
    rewrite G in L. subst found.
    destruct (of_account account_config groups) as [gs|]; cbn [first_set] in L.
    + cbn [lookup] in *. now rewrite L.
    + destruct (multi_groups multi_config) as [gs|];
        cbn [lookup] in *; [now rewrite L | discriminate L].
  - intros config. unfold is_whatsapp_mention_required. split.
    + destruct found as [g|]; [|discriminate].
      destruct (grp_require_mention g) as [[]|] eqn:R; try discriminate.
      intros _. now exists g.
    + intros (g & -> & ->). reflexivity.
Qed.

Lemma group_config_shadowing_witness :
  exists group,
    resolve_whatsapp_group_config (pydantic := strict_mode)
      (_rt (Some [("groups",
                   PDict [("120363@g.us", PDict [("requireMention", PBool true)])]);
                  ("accounts",
                   PDict [("business",
                           PDict [("groups",
                                   PDict [("120363@g.us",
                                           PDict [("enabled", PBool true)])])])])])
         [])
      "business" "120363@g.us"
    = Ok (Some group)
    /\ grp_require_mention group = None.
Proof.
  eexists. split; [exact (proj1 (group_config_shadowing (pydantic := strict_mode)
                  (_rt (Some [("groups",
                               PDict [("120363@g.us",
                                       PDict [("requireMention", PBool true)])]);
                              ("accounts",
                               PDict [("business",
                                       PDict [("groups",
                                               PDict [("120363@g.us",
                                                       PDict [("enabled", PBool true)])])])])])
                     [])
                  "business" "120363@g.us" _ _ eq_refl eq_refl)) | reflexivity].
Defined.
